(** * Banking document pipeline: chunker, entity validation, scoring, fallback

    A shallow embedding of the pure parts of
    [src/document_processor.py], [src/entity_extractor.py] and
    [src/rag_engine.py], with the properties the design document states
    about them.

    Conventions.
    - A Python [str] is a [string]; a character of type [ascii] stands for
      the code point of the same number, so the texts covered are those
      over U+0000..U+00FF.  On that range Python's character classes are
      finite tables, written out below.
    - A Python [int] is a [Z]; a Python [float] is a binary64 float,
      with the operations of IEEE 754 as [SpecFloat] defines them, and a
      result of that type is given by the rational number it stands for.
    - A Python [dict] is a [gmap]; a list is a [list].
    - A call that can raise returns a [res]; a loop that may not end takes
      fuel and returns [None] when the fuel runs out. *)

From Stdlib Require Import ZArith Lia List Ascii String QArith Qminmax Qabs.
From Stdlib Require Floats.SpecFloat.
From Stdlib Require Import Numbers.DecimalString Numbers.DecimalZ Sorting.Sorted.
From stdpp Require Import gmap strings list fin_maps.

Local Open Scope Z_scope.

(** ** Outcomes of calls *)

Inductive exn : Type :=
| IndexError
| KeyError
| ValueError
| BackendError (msg : string)
| StoreError (msg : string).

Inductive res (A : Type) : Type :=
| Ret (a : A)
| Raise (e : exn).
Arguments Ret {A} a.
Arguments Raise {A} e.

Definition bind {A B : Type} (m : res A) (f : A -> res B) : res B :=
  match m with
  | Ret a => f a
  | Raise e => Raise e
  end.

(** [try: m except: h] of Python, for handlers that catch [Exception]. *)
Definition try_except {A : Type} (m : res A) (h : exn -> res A) : res A :=
  match m with
  | Ret a => Ret a
  | Raise e => h e
  end.

(** ** Floats as Python has them *)

Module Float64.

(** Binary64: 53 bits of precision, exponents below 1024. *)
Definition float : Set := SpecFloat.spec_float.
Definition prec : Z := 53.
Definition emax : Z := 1024.

(** [float(z)] of an [int]: the nearest float, [z] itself when
    [|z| < 2^53]. *)
Definition of_int (z : Z) : float :=
  SpecFloat.binary_normalize prec emax z 0 false.

(** [x / y], [x * y], [x + y] and [x < y] of two floats: the exact
    result rounded to the nearest float, ties to even. *)
Definition div : float -> float -> float := SpecFloat.SFdiv prec emax.
Definition mul : float -> float -> float := SpecFloat.SFmul prec emax.
Definition add : float -> float -> float := SpecFloat.SFadd prec emax.
Definition ltb : float -> float -> bool := SpecFloat.SFltb.

(** The rational number a finite float stands for, in lowest terms. *)
Definition value (x : float) : Q :=
  match x with
  | SpecFloat.S754_finite s m e =>
      Qred (inject_Z (if s then Z.neg m else Z.pos m) * Qpower 2 e)
  | _ => 0%Q
  end.

End Float64.

(** ** Characters and strings as Python sees them *)

Module Py.

Definition ord (c : ascii) : N := N_of_ascii c.

Definition between (lo hi : N) (c : ascii) : bool :=
  ((lo <=? ord c) && (ord c <=? hi))%N.

(** [str.isspace] and the class [\s] of [re] on U+0000..U+00FF. *)
Definition isspace (c : ascii) : bool :=
  between 9 13 c || between 28 32 c
  || (ord c =? 133)%N || (ord c =? 160)%N.

(** [str.isdecimal] and the class [\d] of [re]: the decimal digits.
    On U+0000..U+00FF these are 0-9; beyond that range, which the
    strings here do not reach, [\d] has the decimal digits of the other
    scripts too. *)
Definition isdecimal (c : ascii) : bool := between 48 57 c.

Definition isupper_az (c : ascii) : bool := between 65 90 c.
Definition islower_az (c : ascii) : bool := between 97 122 c.

(** Letters of U+0080..U+00FF that have a lower-case partner 32 above
    them: U+00C0..U+00DE without the multiplication sign U+00D7. *)
Definition isupper_latin1 (c : ascii) : bool :=
  between 192 222 c && negb (ord c =? 215)%N.

(** [str.islower] of a one-character string. *)
Definition islower (c : ascii) : bool :=
  islower_az c || (ord c =? 170)%N || (ord c =? 181)%N || (ord c =? 186)%N
  || (between 223 255 c && negb (ord c =? 247)%N).

(** The class [\w] of [re]: alphanumeric or underscore. *)
Definition isword (c : ascii) : bool :=
  between 48 57 c || between 65 90 c || (ord c =? 95)%N || between 97 122 c
  || (ord c =? 170)%N || between 178 179 c || (ord c =? 181)%N
  || between 185 186 c || between 188 190 c
  || (between 192 255 c && negb (ord c =? 215)%N && negb (ord c =? 247)%N).

Definition lower_char (c : ascii) : ascii :=
  if isupper_az c || isupper_latin1 c then ascii_of_N (ord c + 32) else c.

(** [str.lower]. *)
Fixpoint lower (s : string) : string :=
  match s with
  | EmptyString => EmptyString
  | String c s' => String (lower_char c) (lower s')
  end.

Definition len (s : string) : Z := Z.of_nat (String.length s).

Fixpoint take (n : nat) (s : string) : string :=
  match n, s with
  | S n', String c s' => String c (take n' s')
  | _, _ => EmptyString
  end.

Fixpoint drop (n : nat) (s : string) : string :=
  match n, s with
  | S n', String _ s' => drop n' s'
  | _, _ => s
  end.

(** Where a slice bound lands: negative bounds count from the end, and
    the result is clamped to [0, len]. *)
Definition clamp (s : string) (i : Z) : Z :=
  if i <? 0 then Z.max (i + len s) 0 else Z.min i (len s).

(** [s[a:b]]. *)
Definition slice (s : string) (a b : Z) : string :=
  let a' := clamp s a in
  let b' := clamp s b in
  take (Z.to_nat (b' - a')) (drop (Z.to_nat a') s).

(** [s[:b]]. *)
Definition slice_to (s : string) (b : Z) : string := slice s 0 b.

(** [s[i]]: negative indices count from the end; out of range raises. *)
Definition getitem (s : string) (i : Z) : res ascii :=
  let j := if i <? 0 then i + len s else i in
  if (j <? 0) || (len s <=? j) then Raise IndexError
  else match String.get (Z.to_nat j) s with
       | Some c => Ret c
       | None => Raise IndexError
       end.

Fixpoint lstrip (s : string) : string :=
  match s with
  | EmptyString => EmptyString
  | String c s' => if isspace c then lstrip s' else s
  end.

(** Dropping trailing white space: a character stays when it is not
    white space or something after it stays. *)
Fixpoint rstrip (s : string) : string :=
  match s with
  | EmptyString => EmptyString
  | String c s' =>
      match rstrip s' with
      | EmptyString => if isspace c then EmptyString else String c EmptyString
      | r => String c r
      end
  end.

(** [str.strip()]. *)
Definition strip (s : string) : string := rstrip (lstrip s).

(** [c in s] for a character. *)
Fixpoint char_in (c : ascii) (s : string) : bool :=
  match s with
  | EmptyString => false
  | String d s' => Ascii.eqb c d || char_in c s'
  end.

Fixpoint startswith (p s : string) : bool :=
  match p, s with
  | EmptyString, _ => true
  | String a p', String b s' => Ascii.eqb a b && startswith p' s'
  | String _ _, EmptyString => false
  end.

(** [p in s] for strings. *)
Fixpoint contains (p s : string) : bool :=
  startswith p s ||
  match s with
  | EmptyString => false
  | String _ s' => contains p s'
  end.

(** [s.replace(c, '')] for a one-character [c]. *)
Fixpoint remove_char (c : ascii) (s : string) : string :=
  match s with
  | EmptyString => EmptyString
  | String d s' =>
      if Ascii.eqb c d then remove_char c s' else String d (remove_char c s')
  end.

(** The last character, if there is one. *)
Fixpoint last_char (s : string) : option ascii :=
  match s with
  | EmptyString => None
  | String c EmptyString => Some c
  | String _ s' => last_char s'
  end.

(** Every character of [s] is in the class [p]. *)
Fixpoint all (p : ascii -> bool) (s : string) : bool :=
  match s with
  | EmptyString => true
  | String c s' => p c && all p s'
  end.

(** [bool(s)]. *)
Definition truthy (s : string) : bool :=
  match s with EmptyString => false | _ => true end.

End Py.

(** ** [document_processor.chunk_text] *)

Module Chunker.

Definition CHUNK_SIZE : Z := 500.
Definition CHUNK_OVERLAP : Z := 50.

(** [re.sub(r'\s+', ' ', text)]: every maximal run of white space
    becomes one space.  [in_run] tells that the previous character was
    white space. *)
Fixpoint collapse_ws (in_run : bool) (s : string) : string :=
  match s with
  | EmptyString => EmptyString
  | String c s' =>
      if Py.isspace c
      then (if in_run then collapse_ws true s'
            else String " " (collapse_ws true s'))
      else String c (collapse_ws false s')
  end.

Definition normalize (text : string) : string :=
  Py.strip (collapse_ws false text).

Definition sentence_end (c : ascii) : bool :=
  Py.char_in c (String "." (String "!" (String "?" (String "010" EmptyString)))).

(** The inner [for i in range(end, stop, -1)] with its [break]: [n]
    indices starting at [i] and going down.  [Ret None] when no
    sentence end was seen, [Ret (Some i)] at the first one. *)
Fixpoint scan_back (text : string) (i : Z) (n : nat) : res (option Z) :=
  match n with
  | O => Ret None
  | S n' =>
      match Py.getitem text i with
      | Raise e => Raise e
      | Ret c =>
          if sentence_end c then Ret (Some i)
          else scan_back text (i - 1) n'
      end
  end.

Record loop_state : Type := LoopState {
  start : Z;
  chunk_index : Z;
  chunks : list (string * Z)
}.

(** Where the window starting at [start] is cut. *)
Definition window_end (text : string) (chunk_size st : Z) : res Z :=
  let e := st + chunk_size in
  if e <? Py.len text then
    let stop := Z.max (st + chunk_size / 2) st in
    match scan_back text e (Z.to_nat (e - stop)) with
    | Raise x => Raise x
    | Ret (Some i) => Ret (i + 1)
    | Ret None => Ret e
    end
  else Ret e.

(** One pass through the body of the [while]. *)
Definition chunk_step (text : string) (chunk_size overlap : Z)
    (s : loop_state) : res loop_state :=
  bind (window_end text chunk_size (start s)) (fun e =>
    let chunk := Py.strip (Py.slice text (start s) e) in
    if Py.truthy chunk
    then Ret (LoopState (e - overlap) (chunk_index s + 1)
                (chunks s ++ [(chunk, chunk_index s)]))
    else Ret (LoopState (e - overlap) (chunk_index s) (chunks s))).

(** The [while start < len(text)] loop. *)
Fixpoint chunk_loop (fuel : nat) (text : string) (chunk_size overlap : Z)
    (s : loop_state) : option (res (list (string * Z))) :=
  if start s <? Py.len text then
    match fuel with
    | O => None
    | S fuel' =>
        match chunk_step text chunk_size overlap s with
        | Raise e => Some (Raise e)
        | Ret s' => chunk_loop fuel' text chunk_size overlap s'
        end
    end
  else Some (Ret (chunks s)).

Definition chunk_text (fuel : nat) (text : string) (chunk_size overlap : Z)
    : option (res (list (string * Z))) :=
  let text := normalize text in
  if Py.len text <=? chunk_size then Some (Ret [(text, 0)])
  else chunk_loop fuel text chunk_size overlap (LoopState 0 0 []).

(** The start offsets of the windows the loop goes through. *)
Fixpoint starts (fuel : nat) (text : string) (chunk_size overlap : Z)
    (s : loop_state) : list Z :=
  if start s <? Py.len text then
    match fuel with
    | O => []
    | S fuel' =>
        start s ::
        match chunk_step text chunk_size overlap s with
        | Raise _ => []
        | Ret s' => starts fuel' text chunk_size overlap s'
        end
    end
  else [].

End Chunker.

(** ** [document_processor.classify_document] *)

Module Classifier.

(** The [classifications] table, in the order the dict literal gives. *)
Definition classifications : list (string * list string) :=
  [ ("loan_application",
      [ "loan application"; "loan amount"; "emi"; "interest rate";
        "home loan"; "personal loan"; "business loan"; "loan tenure";
        "principal amount"; "loan purpose"; "collateral" ]);
    ("kyc_document",
      [ "aadhaar"; "aadhar"; "pan card"; "kyc"; "know your customer";
        "identity proof"; "address proof"; "passport"; "voter id";
        "driving license"; "verification"; "identity document" ]);
    ("bank_statement",
      [ "account statement"; "transaction history"; "opening balance";
        "closing balance"; "credit"; "debit"; "statement period";
        "account number"; "transaction date"; "bank statement" ]);
    ("salary_slip",
      [ "salary slip"; "pay slip"; "gross salary"; "net salary";
        "basic pay"; "allowances"; "deductions"; "pf contribution";
        "income tax"; "take home"; "earnings" ]) ].

(** [sum(1 for kw in keywords if kw in text_lower)]. *)
Fixpoint score (keywords : list string) (text_lower : string) : Z :=
  match keywords with
  | [] => 0
  | kw :: rest =>
      (if Py.contains kw text_lower then 1 else 0) + score rest text_lower
  end.

(** The [scores] dict after the [for] loop; the keys are distinct, so
    the dict keeps them in the order of the table. *)
Definition scores (text_lower : string) : list (string * Z) :=
  List.map (fun entry => (fst entry, score (snd entry) text_lower))
    classifications.

(** [max(d, key=d.get)] keeps the first key it saw and replaces it only
    by a key that scores strictly more. *)
Fixpoint max_from (best : string * Z) (d : list (string * Z)) : string * Z :=
  match d with
  | [] => best
  | x :: d' => if snd best <? snd x then max_from x d' else max_from best d'
  end.

(** [max] of an empty iterable raises. *)
Definition max_key (d : list (string * Z)) : res (string * Z) :=
  match d with
  | [] => Raise ValueError
  | x :: d' => Ret (max_from x d')
  end.

Definition classify_document (text : string) : res string :=
  let text_lower := Py.lower text in
  bind (max_key (scores text_lower)) (fun best =>
    if snd best =? 0 then Ret "other" else Ret (fst best)).

(** *** The classification as the design document words it *)

(** [kw] occurs in [text] when case is ignored. *)
Definition ci_hit (text kw : string) : Prop :=
  exists pre mid post,
    text = pre +:+ mid +:+ post /\ Py.lower mid = Py.lower kw.

(** How many keywords of a list occur in [text] that way. *)
Inductive hit_count (text : string) : list string -> Z -> Prop :=
| hit_count_nil : hit_count text [] 0
| hit_count_hit (kw : string) (kws : list string) (n : Z) :
    ci_hit text kw -> hit_count text kws n ->
    hit_count text (kw :: kws) (1 + n)
| hit_count_miss (kw : string) (kws : list string) (n : Z) :
    ~ ci_hit text kw -> hit_count text kws n ->
    hit_count text (kw :: kws) (0 + n).

(** [ty] has the most hits: at least one, more than every type declared
    before it, and no fewer than every type declared after it. *)
Definition wins (text ty : string) : Prop :=
  exists before kws after n,
    classifications = before ++ (ty, kws) :: after
    /\ hit_count text kws n /\ 0 < n
    /\ (forall ty' kws' n',
          In (ty', kws') before -> hit_count text kws' n' -> n' < n)
    /\ (forall ty' kws' n',
          In (ty', kws') after -> hit_count text kws' n' -> n' <= n).

Definition lowercase (kw : string) : Prop := Py.lower kw = kw.

(** No keyword of any type occurs in [text]. *)
Definition no_hits (text : string) : Prop :=
  forall ty kws kw,
    In (ty, kws) classifications -> In kw kws -> ~ ci_hit text kw.

End Classifier.

(** ** The fragment of [re] the patterns use *)

Module Re.

Inductive regex : Type :=
| Class (p : ascii -> bool)   (** one character of a class *)
| Foreign                     (** a literal above U+00FF *)
| Bol                         (** [^] *)
| Eol                         (** [$] *)
| WordB                       (** [\b] *)
| Seq (r1 r2 : regex)
| Alt (r1 r2 : regex)
| Rep (lo : nat) (hi : option nat) (r : regex).  (** greedy [r{lo,hi}] *)

Definition wordish (c : option ascii) : bool :=
  match c with
  | Some c => Py.isword c
  | None => false
  end.

Definition next (s : string) : option ascii :=
  match s with
  | EmptyString => None
  | String c _ => Some c
  end.

(** [$] without [re.MULTILINE]: at the end, or before a newline that is
    the last character. *)
Definition at_dollar (s : string) : bool :=
  match s with
  | EmptyString => true
  | String c EmptyString => Ascii.eqb c "010"
  | _ => false
  end.

(** What has to match after a point of the text: it gets the character
    before the point and the text from the point on, and gives the text
    left after the whole match. *)
Definition cont : Type := option ascii -> string -> option string.

(** The rounds of a greedy repetition beyond the required ones: up to
    [n] more rounds of [step], each tried before going on with [k]. *)
Fixpoint rep_optional (step : option ascii -> string -> cont -> option string)
    (k : cont) (n : nat) (prev : option ascii) (s : string) : option string :=
  match n with
  | O => k prev s
  | S n' =>
      match step prev s (rep_optional step k n') with
      | Some out => Some out
      | None => k prev s
      end
  end.

(** The [n] required rounds, followed by up to [more] optional ones. *)
Fixpoint rep_required (step : option ascii -> string -> cont -> option string)
    (k : cont) (more n : nat) (prev : option ascii) (s : string)
    : option string :=
  match n with
  | O => rep_optional step k more prev s
  | S n' => step prev s (rep_required step k more n')
  end.

(** Backtracking matcher.  [prev] is the character before the current
    position, [s] the text from the position on, [k] what has to match
    afterwards.  Alternatives are tried left to right and a repetition
    first tries one more round, as [re] does.  An open repetition is
    bounded by the length of the text left, which is exact for a body
    that consumes a character, as every repeated body of the patterns
    below does. *)
Fixpoint run (r : regex) (prev : option ascii) (s : string) (k : cont)
    : option string :=
  match r with
  | Class p =>
      match s with
      | String c s' => if p c then k (Some c) s' else None
      | EmptyString => None
      end
  | Foreign => None
  | Bol => match prev with None => k prev s | Some _ => None end
  | Eol => if at_dollar s then k prev s else None
  | WordB =>
      if xorb (wordish prev) (wordish (next s)) then k prev s else None
  | Seq r1 r2 => run r1 prev s (fun p' s' => run r2 p' s' k)
  | Alt r1 r2 =>
      match run r1 prev s k with
      | Some out => Some out
      | None => run r2 prev s k
      end
  | Rep lo hi r1 =>
      let more :=
        match hi with
        | Some h => (h - lo)%nat
        | None => String.length s
        end in
      rep_required (run r1) k more lo prev s
  end.

(** Taking [n] characters of the class [p] off the text: the last
    character taken (or [prev] when [n] is 0) and the text left. *)
Fixpoint eat (p : ascii -> bool) (n : nat) (prev : option ascii)
    (s : string) : option (option ascii * string) :=
  match n with
  | O => Some (prev, s)
  | S n' =>
      match s with
      | String c s' => if p c then eat p n' (Some c) s' else None
      | EmptyString => None
      end
  end.

Definition stop (_ : option ascii) (rest : string) : option string :=
  Some rest.

(** [bool(re.match(r, s))]. *)
Definition matches (r : regex) (s : string) : bool :=
  match run r None s stop with
  | Some _ => true
  | None => false
  end.

(** [re.findall(r, s)] for a pattern without groups that cannot match
    the empty string: the matches from left to right, each search
    resuming where the previous match ended.  [skip] counts the
    characters still inside the previous match. *)
Fixpoint findall_from (r : regex) (prev : option ascii) (s : string)
    (skip : nat) : list string :=
  match s with
  | EmptyString => []
  | String c s' =>
      match skip with
      | S skip' => findall_from r (Some c) s' skip'
      | O =>
          match run r prev s stop with
          | Some rest =>
              let n := (String.length s - String.length rest)%nat in
              Py.take n s :: findall_from r (Some c) s' (n - 1)
          | None => findall_from r (Some c) s' 0
          end
      end
  end.

Definition findall (r : regex) (s : string) : list string :=
  findall_from r None s 0.

(** *** Character classes *)

Definition lit (c : ascii) : regex := Class (Ascii.eqb c).
(** A literal under [re.IGNORECASE]. *)
Definition lit_i (c : ascii) : regex :=
  Class (fun x => Ascii.eqb (Py.lower_char x) (Py.lower_char c)).
Definition upper : regex := Class Py.isupper_az.                 (** [[A-Z]] *)
Definition digit : regex := Class Py.isdecimal.               (** [[0-9]], [\d] *)
Definition space : regex := Class Py.isspace.                    (** [\s] *)
(** [[A-Z]] under [re.IGNORECASE] on U+0000..U+00FF: the letters A-Z
    and a-z.  Beyond that range, which the strings here do not reach,
    the class also has U+0130, U+0131, U+017F and U+212A, whose case
    partners are among these letters. *)
Definition letter_i : regex :=
  Class (fun c => Py.isupper_az c || Py.islower_az c).
Definition upper_or_digit : regex :=                             (** [[A-Z0-9]] *)
  Class (fun c => Py.isupper_az c || Py.isdecimal c).
Definition letter_or_digit_i : regex :=
  Class (fun c => Py.isupper_az c || Py.islower_az c || Py.isdecimal c).

Definition exactly (n : nat) (r : regex) : regex := Rep n (Some n) r.
Definition opt (r : regex) : regex := Rep 0 (Some 1%nat) r.
Definition plus (r : regex) : regex := Rep 1 None r.

Fixpoint seq (rs : list regex) (last : regex) : regex :=
  match rs with
  | [] => last
  | r :: rs' => Seq r (seq rs' last)
  end.

End Re.

(** ** [entity_extractor] *)

Module Entities.
Import Re.

(** The [PATTERNS] table, compiled with [re.IGNORECASE] as
    [extract_entities] does.  The rupee sign of the [amount] pattern is
    U+20B9 and so no character of a text of the model. *)
Definition PATTERNS : list (string * regex) :=
  [ (* \b[A-Z]{5}[0-9]{4}[A-Z]\b *)
    ("pan_number",
      seq [WordB; exactly 5 letter_i; exactly 4 digit; letter_i] WordB);
    (* \b\d{4}\s?\d{4}\s?\d{4}\b *)
    ("aadhaar_number",
      seq [WordB; exactly 4 digit; opt space; exactly 4 digit; opt space;
           exactly 4 digit] WordB);
    (* \b[6-9]\d{9}\b *)
    ("phone_number",
      seq [WordB; Class (Py.between 54 57); exactly 9 digit] WordB);
    (* \b[A-Za-z0-9._%+-]+@[A-Za-z0-9.-]+\.[A-Z|a-z]{2,}\b *)
    ("email",
      seq [WordB;
           plus (Class (fun c => Py.isupper_az c || Py.islower_az c
                                 || Py.isdecimal c || Py.char_in c "._%+-"));
           lit "@";
           plus (Class (fun c => Py.isupper_az c || Py.islower_az c
                                 || Py.isdecimal c || Py.char_in c ".-"));
           lit ".";
           Rep 2 None (Class (fun c => Py.isupper_az c || Py.islower_az c
                                       || Py.char_in c "|"))]
        WordB);
    (* (?:₹|Rs\.?|INR)\s?[\d,]+(?:\.\d{2})? *)
    ("amount",
      seq [Alt Foreign
             (Alt (seq [lit_i "R"; lit_i "s"] (opt (lit ".")))
                  (seq [lit_i "I"; lit_i "N"] (lit_i "R")));
           opt space;
           plus (Class (fun c => Py.isdecimal c || Py.char_in c ","))]
        (opt (Seq (lit ".") (exactly 2 digit))));
    (* \b\d{2}[/-]\d{2}[/-]\d{4}\b *)
    ("date",
      seq [WordB; exactly 2 digit; Class (fun c => Py.char_in c "/-");
           exactly 2 digit; Class (fun c => Py.char_in c "/-");
           exactly 4 digit] WordB);
    (* \b\d{9,18}\b *)
    ("account_number", seq [WordB; Rep 9 (Some 18%nat) digit] WordB);
    (* \b[A-Z]{4}0[A-Z0-9]{6}\b *)
    ("ifsc_code",
      seq [WordB; exactly 4 letter_i; lit "0"; exactly 6 letter_or_digit_i]
        WordB);
    (* \b[1-9]\d{5}\b *)
    ("pin_code",
      seq [WordB; Class (Py.between 49 57); exactly 5 digit] WordB);
    (* \b\d+(?:\.\d+)?% *)
    ("percentage",
      seq [WordB; plus digit; opt (Seq (lit ".") (plus digit))] (lit "%")) ].

(** [list(dict.fromkeys(matches))]: the first occurrence of each value,
    in order. *)
Fixpoint unique_from (seen : list string) (l : list string) : list string :=
  match l with
  | [] => []
  | x :: l' =>
      if bool_decide (x ∈ seen) then unique_from seen l'
      else x :: unique_from (x :: seen) l'
  end.

Definition unique (l : list string) : list string := unique_from [] l.

(** The body of the [for] loop of [extract_entities]. *)
Definition extract_one (text : string) (entities : gmap string (list string))
    (entry : string * regex) : gmap string (list string) :=
  let unique_matches := unique (findall (snd entry) text) in
  match unique_matches with
  | [] => entities
  | _ => <[fst entry := unique_matches]> entities
  end.

Definition extract_entities (text : string) : gmap string (list string) :=
  fold_left (extract_one text) PATTERNS ∅.

(** ^[A-Z]{5}[0-9]{4}[A-Z]$ *)
Definition pan_re : regex :=
  seq [Bol; exactly 5 upper; exactly 4 digit; upper] Eol.

(** ^\d{12}$ *)
Definition aadhaar_re : regex := seq [Bol; exactly 12 digit] Eol.

(** ^[A-Z]{4}0[A-Z0-9]{6}$ *)
Definition ifsc_re : regex :=
  seq [Bol; exactly 4 upper; lit "0"; exactly 6 upper_or_digit] Eol.

Definition valid_4th : list ascii :=
  ["P"; "C"; "H"; "F"; "A"; "T"; "B"; "L"; "J"; "G"]%char.

Definition validate_pan (pan : string) : res bool :=
  if negb (matches pan_re pan) then Ret false
  else
    bind (Py.getitem pan 3) (fun c =>
      if negb (bool_decide (c ∈ valid_4th)) then Ret false else Ret true).

Definition validate_aadhaar (aadhaar : string) : res bool :=
  let aadhaar_clean := Py.remove_char " " aadhaar in
  if negb (matches aadhaar_re aadhaar_clean) then Ret false
  else
    bind (Py.getitem aadhaar_clean 0) (fun c =>
      if bool_decide (c ∈ ["0"; "1"]%char) then Ret false else Ret true).

Definition validate_ifsc (ifsc : string) : bool := matches ifsc_re ifsc.

(** [sum(1 for x in l if f(x))], where [f] may raise. *)
Fixpoint count_valid (f : string -> res bool) (l : list string) : res Z :=
  match l with
  | [] => Ret 0
  | x :: l' =>
      bind (f x) (fun b =>
        bind (count_valid f l') (fun n => Ret ((if b then 1 else 0) + n)))
  end.

(** [[{'value': x, 'valid': f(x)} for x in l]]. *)
Fixpoint validated_list (f : string -> res bool) (l : list string)
    : res (list (string * bool)) :=
  match l with
  | [] => Ret []
  | x :: l' =>
      bind (f x) (fun b =>
        bind (validated_list f l') (fun rest => Ret ((x, b) :: rest)))
  end.

Record summary : Type := Summary {
  total_entities : Z;
  entity_counts : gmap string Z;
  validated : gmap string (list (string * bool))
}.

Definition validate_into (entities : gmap string (list string))
    (key out_key : string) (f : string -> res bool)
    (acc : gmap string (list (string * bool)))
    : res (gmap string (list (string * bool))) :=
  match entities !! key with
  | Some values =>
      bind (validated_list f values) (fun l => Ret (<[out_key := l]> acc))
  | None => Ret acc
  end.

Definition get_entity_summary (entities : gmap string (list string))
    : res summary :=
  let total :=
    map_fold (fun _ v acc => acc + Z.of_nat (List.length v)) 0 entities in
  let counts := (fun v => Z.of_nat (List.length v)) <$> entities in
  bind (validate_into entities "pan_number" "pan_numbers" validate_pan ∅)
    (fun v1 =>
  bind (validate_into entities "aadhaar_number" "aadhaar_numbers"
          validate_aadhaar v1)
    (fun v2 =>
  bind (validate_into entities "ifsc_code" "ifsc_codes"
          (fun s => Ret (validate_ifsc s)) v2)
    (fun v3 => Ret (Summary total counts v3)))).

Definition required_entities : gmap string (list string) :=
  list_to_map
    [ ("loan_application", ["pan_number"; "phone_number"; "amount"; "date"]);
      ("kyc_document",
        ["pan_number"; "aadhaar_number"; "phone_number"; "date"]);
      ("bank_statement", ["account_number"; "ifsc_code"; "date"; "amount"]);
      ("salary_slip", ["pan_number"; "amount"; "date"]);
      ("other", []) ].

(** [sum(1 for r in required if r in entities)]. *)
Fixpoint count_found (required : list string)
    (entities : gmap string (list string)) : Z :=
  match required with
  | [] => 0
  | r :: rest =>
      (if bool_decide (is_Some (entities !! r)) then 1 else 0)
      + count_found rest entities
  end.

(** The bonus of one validated entity type: 5 when the type was
    extracted and one of its values validates. *)
Definition bonus_for (entities : gmap string (list string)) (key : string)
    (f : string -> res bool) (validation_bonus : Z) : res Z :=
  match entities !! key with
  | Some values =>
      bind (count_valid f values) (fun n =>
        if 0 <? n then Ret (validation_bonus + 5) else Ret validation_bonus)
  | None => Ret validation_bonus
  end.

(** The score from an extraction result, computed in binary64 as
    Python computes it.  [found / len(required)] is the float nearest to
    the quotient of the two ints, which for ints below 2^53 is the
    quotient of the two floats; the ints 100 and [validation_bonus]
    become floats when they meet one.  [min(100, score)] is [score] when
    [score < 100] and the int 100 otherwise. *)
Definition score_entities (entities : gmap string (list string))
    (doc_type : string) : res Q :=
  let required := default [] (required_entities !! doc_type) in
  match required with
  | [] => Ret (Float64.value (Float64.of_int 75))
  | _ =>
      let found := count_found required entities in
      let completeness :=
        Float64.mul
          (Float64.div (Float64.of_int found)
             (Float64.of_int (Z.of_nat (List.length required))))
          (Float64.of_int 100) in
      bind (bonus_for entities "pan_number" validate_pan 0) (fun b1 =>
      bind (bonus_for entities "aadhaar_number" validate_aadhaar b1)
        (fun validation_bonus =>
          let score :=
            Float64.add completeness (Float64.of_int validation_bonus) in
          Ret (if Float64.ltb score (Float64.of_int 100)
               then Float64.value score
               else 100%Q)))
  end.

Definition calculate_quality_score (text doc_type : string) : res Q :=
  score_entities (extract_entities text) doc_type.

(** *** The score as the design document words it *)

(** [f] answers [True] on [v]. *)
Definition validates (f : string -> res bool) (v : string) : bool :=
  match f v with
  | Ret true => true
  | _ => false
  end.

(** At least one extracted value of the type [key] validates. *)
Definition any_valid (f : string -> res bool)
    (entities : gmap string (list string)) (key : string) : bool :=
  existsb (validates f) (default [] (entities !! key)).

(** The number of required types present in the extraction result. *)
Definition present_count (required : list string)
    (entities : gmap string (list string)) : Z :=
  Z.of_nat (List.length (filter (fun r => is_Some (entities !! r)) required)).

Definition expected_bonus (entities : gmap string (list string)) : Z :=
  (if any_valid validate_pan entities "pan_number" then 5 else 0)
  + (if any_valid validate_aadhaar entities "aadhaar_number" then 5 else 0).

(** The formula over the rational numbers. *)
Definition expected_score (entities : gmap string (list string))
    (required : list string) : Q :=
  Qmin 100
    (inject_Z (present_count required entities)
     / inject_Z (Z.of_nat (List.length required)) * 100
     + inject_Z (expected_bonus entities))%Q.

(** The same formula with each operation rounded to binary64. *)
Definition expected_score_binary64 (entities : gmap string (list string))
    (required : list string) : Q :=
  let score :=
    Float64.add
      (Float64.mul
         (Float64.div (Float64.of_int (present_count required entities))
            (Float64.of_int (Z.of_nat (List.length required))))
         (Float64.of_int 100))
      (Float64.of_int (expected_bonus entities)) in
  if Float64.ltb score (Float64.of_int 100) then Float64.value score
  else 100%Q.

(** *** The formats as the design document words them *)

(** [[A-Z]{5}[0-9]{4}[A-Z]]: five capitals, four digits, one capital,
    and nothing else. *)
Definition pan_format (s : string) : Prop :=
  exists letters digits c,
    s = letters +:+ digits +:+ String c ""
    /\ String.length letters = 5%nat /\ Py.all Py.isupper_az letters = true
    /\ String.length digits = 4%nat /\ Py.all Py.isdecimal digits = true
    /\ Py.isupper_az c = true.

(** The character at index 3 is a holder type. *)
Definition holder_type_ok (s : string) : Prop :=
  exists c, String.get 3 s = Some c /\ c ∈ valid_4th.

(** Twelve decimal digits, the first neither the character 0 nor the
    character 1. *)
Definition aadhaar_format (s : string) : Prop :=
  String.length s = 12%nat /\ Py.all Py.isdecimal s = true
  /\ exists c rest, s = String c rest /\ c <> "0"%char /\ c <> "1"%char.

(** [[A-Z]{4}0[A-Z0-9]{6}]. *)
Definition ifsc_format (s : string) : Prop :=
  exists bank branch,
    s = bank +:+ String "0" branch
    /\ String.length bank = 4%nat /\ Py.all Py.isupper_az bank = true
    /\ String.length branch = 6%nat
    /\ Py.all (fun c => Py.isupper_az c || Py.isdecimal c) branch = true.

(** The text holds a lower-case letter. *)
Definition has_lower (s : string) : Prop :=
  exists c, Py.char_in c s = true /\ Py.islower c = true.

(** Decimal digits and spaces only. *)
Definition digits_and_spaces (s : string) : Prop :=
  Py.all (fun c => Py.isdecimal c || Ascii.eqb c " ") s = true.

(** The first character is neither the character 0 nor the
    character 1. *)
Definition starts_above_one (s : string) : Prop :=
  exists c rest, s = String c rest /\ c <> "0"%char /\ c <> "1"%char.

(** The characters the anchored patterns can go over. *)
Definition upper_digit_or_newline (c : ascii) : bool :=
  Py.isupper_az c || Py.isdecimal c || Ascii.eqb c "010".

End Entities.

(** ** [rag_engine.RAGEngine] *)

Module Rag.

Definition OLLAMA_MODEL : string := "llama3:8b".

Definition nl : string := String "010" "".
Definition dquote : string := String "034" "".

(** A retrieved chunk, as [search] builds it.  Metadata values are kept
    as the text an f-string shows for them. *)
Record chunk : Type := Chunk {
  text : string;
  metadata : gmap string string;
  distance : Q;
  id : option string
}.

(** The [ollama] package as the engine sees it: what listing the model
    names gives, and what a chat call gives for a prompt and a token
    bound.  Either may raise, which also covers a failing [import] and a
    response without the expected keys. *)
Record ollama : Type := Ollama {
  list_names : res (list string);
  chat_content : string -> Z -> res string
}.

(** A record of the vector collection. *)
Record vrecord : Type := VRecord {
  embedding : list Q;
  document : string;
  rmeta : gmap string string
}.

(** The collection: its records by id, and whether the store answers at
    all (every call on a store that is down raises). *)
Record collection : Type := Collection {
  records : gmap string vrecord;
  down : bool
}.

(** The part of a [RAGEngine] the functions below read and write: the
    cached availability of the backend, and the collection the
    [collection] property returns, which lives in the store and is the
    same from the first use on.  The attributes [_embedder] and
    [_chroma_client], which the properties set on their first use, are
    left out: the embedder is the [encode] argument of [add_document].
    What is said of an engine below is said of these two parts. *)
Record engine : Type := Engine {
  _ollama_available : option bool;
  _collection : collection
}.

(** [s.split(':')[0]]: the text before the first colon. *)
Fixpoint before_colon (s : string) : string :=
  match s with
  | EmptyString => EmptyString
  | String c s' => if Ascii.eqb c ":" then EmptyString
                   else String c (before_colon s')
  end.

Definition check_ollama_available (backend : ollama) (self : engine)
    : bool * engine :=
  match _ollama_available self with
  | Some b => (b, self)
  | None =>
      let outcome :=
        try_except
          (bind (list_names backend) (fun model_names =>
             Ret (existsb (fun name =>
                            Py.contains (before_colon OLLAMA_MODEL) name)
                          model_names
                  || (0 <? Z.of_nat (List.length model_names)))))
          (fun _ => Ret false) in
      match outcome with
      | Ret b => (b, Engine (Some b) (_collection self))
      | Raise _ => (false, Engine (Some false) (_collection self))
      end
  end.

(** [chunk['metadata'].get('filename', 'Unknown')]. *)
Definition filename_of (c : chunk) : string :=
  default "Unknown" (metadata c !! "filename").

Fixpoint join (sep : string) (l : list string) : string :=
  match l with
  | [] => ""
  | [x] => x
  | x :: rest => x +:+ sep +:+ join sep rest
  end.

(** [str(i)] for an integer. *)
Definition str_of_int (i : Z) : string :=
  NilEmpty.string_of_int (Z.to_int i).

(** The body of the [for i, chunk in enumerate(..., 1)] loop of
    [_fallback_response], with the response built so far. *)
Fixpoint fallback_loop (i : Z) (cs : list chunk) (response : string)
    : string :=
  match cs with
  | [] => response
  | c :: rest =>
      let response :=
        response +:+ ("**" +:+ str_of_int i +:+ ". From " +:+ filename_of c
                      +:+ ":**" +:+ nl) in
      let response :=
        response +:+ (Py.slice_to (text c) 500 +:+ "..." +:+ nl +:+ nl) in
      fallback_loop (i + 1) rest response
  end.

Definition no_documents : string :=
  "No relevant documents found for your query.".

Definition fallback_header : string :=
  "**Ollama LLM not available. Here are the relevant document excerpts:**"
  +:+ nl +:+ nl.

Definition fallback_footer : string :=
  nl +:+ "*Install and run Ollama to get AI-powered answers: https://ollama.ai*".

Definition _fallback_response (query : string) (context_chunks : list chunk)
    : string :=
  match context_chunks with
  | [] => no_documents
  | _ =>
      let response := fallback_header in
      let response := fallback_loop 1 (firstn 3 context_chunks) response in
      response +:+ fallback_footer
  end.

(** *** The fallback format as the design document words it *)

(** One numbered excerpt: the name of the source file and the first
    500 characters of the text. *)
Definition excerpt (i : Z) (filename body : string) : string :=
  "**" +:+ str_of_int i +:+ ". From " +:+ filename +:+ ":**" +:+ nl
  +:+ Py.take 500 body +:+ "..." +:+ nl +:+ nl.

(** The excerpts of a list of file names and texts, numbered from [i]. *)
Fixpoint excerpts (i : Z) (sources : list (string * string)) : string :=
  match sources with
  | [] => ""
  | source :: rest =>
      excerpt i (fst source) (snd source) +:+ excerpts (i + 1) rest
  end.

(** [source] is the file name and the text of the chunk [c]: the name
    its metadata has under ["filename"], or ["Unknown"] when it has
    none there. *)
Definition source_of (c : chunk) (source : string * string) : Prop :=
  (metadata c !! "filename" = Some (fst source)
   \/ (metadata c !! "filename" = None /\ fst source = "Unknown"))
  /\ text c = snd source.

Definition build_context (context_chunks : list chunk) : string :=
  join (nl +:+ nl +:+ "---" +:+ nl +:+ nl)
    (List.map (fun c => "[Source: " +:+ filename_of c +:+ "]" +:+ nl +:+ text c)
       context_chunks).

Definition build_prompt (context query : string) : string :=
  "You are a helpful banking document assistant. Answer the user's question based ONLY on the provided context. If the information is not in the context, say "
  +:+ dquote +:+ "I don't have that information in the uploaded documents."
  +:+ dquote +:+ nl +:+ nl
  +:+ "CONTEXT:" +:+ nl +:+ context +:+ nl +:+ nl
  +:+ "USER QUESTION: " +:+ query +:+ nl +:+ nl
  +:+ "INSTRUCTIONS:" +:+ nl
  +:+ "- Answer based only on the context above" +:+ nl
  +:+ "- Be concise and accurate" +:+ nl
  +:+ "- Cite the source document when possible" +:+ nl
  +:+ "- If you can't find the answer, say so clearly" +:+ nl +:+ nl
  +:+ "ANSWER:".

Definition generate_response (backend : ollama) (self : engine)
    (query : string) (context_chunks : list chunk) (max_tokens : Z)
    : res string * engine :=
  let (available, self) := check_ollama_available backend self in
  if negb available
  then (Ret (_fallback_response query context_chunks), self)
  else
    let context := build_context context_chunks in
    let prompt := build_prompt context query in
    (try_except (chat_content backend prompt max_tokens)
       (fun _ => Ret (_fallback_response query context_chunks)),
     self).

(** What the caller gets back, without the engine. *)
Definition answer (backend : ollama) (self : engine) (query : string)
    (context_chunks : list chunk) (max_tokens : Z) : res string :=
  fst (generate_response backend self query context_chunks max_tokens).

(** [collection.get(where={key: value})['ids']]. *)
Definition collection_get (c : collection) (key value : string)
    : res (list string) :=
  if down c then Raise (StoreError "get")
  else Ret (map_to_list
              (filter (fun kv => rmeta (snd kv) !! key = Some value)
                 (records c))).*1.

(** [collection.delete(ids=ids)]. *)
Definition collection_delete (c : collection) (ids : list string)
    : res collection :=
  if down c then Raise (StoreError "delete")
  else Ret (Collection (foldr delete (records c) ids) (down c)).

Definition delete_document_embeddings (self : engine) (doc_id : string)
    : bool * engine :=
  let attempt :=
    bind (collection_get (_collection self) "document_id" doc_id)
      (fun ids =>
         match ids with
         | [] => Ret (_collection self)
         | _ => collection_delete (_collection self) ids
         end) in
  match attempt with
  | Ret c => (true, Engine (_ollama_available self) c)
  | Raise _ => (false, self)
  end.

End Rag.

(** ** [config] *)

Module Config.

Definition DOCUMENT_TYPES : list string :=
  ["loan_application"; "kyc_document"; "bank_statement"; "salary_slip";
   "other"].

End Config.

(** ** [document_processor.get_document_stats] *)

Module Stats.

(** [text.split()]: the maximal runs of characters that are not white
    space.  [cur] is the word read so far. *)
Fixpoint split_from (cur : string) (s : string) : list string :=
  match s with
  | EmptyString => if Py.truthy cur then [cur] else []
  | String c s' =>
      if Py.isspace c
      then (if Py.truthy cur then cur :: split_from "" s'
            else split_from "" s')
      else split_from (cur +:+ String c "") s'
  end.

Definition split (text : string) : list string := split_from "" text.

(** A text without white space. *)
Definition solid (w : string) : Prop :=
  Py.all (fun c => negb (Py.isspace c)) w = true.

(** A word: not empty and without white space. *)
Definition word (w : string) : Prop := w <> "" /\ solid w.

(** The class [[.!?]]. *)
Definition terminator (c : ascii) : bool := Py.char_in c ".!?".

(** [re.split(r'[.!?]+', text)]: the pieces between the maximal runs of
    terminators, empty pieces at both ends included.  [cur] is the piece
    read so far and [in_run] tells that the previous character was a
    terminator. *)
Fixpoint re_split_from (cur : string) (in_run : bool) (s : string)
    : list string :=
  match s with
  | EmptyString => [cur]
  | String c s' =>
      if terminator c
      then (if in_run then re_split_from "" true s'
            else cur :: re_split_from "" true s')
      else re_split_from (cur +:+ String c "") false s'
  end.

Definition re_split (text : string) : list string :=
  re_split_from "" false text.

(** [s.count(p)] for a non-empty [p]: the occurrences from left to
    right that do not overlap.  [skip] counts the characters still
    inside the previous occurrence. *)
Fixpoint count_from (p s : string) (skip : nat) : Z :=
  match s with
  | EmptyString => 0
  | String _ s' =>
      match skip with
      | S skip' => count_from p s' skip'
      | O =>
          if Py.startswith p s
          then 1 + count_from p s' (String.length p - 1)
          else count_from p s' 0
      end
  end.

Record document_stats : Type := DocumentStats {
  character_count : Z;
  word_count : Z;
  sentence_count : Z;
  page_markers : Z
}.

Definition get_document_stats (text : string) : document_stats :=
  let words := split text in
  let sentences := re_split text in
  DocumentStats
    (Py.len text)
    (Z.of_nat (List.length words))
    (Z.of_nat
       (List.length
          (List.filter (fun s => Py.truthy (Py.strip s)) sentences)))
    (count_from "--- Page" text 0).

End Stats.

(** ** What a pattern stands for *)

Module Lang.
Import Re.

(** The character before the point reached after reading [m]. *)
Definition after (prev : option ascii) (m : string) : option ascii :=
  match Py.last_char m with
  | Some c => Some c
  | None => prev
  end.

(** [n] pieces in a row, each in the relation [R]. *)
Fixpoint iter (n : nat) (R : option ascii -> string -> string -> Prop)
    (prev : option ascii) (m rest : string) : Prop :=
  match n with
  | O => m = ""
  | S n' =>
      exists m1 m2,
        m = m1 +:+ m2 /\ R prev m1 (m2 +:+ rest)
        /\ iter n' R (after prev m1) m2 rest
  end.

(** [lang r prev m rest]: the text [m], found after the character [prev]
    and before the text [rest], is a match of [r]. *)
Fixpoint lang (r : regex) (prev : option ascii) (m rest : string) : Prop :=
  match r with
  | Class p => exists c, m = String c "" /\ p c = true
  | Foreign => False
  | Bol => m = "" /\ prev = None
  | Eol => m = "" /\ at_dollar rest = true
  | WordB => m = "" /\ xorb (wordish prev) (wordish (next rest)) = true
  | Seq r1 r2 =>
      exists m1 m2,
        m = m1 +:+ m2 /\ lang r1 prev m1 (m2 +:+ rest)
        /\ lang r2 (after prev m1) m2 rest
  | Alt r1 r2 => lang r1 prev m rest \/ lang r2 prev m rest
  | Rep lo hi r1 =>
      exists n,
        (lo <= n)%nat
        /\ (forall h, hi = Some h -> (n <= lo + (h - lo))%nat)
        /\ iter n (lang r1) prev m rest
  end.

(** A pattern every match of which has a character. *)
Fixpoint consumes (r : regex) : bool :=
  match r with
  | Class _ => true
  | Foreign => true
  | Bol => false
  | Eol => false
  | WordB => false
  | Seq r1 r2 => consumes r1 || consumes r2
  | Alt r1 r2 => consumes r1 && consumes r2
  | Rep lo _ r1 => (0 <? lo)%nat && consumes r1
  end.

End Lang.

(** ** [entity_extractor.extract_entities_with_positions] *)

Module Positions.
Import Re.

(** One result dictionary. *)
Record entity_match : Type := EntityMatch {
  type : string;
  value : string;
  start : Z;
  end_ : Z;
  context : string
}.

(** [re.finditer(r, s)] from the offset [pos] on: for each match its
    text ([match.group()]), [match.start()] and [match.end()]. *)
Fixpoint finditer_from (r : regex) (prev : option ascii) (s : string)
    (pos : Z) (skip : nat) : list (string * Z * Z) :=
  match s with
  | EmptyString => []
  | String c s' =>
      match skip with
      | S skip' => finditer_from r (Some c) s' (pos + 1) skip'
      | O =>
          match run r prev s stop with
          | Some rest =>
              let n := (String.length s - String.length rest)%nat in
              (Py.take n s, pos, pos + Z.of_nat n)
              :: finditer_from r (Some c) s' (pos + 1) (n - 1)
          | None => finditer_from r (Some c) s' (pos + 1) 0
          end
      end
  end.

Definition finditer (r : regex) (s : string) : list (string * Z * Z) :=
  finditer_from r None s 0 0.

(** The inner [for match in re.finditer(...)] loop. *)
Definition matches_of (text : string) (entry : string * regex)
    : list entity_match :=
  List.map
    (fun m : string * Z * Z =>
       let '(group, match_start, match_end) := m in
       EntityMatch (fst entry) group match_start match_end
         (Py.slice text (Z.max 0 (match_start - 30))
            (Z.min (Py.len text) (match_end + 30))))
    (finditer (snd entry) text).

(** Where [sorted] puts an element among those already placed: after
    every element whose key is not greater, so that elements of equal
    key keep their order. *)
Fixpoint insert_by_start (x : entity_match) (l : list entity_match)
    : list entity_match :=
  match l with
  | [] => [x]
  | y :: l' =>
      if start x <? start y then x :: y :: l'
      else y :: insert_by_start x l'
  end.

(** [sorted(results, key=lambda x: x['start'])]. *)
Definition sorted_by_start (results : list entity_match)
    : list entity_match :=
  fold_left (fun acc x => insert_by_start x acc) results [].

Definition extract_entities_with_positions (text : string)
    : list entity_match :=
  let results :=
    fold_left (fun results entry => results ++ matches_of text entry)
      Entities.PATTERNS [] in
  sorted_by_start results.

End Positions.

(** ** [rag_engine.RAGEngine.add_document] *)

Module Index.
Import Rag.

(** [f"{doc_id}_chunk_{chunk_index}"]. *)
Definition embedding_id (doc_id : string) (chunk_index : Z) : string :=
  doc_id +:+ "_chunk_" +:+ str_of_int chunk_index.

(** [collection.add] of one record: an id the collection already has is
    left as it is. *)
Definition collection_add (c : collection) (rid : string) (r : vrecord)
    : res collection :=
  if down c then Raise (StoreError "add")
  else
    match records c !! rid with
    | Some _ => Ret c
    | None => Ret (Collection (<[rid := r]> (records c)) (down c))
    end.

(** [{**metadata, "document_id": doc_id, "chunk_index": chunk_index}];
    the values of the metadata are kept as text, the index as its
    decimal numeral. *)
Definition chunk_metadata (metadata : gmap string string) (doc_id : string)
    (chunk_index : Z) : gmap string string :=
  <["chunk_index" := str_of_int chunk_index]>
    (<["document_id" := doc_id]> metadata).

(** The [for ... in zip(chunks, embeddings)] loop, with the collection
    and the ids collected so far. *)
Fixpoint add_loop (doc_id : string) (metadata : gmap string string)
    (pairs : list ((string * Z) * list Q)) (c : collection)
    (embedding_ids : list string) : res (list string) * collection :=
  match pairs with
  | [] => (Ret embedding_ids, c)
  | ((chunk_text, chunk_index), embedding) :: rest =>
      let embedding_id := embedding_id doc_id chunk_index in
      match collection_add c embedding_id
              (VRecord embedding chunk_text
                 (chunk_metadata metadata doc_id chunk_index)) with
      | Raise e => (Raise e, c)
      | Ret c' =>
          add_loop doc_id metadata rest c' (embedding_ids ++ [embedding_id])
      end
  end.

(** [encode] stands for [self.embedder.encode(texts).tolist()]. *)
Definition add_document (encode : list string -> res (list (list Q)))
    (self : engine) (doc_id : string) (chunks : list (string * Z))
    (metadata : gmap string string) : res (list string) * engine :=
  match chunks with
  | [] => (Ret [], self)
  | _ =>
      let texts := List.map fst chunks in
      match encode texts with
      | Raise e => (Raise e, self)
      | Ret embeddings =>
          let (out, c) :=
            add_loop doc_id metadata (List.combine chunks embeddings)
              (_collection self) [] in
          (out, Engine (_ollama_available self) c)
      end
  end.

End Index.

(** * Properties *)

(** ** Strings *)

Section StringFacts.

Lemma len_nonneg (s : string) : 0 <= Py.len s.
Proof. unfold Py.len. lia. Qed.

Lemma get_in_range (s : string) :
  forall n, (n < String.length s)%nat -> exists c, String.get n s = Some c.
Proof.
  induction s as [|a s IH]; intros n Hn; simpl in *; [lia|].
  destruct n as [|n]; [eauto|]. apply IH. lia.
Qed.

Lemma getitem_in_range (s : string) (i : Z) :
  0 <= i < Py.len s -> exists c, Py.getitem s i = Ret c.
Proof.
  intros [Hlo Hhi]. unfold Py.getitem.
  destruct (i <? 0) eqn:Hneg; [apply Z.ltb_lt in Hneg; lia|].
  destruct (i <? 0) eqn:Hneg'; [discriminate|].
  destruct (Py.len s <=? i) eqn:Hge; [apply Z.leb_le in Hge; lia|].
  simpl.
  destruct (get_in_range s (Z.to_nat i)) as [c Hc].
  { unfold Py.len in Hhi. lia. }
  rewrite Hc. eauto.
Qed.

Lemma append_cons (x : ascii) (a b : string) :
  String x a +:+ b = String x (a +:+ b).
Proof. reflexivity. Qed.

Lemma append_nil_l (b : string) : "" +:+ b = b.
Proof. reflexivity. Qed.

Lemma append_nil_r (s : string) : s +:+ "" = s.
Proof.
  induction s as [|a s IH]; [reflexivity|].
  now rewrite append_cons, IH.
Qed.

Lemma append_assoc (a b c : string) : (a +:+ b) +:+ c = a +:+ (b +:+ c).
Proof.
  induction a as [|x a IH]; [reflexivity|].
  now rewrite !append_cons, IH.
Qed.

Lemma lower_append (a b : string) :
  Py.lower (a +:+ b) = Py.lower a +:+ Py.lower b.
Proof.
  induction a as [|x a IH]; [reflexivity|].
  rewrite append_cons. cbn [Py.lower]. now rewrite append_cons, IH.
Qed.

Lemma length_lower (s : string) :
  String.length (Py.lower s) = String.length s.
Proof. induction s as [|x s IH]; simpl; [reflexivity|]. now rewrite IH. Qed.

End StringFacts.

(** ** The chunker *)

Section ChunkerFacts.
Import Chunker.

Variable text : string.
Variables chunk_size overlap : Z.

(** With in-range indices the backward scan does not raise, and what it
    finds lies among the indices it went through. *)
Lemma scan_back_in_range (n : nat) :
  forall i,
    (forall j, i - Z.of_nat n < j <= i -> 0 <= j < Py.len text) ->
    scan_back text i n = Ret None
    \/ exists j, scan_back text i n = Ret (Some j) /\ i - Z.of_nat n < j <= i.
Proof.
  induction n as [|n IH]; intros i Hin; [left; reflexivity|].
  cbn [scan_back].
  destruct (getitem_in_range text i) as [c ->]; [apply Hin; lia|].
  destruct (sentence_end c).
  - right. exists i. split; [reflexivity|lia].
  - destruct (IH (i - 1)) as [->|[j [-> Hj]]].
    + intros j Hj. apply Hin. lia.
    + now left.
    + right. exists j. split; [reflexivity|lia].
Qed.

(** A window that starts inside the text is cut without an error, and
    the cut lies at least [min chunk_size (chunk_size / 2 + 2)] after
    the start. *)
Lemma window_end_bounds (st : Z) :
  0 <= st ->
  exists e, window_end text chunk_size st = Ret e
            /\ st + Z.min chunk_size (chunk_size / 2 + 2) <= e.
Proof.
  intros Hst. unfold window_end.
  destruct (st + chunk_size <? Py.len text) eqn:Hlt.
  - apply Z.ltb_lt in Hlt.
    set (stop := Z.max (st + chunk_size / 2) st).
    destruct (scan_back_in_range (Z.to_nat (st + chunk_size - stop))
                (st + chunk_size)) as [->|[j [-> Hj]]].
    + intros j Hj. subst stop. lia.
    + eexists; split; [reflexivity|lia].
    + eexists; split; [reflexivity|]. subst stop. lia.
  - eexists; split; [reflexivity|lia].
Qed.

Hypothesis small_overlap : overlap < Z.min chunk_size (chunk_size / 2 + 2).

(** Under that bound on the overlap every pass moves the start forward. *)
Lemma chunk_step_progress (s : loop_state) :
  0 <= start s ->
  exists s', chunk_step text chunk_size overlap s = Ret s'
             /\ start s < start s'.
Proof.
  intros Hst. unfold chunk_step.
  destruct (window_end_bounds (start s) Hst) as [e [-> He]]. cbn [bind].
  destruct (Py.truthy _); eexists; (split; [reflexivity|]); cbn [start]; lia.
Qed.

Lemma chunk_loop_returns (fuel : nat) :
  forall s,
    0 <= start s ->
    (Z.to_nat (Py.len text - start s) <= fuel)%nat ->
    exists cs, chunk_loop fuel text chunk_size overlap s = Some (Ret cs).
Proof.
  induction fuel as [|fuel IH]; intros s Hst Hfuel.
  - cbn [chunk_loop].
    destruct (start s <? Py.len text) eqn:Hlt; [|eauto].
    apply Z.ltb_lt in Hlt. lia.
  - cbn [chunk_loop].
    destruct (start s <? Py.len text) eqn:Hlt; [|eauto].
    apply Z.ltb_lt in Hlt.
    destruct (chunk_step_progress s Hst) as [s' [-> Hs']].
    apply IH; lia.
Qed.

Lemma starts_lower_bound (fuel : nat) :
  forall s,
    0 <= start s ->
    Forall (fun x => start s <= x) (starts fuel text chunk_size overlap s).
Proof.
  induction fuel as [|fuel IH]; intros s Hst; cbn [starts];
    destruct (start s <? Py.len text); try constructor; [lia|].
  destruct (chunk_step_progress s Hst) as [s' [-> Hs']].
  eapply Forall_impl; [apply IH; lia|].
  cbn beta. intros x Hx. lia.
Qed.

Lemma starts_increasing (fuel : nat) :
  forall s,
    0 <= start s ->
    StronglySorted Z.lt (starts fuel text chunk_size overlap s).
Proof.
  induction fuel as [|fuel IH]; intros s Hst; cbn [starts];
    destruct (start s <? Py.len text); try constructor.
  - destruct (chunk_step_progress s Hst) as [s' [-> Hs']]. apply IH. lia.
  - destruct (chunk_step_progress s Hst) as [s' [Heq Hs']]. rewrite Heq.
    eapply Forall_impl; [apply starts_lower_bound; lia|].
    cbn beta. intros x Hx. lia.
Qed.

End ChunkerFacts.

Section ChunkerResults.
Import Chunker.

(** Chunks the loop adds are never empty. *)
Lemma chunk_loop_nonempty (text : string) (chunk_size overlap : Z)
    (fuel : nat) :
  forall s out,
    Forall (fun c => fst c <> "") (chunks s) ->
    chunk_loop fuel text chunk_size overlap s = Some (Ret out) ->
    Forall (fun c => fst c <> "") out.
Proof.
  induction fuel as [|fuel IH]; intros s out Hs; cbn [chunk_loop];
    destruct (start s <? Py.len text); try discriminate;
    try (intros [= <-]; exact Hs).
  unfold chunk_step.
  destruct (window_end text chunk_size (start s)) as [e|x]; cbn [bind];
    [|discriminate].
  destruct (Py.strip (Py.slice text (start s) e)) as [|c rest] eqn:Hchunk;
    cbn [Py.truthy]; apply IH; cbn [chunks]; [exact Hs|].
  apply Forall_app. split; [exact Hs|].
  constructor; [discriminate|constructor].
Qed.

(** With an overlap below [min chunk_size (chunk_size / 2 + 2)] the call
    returns once the fuel covers the length of the normalized text, and
    the windows start at strictly increasing offsets. *)
Lemma chunk_text_returns_small_overlap (text : string)
    (chunk_size overlap : Z) (fuel : nat) :
  overlap < Z.min chunk_size (chunk_size / 2 + 2) ->
  (String.length (normalize text) <= fuel)%nat ->
  (exists out, chunk_text fuel text chunk_size overlap = Some (Ret out))
  /\ StronglySorted Z.lt
       (starts fuel (normalize text) chunk_size overlap (LoopState 0 0 [])).
Proof.
  intros Hov Hfuel. split.
  - unfold chunk_text.
    destruct (Py.len (normalize text) <=? chunk_size); [eauto|].
    apply chunk_loop_returns; cbn [start]; [exact Hov|lia|].
    unfold Py.len. lia.
  - apply starts_increasing; cbn [start]; [exact Hov|lia].
Qed.

Lemma chunk_text_returns_small_overlap_witness :
  (exists out, chunk_text 17 "abcdef. hijklmnop" 10 5 = Some (Ret out))
  /\ StronglySorted Z.lt
       (starts 17 (normalize "abcdef. hijklmnop") 10 5 (LoopState 0 0 [])).
Proof.
  apply (chunk_text_returns_small_overlap "abcdef. hijklmnop" 10 5 17).
  - vm_compute. reflexivity.
  - vm_compute. lia.
Defined.

(** The loop on ["abc"] with size 2 and overlap 2 comes back to start 0,
    whatever it has collected. *)
Lemma chunk_step_stuck (i : Z) (cs : list (string * Z)) :
  chunk_step "abc" 2 2 (LoopState 0 i cs)
  = Ret (LoopState 0 (i + 1) (cs ++ [("ab", i)])).
Proof. reflexivity. Qed.

Lemma chunk_loop_stuck (fuel : nat) :
  forall i cs, chunk_loop fuel "abc" 2 2 (LoopState 0 i cs) = None.
Proof.
  induction fuel as [|fuel IH]; intros i cs; [reflexivity|].
  cbn [chunk_loop]. rewrite chunk_step_stuck.
  change (start (LoopState 0 i cs) <? Py.len "abc") with true.
  cbn iota. apply IH.
Qed.

Lemma starts_stuck (fuel : nat) :
  forall i cs, starts fuel "abc" 2 2 (LoopState 0 i cs) = repeat 0 fuel.
Proof.
  induction fuel as [|fuel IH]; intros i cs; [reflexivity|].
  cbn [starts repeat]. rewrite chunk_step_stuck.
  change (start (LoopState 0 i cs) <? Py.len "abc") with true.
  cbn iota. cbn [start]. f_equal. apply IH.
Qed.

(** With an overlap above the size the start goes below 0 and the scan
    ends up reading before the text: on ["abc"] with size 2 and overlap 3
    the call raises [IndexError]. *)
Lemma chunk_text_larger_overlap_raises :
  chunk_text 7 "abc" 2 3 = Some (Raise IndexError)
  /\ starts 7 "abc" 2 3 (LoopState 0 0 []) = [0; -1; -2; -3; -4; -5; -6].
Proof. split; reflexivity. Qed.

(** An overlap below the size is not enough either: a cut at a sentence
    end can be shorter than the overlap.  With size 10 and overlap 8 the
    text below is cut after its full stop at offset 6, and from then on
    every window starts at offset -1. *)
Lemma chunk_step_stuck_at_sentence_end (i : Z) (cs : list (string * Z)) :
  chunk_step "abcdef. hijklmnop" 10 8 (LoopState (-1) i cs)
  = Ret (LoopState (-1) i cs).
Proof. reflexivity. Qed.

Lemma chunk_loop_stuck_at_sentence_end (fuel : nat) :
  forall i cs,
    chunk_loop fuel "abcdef. hijklmnop" 10 8 (LoopState (-1) i cs) = None.
Proof.
  induction fuel as [|fuel IH]; intros i cs; [reflexivity|].
  cbn [chunk_loop]. rewrite chunk_step_stuck_at_sentence_end.
  change (start (LoopState (-1) i cs) <? Py.len "abcdef. hijklmnop")
    with true.
  cbn iota. apply IH.
Qed.

Lemma chunk_text_smaller_overlap_never_returns (fuel : nat) :
  chunk_text fuel "abcdef. hijklmnop" 10 8 = None.
Proof.
  unfold chunk_text.
  change (Py.len (normalize "abcdef. hijklmnop") <=? 10) with false.
  cbn iota. change (normalize "abcdef. hijklmnop") with "abcdef. hijklmnop".
  destruct fuel as [|fuel]; [reflexivity|].
  cbn [chunk_loop].
  change (start (LoopState 0 0 []) <? Py.len "abcdef. hijklmnop") with true.
  cbn iota.
  change (chunk_step "abcdef. hijklmnop" 10 8 (LoopState 0 0 []))
    with (Ret (LoopState (-1) 1 [("abcdef.", 0)])).
  apply chunk_loop_stuck_at_sentence_end.
Qed.

(** C1.  The design document asks that [chunk_text] ends for every text,
    size and overlap, with strictly increasing window starts.  On the
    text ["abc"] with size 2 and overlap 2 the loop never ends: no amount
    of fuel produces a result, and every window starts at offset 0. *)
Theorem chunk_text_overlap_equal_size_never_returns :
  (forall fuel, Chunker.chunk_text fuel "abc" 2 2 = None)
  /\ (forall fuel,
        Chunker.starts fuel "abc" 2 2 (Chunker.LoopState 0 0 [])
        = repeat 0 fuel).
Proof.
  split; intros fuel.
  - unfold chunk_text.
    change (Py.len (normalize "abc") <=? 2) with false. cbn iota.
    change (normalize "abc") with "abc". apply chunk_loop_stuck.
  - apply starts_stuck.
Qed.

(** C2.  When the normalized text is no longer than [chunk_size], the
    call returns one chunk: the normalized text, with index 0. *)
Theorem chunk_text_short_single_chunk (fuel : nat) (text : string)
    (chunk_size overlap : Z) :
  Py.len (Chunker.normalize text) <= chunk_size ->
  Chunker.chunk_text fuel text chunk_size overlap
  = Some (Ret [(Chunker.normalize text, 0)]).
Proof.
  intros Hlen. unfold chunk_text.
  apply Z.leb_le in Hlen. now rewrite Hlen.
Qed.

Lemma chunk_text_short_single_chunk_witness :
  Chunker.chunk_text 0 "  loan   amount  " 500 50
  = Some (Ret [("loan amount", 0)]).
Proof.
  apply (chunk_text_short_single_chunk 0 "  loan   amount  " 500 50).
  vm_compute. discriminate.
Defined.

(** C3.  The design document asks that no returned chunk has empty
    text.  On the empty text, and on a text of white space only, the call
    returns one chunk with empty text and index 0: the early return does
    not have the emptiness test of the loop. *)
Theorem chunk_text_empty_text_gives_empty_chunk :
  (forall fuel, Chunker.chunk_text fuel "" 500 50 = Some (Ret [("", 0)]))
  /\ (forall fuel, Chunker.chunk_text fuel "   " 500 50 = Some (Ret [("", 0)])).
Proof. split; intros fuel; reflexivity. Qed.

End ChunkerResults.

(** ** The classifier *)

Section SubstringFacts.

Lemma startswith_spec (p : string) :
  forall s, Py.startswith p s = true <-> exists post, s = p +:+ post.
Proof.
  induction p as [|a p IH]; intros s; cbn [Py.startswith].
  - split; [intros _; exists s; reflexivity|reflexivity].
  - destruct s as [|b s].
    + split; [discriminate|intros [post Hpost]; discriminate].
    + rewrite andb_true_iff, Ascii.eqb_eq, IH. split.
      * intros [-> [post ->]]. exists post. reflexivity.
      * intros [post Hpost]. rewrite append_cons in Hpost.
        injection Hpost as -> ->. eauto.
Qed.

Lemma contains_spec (p : string) :
  forall s,
    Py.contains p s = true <-> exists pre post, s = pre +:+ p +:+ post.
Proof.
  induction s as [|c s IH]; cbn [Py.contains];
    rewrite orb_true_iff, startswith_spec.
  - split.
    + intros [[post Hpost]|Hf]; [|discriminate].
      exists "", post. exact Hpost.
    + intros [pre [post Hs]]. left.
      destruct pre; [|discriminate]. exists post. exact Hs.
  - rewrite IH. split.
    + intros [[post Hpost]|[pre [post Hs]]].
      * exists "", post. exact Hpost.
      * exists (String c pre), post. rewrite append_cons. now rewrite Hs.
    + intros [pre [post Hs]]. destruct pre as [|c' pre].
      * left. exists post. exact Hs.
      * right. rewrite append_cons in Hs. injection Hs as _ ->. eauto.
Qed.

(** A split of the lowered text comes from a split of the text. *)
Lemma lower_split (a b : string) :
  forall t,
    Py.lower t = a +:+ b ->
    exists t1 t2, t = t1 +:+ t2 /\ Py.lower t1 = a /\ Py.lower t2 = b.
Proof.
  induction a as [|x a IH]; intros t Ht.
  - exists "", t. auto.
  - destruct t as [|c t]; [discriminate|].
    rewrite append_cons in Ht. cbn [Py.lower] in Ht.
    injection Ht as Hc Ht.
    destruct (IH t Ht) as [t1 [t2 [-> [H1 H2]]]].
    exists (String c t1), t2. cbn [Py.lower]. rewrite Hc, H1. auto.
Qed.

Lemma lower_char_idem (c : ascii) :
  Py.lower_char (Py.lower_char c) = Py.lower_char c.
Proof.
  destruct c as [[] [] [] [] [] [] [] []]; reflexivity.
Qed.

Lemma lower_idem (s : string) : Py.lower (Py.lower s) = Py.lower s.
Proof.
  induction s as [|c s IH]; cbn [Py.lower]; [reflexivity|].
  now rewrite lower_char_idem, IH.
Qed.

(** [kw in text.lower()], for a lower-case keyword, is an occurrence
    when case is ignored. *)
Lemma contains_lower_ci_hit (text kw : string) :
  Py.lower kw = kw ->
  Py.contains kw (Py.lower text) = true <-> Classifier.ci_hit text kw.
Proof.
  intros Hkw. rewrite contains_spec. unfold Classifier.ci_hit. split.
  - intros [pre [post Ht]].
    destruct (lower_split _ _ _ Ht) as [t1 [t23 [-> [H1 H23]]]].
    destruct (lower_split _ _ _ H23) as [t2 [t3 [-> [H2 H3]]]].
    exists t1, t2, t3. rewrite Hkw. auto.
  - intros [pre [mid [post [-> Hmid]]]].
    exists (Py.lower pre), (Py.lower post).
    rewrite !lower_append, Hmid, Hkw. reflexivity.
Qed.

End SubstringFacts.

Section ClassifierFacts.
Import Classifier.

Lemma keywords_lowercase :
  Forall (fun entry => Forall lowercase (snd entry)) classifications.
Proof.
  repeat (constructor; [repeat (constructor; [reflexivity|]); constructor|]).
  constructor.
Qed.

(** The score of a list of lower-case keywords is its hit count. *)
Lemma score_hit_count (text : string) (kws : list string) :
  Forall lowercase kws -> hit_count text kws (score kws (Py.lower text)).
Proof.
  induction 1 as [|kw kws Hkw _ IH]; cbn [score]; [constructor|].
  destruct (Py.contains kw (Py.lower text)) eqn:Hc.
  - apply hit_count_hit; [|exact IH].
    apply contains_lower_ci_hit; assumption.
  - apply hit_count_miss; [|exact IH].
    intros Hhit. apply contains_lower_ci_hit in Hhit; [|exact Hkw].
    congruence.
Qed.

Lemma hit_count_unique (text : string) (kws : list string) (n : Z) :
  hit_count text kws n -> forall m, hit_count text kws m -> n = m.
Proof.
  induction 1 as [|kw kws n Hhit _ IH|kw kws n Hmiss _ IH];
    intros m Hm; inversion Hm; subst; try reflexivity; try contradiction;
    f_equal; apply IH; assumption.
Qed.

Lemma score_nonneg (kws : list string) (t : string) : 0 <= score kws t.
Proof.
  induction kws as [|kw kws IH]; cbn [score]; [lia|].
  destruct (Py.contains kw t); lia.
Qed.

Lemma score_zero_no_hit (kws : list string) (t : string) :
  score kws t = 0 -> forall kw, In kw kws -> Py.contains kw t = false.
Proof.
  induction kws as [|k kws IH]; cbn [score]; intros Hz kw [].
  - subst k. pose proof (score_nonneg kws t).
    destruct (Py.contains kw t); [lia|reflexivity].
  - pose proof (score_nonneg kws t).
    apply IH; [|assumption]. destruct (Py.contains k t); lia.
Qed.

(** [max_from] picks the first entry among those with the largest
    score. *)
Lemma max_from_first_largest (d : list (string * Z)) :
  forall best,
    exists pre post,
      best :: d = pre ++ max_from best d :: post
      /\ Forall (fun x => snd x < snd (max_from best d)) pre
      /\ Forall (fun x => snd x <= snd (max_from best d)) post.
Proof.
  induction d as [|x d IH]; intros best; cbn [max_from].
  - exists [], []. repeat split; constructor.
  - destruct (snd best <? snd x) eqn:Hlt.
    + apply Z.ltb_lt in Hlt.
      destruct (IH x) as [pre [post [Heq [Hpre Hpost]]]].
      exists (best :: pre), post. rewrite <- app_comm_cons, <- Heq.
      repeat split; [|exact Hpost].
      constructor; [|exact Hpre].
      destruct pre as [|y pre]; cbn in Heq.
      * injection Heq as Hx _. rewrite <- Hx. exact Hlt.
      * injection Heq as Hx _. subst y.
        apply Forall_cons in Hpre as [Hy _]. lia.
    + apply Z.ltb_ge in Hlt.
      destruct (IH best) as [pre [post [Heq [Hpre Hpost]]]].
      destruct pre as [|y pre]; cbn in Heq.
      * injection Heq as Hb Hd. subst post. exists [], (x :: d).
        rewrite <- Hb in *. repeat split; [constructor|].
        constructor; [exact Hlt|exact Hpost].
      * injection Heq as Hb Hd. subst y. exists (best :: x :: pre), post.
        rewrite Hd at 1. repeat split; [|exact Hpost].
        apply Forall_cons in Hpre as [Hy Hpre].
        constructor; [exact Hy|]. constructor; [lia|exact Hpre].
Qed.

End ClassifierFacts.

Section ClassifierResults.
Import Classifier.

(** The entry [max] picks, read back on the table of keyword lists. *)
Lemma max_key_scores (t : string) :
  exists before ty kws after,
    classifications = before ++ (ty, kws) :: after
    /\ max_key (scores t) = Ret (ty, score kws t)
    /\ Forall (fun e => score (snd e) t < score kws t) before
    /\ Forall (fun e => score (snd e) t <= score kws t) after.
Proof.
  unfold scores.
  set (f := fun entry : string * list string =>
              (fst entry, score (snd entry) t)).
  remember classifications as tbl eqn:Htbl.
  destruct tbl as [|e1 rest]; [discriminate|]. clear Htbl.
  cbn [List.map max_key].
  destruct (max_from_first_largest (List.map f rest) (f e1))
    as [pre [post [Heq [Hpre Hpost]]]].
  change (f e1 :: List.map f rest) with (List.map f (e1 :: rest)) in Heq.
  apply map_eq_app in Heq as [before [l2 [Hsplit [Hb Hl2]]]].
  apply map_eq_cons in Hl2 as [[ty kws] [after [-> [Hm Hafter]]]].
  exists before, ty, kws, after.
  rewrite <- Hm in *. subst pre post.
  rewrite List.Forall_map in Hpre, Hpost.
  repeat split; assumption.
Qed.

(** C4.  [classify_document] returns the type whose keywords have the
    most occurrences in the text when case is ignored, the earlier type
    of the table on a tie, and ["other"] when no keyword occurs. *)
Theorem classify_document_most_hits (text : string) :
  (Classifier.no_hits text
   /\ Classifier.classify_document text = Ret "other")
  \/ (exists ty,
        Classifier.wins text ty
        /\ Classifier.classify_document text = Ret ty).
Proof.
  unfold classify_document.
  destruct (max_key_scores (Py.lower text))
    as [before [ty [kws [after [Htbl [-> [Hbefore Hafter]]]]]]].
  cbn [bind fst snd].
  pose proof keywords_lowercase as Hlow. rewrite Htbl in Hlow.
  apply Forall_app in Hlow as [Hlow_b Hlow_a].
  apply Forall_cons in Hlow_a as [Hlow_k Hlow_a]. cbn [snd] in Hlow_k.
  destruct (score kws (Py.lower text) =? 0) eqn:Hz.
  - left. split; [|reflexivity]. apply Z.eqb_eq in Hz.
    assert (Hall : forall ty' kws',
               In (ty', kws') classifications ->
               Forall lowercase kws' /\ score kws' (Py.lower text) = 0).
    { intros ty' kws' Hin. rewrite Htbl in Hin.
      apply in_app_or in Hin as [Hin|[Hin|Hin]].
      - rewrite List.Forall_forall in Hbefore, Hlow_b.
        specialize (Hbefore _ Hin). specialize (Hlow_b _ Hin).
        cbn [snd] in *.
        pose proof (score_nonneg kws' (Py.lower text)). split; [auto|lia].
      - injection Hin as <- <-. auto.
      - rewrite List.Forall_forall in Hafter, Hlow_a.
        specialize (Hafter _ Hin). specialize (Hlow_a _ Hin).
        cbn [snd] in *.
        pose proof (score_nonneg kws' (Py.lower text)). split; [auto|lia]. }
    intros ty' kws' kw Hin Hkw Hhit.
    destruct (Hall _ _ Hin) as [Hl Hs].
    rewrite List.Forall_forall in Hl.
    apply contains_lower_ci_hit in Hhit; [|apply Hl; exact Hkw].
    rewrite (score_zero_no_hit _ _ Hs _ Hkw) in Hhit. discriminate.
  - right. exists ty. split; [|reflexivity]. apply Z.eqb_neq in Hz.
    pose proof (score_nonneg kws (Py.lower text)).
    exists before, kws, after, (score kws (Py.lower text)).
    split; [exact Htbl|]. split; [apply score_hit_count; exact Hlow_k|].
    split; [lia|]. split.
    + intros ty' kws' n' Hin Hn'.
      rewrite List.Forall_forall in Hbefore, Hlow_b.
      specialize (Hbefore _ Hin). specialize (Hlow_b _ Hin).
      cbn [snd] in *.
      rewrite (hit_count_unique _ _ _ Hn' _ (score_hit_count _ _ Hlow_b)).
      exact Hbefore.
    + intros ty' kws' n' Hin Hn'.
      rewrite List.Forall_forall in Hafter, Hlow_a.
      specialize (Hafter _ Hin). specialize (Hlow_a _ Hin).
      cbn [snd] in *.
      rewrite (hit_count_unique _ _ _ Hn' _ (score_hit_count _ _ Hlow_a)).
      exact Hafter.
Qed.

End ClassifierResults.

(** ** The matcher on fixed-width patterns *)

Section MatcherFacts.
Import Re.

Lemma run_exactly_class (p : ascii -> bool) (k : cont) (n : nat) :
  forall prev s,
    run (exactly n (Class p)) prev s k
    = match eat p n prev s with
      | Some (pv, rest) => k pv rest
      | None => None
      end.
Proof.
  unfold exactly. cbn [run]. rewrite Nat.sub_diag.
  induction n as [|n IH]; intros prev s; [reflexivity|].
  cbn [rep_required eat run]. destruct s as [|c s]; [reflexivity|].
  destruct (p c); [apply IH|reflexivity].
Qed.

Lemma eat_sound (p : ascii -> bool) (n : nat) :
  forall prev s pv rest,
    eat p n prev s = Some (pv, rest) ->
    exists body,
      s = body +:+ rest /\ String.length body = n /\ Py.all p body = true.
Proof.
  induction n as [|n IH]; intros prev s pv rest; cbn [eat].
  - intros [= _ ->]. exists "". auto.
  - destruct s as [|c s]; [discriminate|].
    destruct (p c) eqn:Hc; [|discriminate].
    intros Heat. destruct (IH _ _ _ _ Heat) as [body [-> [Hlen Hall]]].
    exists (String c body). cbn [String.length Py.all].
    rewrite Hc, Hall, Hlen. auto.
Qed.

Lemma eat_complete (p : ascii -> bool) (rest : string) :
  forall body prev,
    Py.all p body = true ->
    exists pv, eat p (String.length body) prev (body +:+ rest)
               = Some (pv, rest).
Proof.
  induction body as [|c body IH]; intros prev; cbn [Py.all String.length eat].
  - eauto.
  - rewrite andb_true_iff. intros [Hc Hall].
    rewrite append_cons, Hc. apply IH. exact Hall.
Qed.

Lemma at_dollar_spec (s : string) :
  at_dollar s = true <-> s = "" \/ s = Rag.nl.
Proof.
  unfold Rag.nl. destruct s as [|c [|d s]]; cbn [at_dollar].
  - tauto.
  - rewrite Ascii.eqb_eq. split.
    + intros ->. now right.
    + intros [|[= ->]]; [discriminate|reflexivity].
  - split; [discriminate|intros [|]; discriminate].
Qed.

Lemma all_char_in (p : ascii -> bool) (c : ascii) :
  forall s, Py.all p s = true -> Py.char_in c s = true -> p c = true.
Proof.
  induction s as [|d s IH]; cbn [Py.all Py.char_in]; [discriminate|].
  rewrite andb_true_iff, orb_true_iff, Ascii.eqb_eq.
  intros [Hd Hall] [->|Hin]; auto.
Qed.

Lemma char_in_append (c : ascii) (a b : string) :
  Py.char_in c (a +:+ b) = Py.char_in c a || Py.char_in c b.
Proof.
  induction a as [|d a IH]; [reflexivity|].
  rewrite append_cons. cbn [Py.char_in]. now rewrite IH, orb_assoc.
Qed.

Lemma length_append (a b : string) :
  String.length (a +:+ b) = (String.length a + String.length b)%nat.
Proof.
  induction a as [|d a IH]; [reflexivity|].
  rewrite append_cons. cbn [String.length]. now rewrite IH.
Qed.

End MatcherFacts.

(** ** The validators *)

Section ValidatorFacts.
Import Re Entities.

(** What the anchored PAN pattern accepts: the format, possibly followed
    by one newline. *)
Lemma matches_pan_re (s : string) :
  matches pan_re s = true
  <-> exists body tail,
        s = body +:+ tail /\ pan_format body /\ (tail = "" \/ tail = Rag.nl).
Proof.
  unfold matches, pan_re, upper, digit. cbn [seq run].
  rewrite run_exactly_class. split.
  - destruct (eat Py.isupper_az 5 None s) as [[p1 s1]|] eqn:E1;
      [|discriminate].
    rewrite run_exactly_class.
    destruct (eat Py.isdecimal 4 p1 s1) as [[p2 s2]|] eqn:E2;
      [|discriminate].
    cbn [run]. destruct s2 as [|c s3]; [discriminate|].
    destruct (Py.isupper_az c) eqn:Hc; [|discriminate].
    destruct (at_dollar s3) eqn:Hd; [|discriminate]. intros _.
    apply eat_sound in E1 as [letters [-> [Hl5 Ha5]]].
    apply eat_sound in E2 as [digits [-> [Hl4 Ha4]]].
    apply at_dollar_spec in Hd.
    exists (letters +:+ digits +:+ String c ""), s3.
    split; [|split; [exists letters, digits, c; auto 10|exact Hd]].
    now rewrite !append_assoc.
  - intros [body [tail [-> [[letters [digits [c [-> H]]]] Htail]]]].
    destruct H as [Hl5 [Ha5 [Hl4 [Ha4 Hc]]]].
    rewrite !append_assoc, <- Hl5.
    destruct (eat_complete Py.isupper_az
                (digits +:+ String c "" +:+ tail) letters None Ha5)
      as [p1 ->].
    rewrite run_exactly_class, <- Hl4.
    destruct (eat_complete Py.isdecimal (String c "" +:+ tail) digits p1 Ha4)
      as [p2 ->].
    cbn [run]. rewrite append_cons, Hc, append_nil_l.
    apply at_dollar_spec in Htail. now rewrite Htail.
Qed.

Lemma matches_aadhaar_re (s : string) :
  matches aadhaar_re s = true
  <-> exists body tail,
        s = body +:+ tail /\ String.length body = 12%nat
        /\ Py.all Py.isdecimal body = true /\ (tail = "" \/ tail = Rag.nl).
Proof.
  unfold matches, aadhaar_re, digit. cbn [seq run].
  rewrite run_exactly_class. split.
  - destruct (eat Py.isdecimal 12 None s) as [[p1 s1]|] eqn:E1;
      [|discriminate].
    cbn [run]. destruct (at_dollar s1) eqn:Hd; [|discriminate]. intros _.
    apply eat_sound in E1 as [body [-> [Hl Ha]]].
    apply at_dollar_spec in Hd. exists body, s1. auto.
  - intros [body [tail [-> [Hl [Ha Htail]]]]]. rewrite <- Hl.
    destruct (eat_complete Py.isdecimal tail body None Ha) as [p1 ->].
    cbn [run]. apply at_dollar_spec in Htail. now rewrite Htail.
Qed.

Lemma matches_ifsc_re (s : string) :
  matches ifsc_re s = true
  <-> exists body tail,
        s = body +:+ tail /\ ifsc_format body /\ (tail = "" \/ tail = Rag.nl).
Proof.
  unfold matches, ifsc_re, upper, upper_or_digit, lit. cbn [seq run].
  rewrite run_exactly_class. split.
  - destruct (eat Py.isupper_az 4 None s) as [[p1 s1]|] eqn:E1;
      [|discriminate].
    cbn [run]. destruct s1 as [|z s2]; [discriminate|].
    destruct (Ascii.eqb "0" z) eqn:Hz; [|discriminate].
    apply Ascii.eqb_eq in Hz. subst z.
    rewrite run_exactly_class.
    destruct (eat _ 6 (Some "0"%char) s2) as [[p2 s3]|] eqn:E2;
      [|discriminate].
    cbn [run]. destruct (at_dollar s3) eqn:Hd; [|discriminate]. intros _.
    apply eat_sound in E1 as [bank [-> [Hl4 Ha4]]].
    apply eat_sound in E2 as [branch [-> [Hl6 Ha6]]].
    apply at_dollar_spec in Hd.
    exists (bank +:+ String "0" branch), s3.
    split; [|split; [exists bank, branch; auto 10|exact Hd]].
    now rewrite !append_assoc, append_cons.
  - intros [body [tail [-> [[bank [branch [-> H]]] Htail]]]].
    destruct H as [Hl4 [Ha4 [Hl6 Ha6]]].
    rewrite !append_assoc, <- Hl6, <- Hl4.
    destruct (eat_complete Py.isupper_az
                (String "0" branch +:+ tail) bank None Ha4) as [p1 ->].
    cbn [run]. rewrite append_cons. cbn [Ascii.eqb Bool.eqb].
    rewrite run_exactly_class.
    destruct (eat_complete _ tail branch (Some "0"%char) Ha6) as [p2 ->].
    cbn [run]. apply at_dollar_spec in Htail. now rewrite Htail.
Qed.

End ValidatorFacts.

Section ValidatorResults.
Import Re Entities.

Lemma getitem_get (s : string) (i : Z) :
  0 <= i < Py.len s ->
  exists c, String.get (Z.to_nat i) s = Some c /\ Py.getitem s i = Ret c.
Proof.
  intros [Hlo Hhi]. unfold Py.getitem. cbv zeta.
  assert (Hneg : (i <? 0) = false) by (apply Z.ltb_ge; lia).
  assert (Hge : (Py.len s <=? i) = false) by (apply Z.leb_gt; lia).
  rewrite !Hneg, Hge. cbn [orb].
  destruct (get_in_range s (Z.to_nat i)) as [c Hc].
  { unfold Py.len in Hhi. lia. }
  exists c. rewrite Hc. split; reflexivity.
Qed.

Lemma get_append_l (a b : string) :
  forall n, (n < String.length a)%nat ->
            String.get n (a +:+ b) = String.get n a.
Proof.
  induction a as [|c a IH]; intros n Hn; cbn [String.length] in Hn; [lia|].
  rewrite append_cons. destruct n as [|n]; [reflexivity|].
  cbn [String.get]. apply IH. lia.
Qed.

Lemma pan_format_length (s : string) :
  pan_format s -> String.length s = 10%nat.
Proof.
  intros [letters [digits [c [-> [Hl5 [_ [Hl4 _]]]]]]].
  rewrite !length_append, Hl5, Hl4. reflexivity.
Qed.

Lemma last_char_append_nl (s : string) :
  Py.last_char (s +:+ Rag.nl) = Some "010"%char.
Proof.
  induction s as [|c s IH]; [reflexivity|].
  rewrite append_cons. cbn [Py.last_char]. rewrite IH.
  destruct (s +:+ Rag.nl) eqn:Hs; [|reflexivity].
  destruct s; discriminate.
Qed.

(** [validate_pan] answers [True] exactly on the format with a holder
    type at index 3, possibly followed by one newline. *)
Lemma validate_pan_true (s : string) :
  validate_pan s = Ret true
  <-> exists body tail,
        s = body +:+ tail /\ pan_format body /\ holder_type_ok body
        /\ (tail = "" \/ tail = Rag.nl).
Proof.
  unfold validate_pan. destruct (matches pan_re s) eqn:Hm; cbn [negb].
  - apply matches_pan_re in Hm as [body [tail [-> [Hfmt Htail]]]].
    pose proof (pan_format_length _ Hfmt) as Hlen.
    destruct (getitem_get (body +:+ tail) 3) as [c [Hget ->]].
    { unfold Py.len. rewrite length_append, Hlen. lia. }
    change (Z.to_nat 3) with 3%nat in Hget.
    rewrite get_append_l in Hget by lia. cbn [bind].
    case_bool_decide as Hin; cbn [negb]; split.
    + intros _. exists body, tail. unfold holder_type_ok. eauto 10.
    + reflexivity.
    + discriminate.
    + intros [body' [tail' [Heq [Hfmt' [[c' [Hget' Hin']] Htail']]]]].
      pose proof (pan_format_length _ Hfmt') as Hlen'.
      assert (Hc : String.get 3 (body +:+ tail) = Some c').
      { rewrite Heq, get_append_l by lia. exact Hget'. }
      rewrite get_append_l in Hc by lia. congruence.
  - split; [discriminate|].
    intros [body [tail [-> [Hfmt [_ Htail]]]]].
    assert (matches pan_re (body +:+ tail) = true) as Hyes; [|congruence].
    apply matches_pan_re. eauto.
Qed.

Lemma validate_pan_returns (s : string) :
  validate_pan s = Ret true \/ validate_pan s = Ret false.
Proof.
  unfold validate_pan. destruct (matches pan_re s) eqn:Hm; cbn [negb];
    [|now right].
  apply matches_pan_re in Hm as [body [tail [-> [Hfmt Htail]]]].
  pose proof (pan_format_length _ Hfmt) as Hlen.
  destruct (getitem_get (body +:+ tail) 3) as [c [_ ->]].
  { unfold Py.len. rewrite length_append, Hlen. lia. }
  cbn [bind]. case_bool_decide; cbn [negb]; auto.
Qed.

(** On a text that, without its spaces, does not end in a newline,
    [validate_aadhaar] answers [True] exactly on twelve digits that do
    not start with 0 or 1. *)
Lemma validate_aadhaar_true (s : string) :
  Py.last_char (Py.remove_char " " s) <> Some "010"%char ->
  validate_aadhaar s = Ret true <-> aadhaar_format (Py.remove_char " " s).
Proof.
  intros Hlast. unfold validate_aadhaar, aadhaar_format.
  set (clean := Py.remove_char " " s) in *.
  destruct (matches aadhaar_re clean) eqn:Hm; cbn [negb].
  - apply matches_aadhaar_re in Hm as [body [tail [Heq [Hlen [Hall Htail]]]]].
    destruct Htail as [->| ->];
      [|rewrite Heq, last_char_append_nl in Hlast; congruence].
    rewrite append_nil_r in Heq. rewrite Heq. clear Heq Hlast clean.
    destruct body as [|c rest]; [discriminate|].
    change (Py.getitem (String c rest) 0) with
      (if (Py.len (String c rest) <=? 0) then @Raise ascii IndexError
       else Ret c).
    destruct (Py.len (String c rest) <=? 0) eqn:Hle.
    { apply Z.leb_le in Hle. unfold Py.len in Hle.
      cbn [String.length] in Hle. lia. }
    cbn [bind]. case_bool_decide as Hin; split.
    + discriminate.
    + intros [_ [_ [c' [rest' [[= <- <-] [H0 H1]]]]]].
      apply elem_of_cons in Hin as [->|Hin]; [congruence|].
      apply elem_of_cons in Hin as [->|Hin]; [congruence|].
      now apply elem_of_nil in Hin.
    + intros _. repeat split; [exact Hlen|exact Hall|].
      exists c, rest. repeat split; intros ->; apply Hin.
      * apply elem_of_cons. now left.
      * apply elem_of_cons. right. apply elem_of_cons. now left.
    + reflexivity.
  - split; [discriminate|]. intros [Hlen [Hall _]].
    assert (matches aadhaar_re clean = true) as Hyes; [|congruence].
    apply matches_aadhaar_re. exists clean, "".
    rewrite append_nil_r. auto.
Qed.

Lemma validate_aadhaar_returns (s : string) :
  validate_aadhaar s = Ret true \/ validate_aadhaar s = Ret false.
Proof.
  unfold validate_aadhaar.
  set (clean := Py.remove_char " " s).
  destruct (matches aadhaar_re clean) eqn:Hm; cbn [negb]; [|now right].
  apply matches_aadhaar_re in Hm as [body [tail [-> [Hlen _]]]].
  destruct (getitem_get (body +:+ tail) 0) as [c [_ ->]].
  { unfold Py.len. rewrite length_append, Hlen. lia. }
  cbn [bind]. case_bool_decide; auto.
Qed.

End ValidatorResults.

Section ValidatorEdgeCases.
Import Re Entities.

Lemma all_append (p : ascii -> bool) (a b : string) :
  Py.all p (a +:+ b) = Py.all p a && Py.all p b.
Proof.
  induction a as [|c a IH]; [reflexivity|].
  rewrite append_cons. cbn [Py.all]. now rewrite IH, andb_assoc.
Qed.

Lemma all_weaken (p q : ascii -> bool) :
  (forall c, p c = true -> q c = true) ->
  forall s, Py.all p s = true -> Py.all q s = true.
Proof.
  intros Hpq. induction s as [|c s IH]; cbn [Py.all]; [reflexivity|].
  rewrite !andb_true_iff. intros [Hc Hs]. auto.
Qed.

Lemma islower_excluded (c : ascii) :
  Py.islower c = true -> upper_digit_or_newline c = false.
Proof.
  destruct c as [[] [] [] [] [] [] [] []]; vm_compute; congruence.
Qed.

Lemma tail_plain (tail : string) :
  tail = "" \/ tail = Rag.nl -> Py.all upper_digit_or_newline tail = true.
Proof. intros [-> | ->]; reflexivity. Qed.

Lemma upper_plain (c : ascii) :
  Py.isupper_az c = true -> upper_digit_or_newline c = true.
Proof. unfold upper_digit_or_newline. now intros ->. Qed.

Lemma digit_plain (c : ascii) :
  Py.isdecimal c = true -> upper_digit_or_newline c = true.
Proof. unfold upper_digit_or_newline. intros ->. now rewrite orb_true_r. Qed.

Lemma upper_or_digit_plain (c : ascii) :
  Py.isupper_az c || Py.isdecimal c = true ->
  upper_digit_or_newline c = true.
Proof. unfold upper_digit_or_newline. now intros ->. Qed.

Lemma pan_format_plain (s : string) :
  pan_format s -> Py.all upper_digit_or_newline s = true.
Proof.
  intros [letters [digits [c [-> [_ [Ha5 [_ [Ha4 Hc]]]]]]]].
  rewrite !all_append. cbn [Py.all].
  rewrite (all_weaken _ _ upper_plain _ Ha5).
  rewrite (all_weaken _ _ digit_plain _ Ha4).
  now rewrite (upper_plain _ Hc).
Qed.

Lemma ifsc_format_plain (s : string) :
  ifsc_format s -> Py.all upper_digit_or_newline s = true.
Proof.
  intros [bank [branch [-> [_ [Ha4 [_ Ha6]]]]]].
  rewrite all_append. cbn [Py.all].
  rewrite (all_weaken _ _ upper_plain _ Ha4).
  rewrite (all_weaken _ _ upper_or_digit_plain _ Ha6).
  reflexivity.
Qed.

Lemma has_lower_not_plain (s : string) :
  has_lower s -> Py.all upper_digit_or_newline s = true -> False.
Proof.
  intros [c [Hin Hlow]] Hall.
  pose proof (all_char_in _ _ _ Hall Hin) as Hc.
  rewrite (islower_excluded _ Hlow) in Hc. discriminate.
Qed.

Lemma has_lower_validate_pan (s : string) :
  has_lower s -> validate_pan s = Ret false.
Proof.
  intros Hlow. destruct (validate_pan_returns s) as [Ht|Hf]; [|exact Hf].
  apply validate_pan_true in Ht
    as [body [tail [-> [Hfmt [_ Htail]]]]].
  exfalso. apply (has_lower_not_plain _ Hlow).
  rewrite all_append, (pan_format_plain _ Hfmt), (tail_plain _ Htail).
  reflexivity.
Qed.

Lemma has_lower_validate_ifsc (s : string) :
  has_lower s -> validate_ifsc s = false.
Proof.
  intros Hlow. unfold validate_ifsc.
  destruct (matches ifsc_re s) eqn:Hm; [|reflexivity].
  apply matches_ifsc_re in Hm as [body [tail [-> [Hfmt Htail]]]].
  exfalso. apply (has_lower_not_plain _ Hlow).
  rewrite all_append, (ifsc_format_plain _ Hfmt), (tail_plain _ Htail).
  reflexivity.
Qed.

(** C6.  The design document asks that [validate_pan] accepts a string
    only when it is exactly the ten characters of the format.  The
    eleven characters ["ABCPE1234F"] and a line feed are accepted. *)
Theorem validate_pan_accepts_trailing_newline :
  Entities.validate_pan ("ABCPE1234F" +:+ Rag.nl) = Ret true
  /\ String.length ("ABCPE1234F" +:+ Rag.nl) = 11%nat
  /\ ~ Entities.pan_format ("ABCPE1234F" +:+ Rag.nl).
Proof.
  split; [reflexivity|]. split; [reflexivity|].
  intros Hfmt. apply pan_format_length in Hfmt. discriminate.
Qed.

(** C7, as the design document has it: on the twelve digits
    ["234567890123"] the answer is [True], not [False]. *)
Lemma validate_aadhaar_twelve_digits_accepted :
  Entities.validate_aadhaar "234567890123" = Ret true
  /\ Entities.validate_aadhaar "234567890123" <> Ret false.
Proof. split; [reflexivity|discriminate]. Qed.

(** C7, amended.  For a string over U+0000..U+00FF that, with all its
    spaces removed, does not end in a line feed: [validate_aadhaar]
    answers [True] exactly when what is left is twelve decimal digits,
    which on these strings are 0-9, of which the first is neither the
    character 0 nor the character 1, and [False] otherwise.
    ["1234 5678 9012"] is refused and the twelve-digit strings
    ["234567890123"] and ["234567890121"] are accepted. *)
Theorem validate_aadhaar_twelve_digits :
  (forall s,
      Py.last_char (Py.remove_char " " s) <> Some "010"%char ->
      (Entities.validate_aadhaar s = Ret true
       <-> Entities.aadhaar_format (Py.remove_char " " s))
      /\ (Entities.validate_aadhaar s = Ret true
          \/ Entities.validate_aadhaar s = Ret false))
  /\ Entities.validate_aadhaar "1234 5678 9012" = Ret false
  /\ Entities.validate_aadhaar "234567890123" = Ret true
  /\ Entities.validate_aadhaar "234567890121" = Ret true.
Proof.
  split; [|repeat split; reflexivity].
  intros s Hlast. split.
  - apply validate_aadhaar_true. exact Hlast.
  - apply validate_aadhaar_returns.
Qed.

Lemma validate_aadhaar_twelve_digits_witness :
  Py.last_char (Py.remove_char " " "2345 6789 0121") <> Some "010"%char
  /\ (Entities.validate_aadhaar "2345 6789 0121" = Ret true
      <-> Entities.aadhaar_format (Py.remove_char " " "2345 6789 0121")).
Proof.
  assert (H : Py.last_char (Py.remove_char " " "2345 6789 0121")
              <> Some "010"%char) by (vm_compute; discriminate).
  split; [exact H|].
  exact (proj1 (proj1 validate_aadhaar_twelve_digits "2345 6789 0121" H)).
Defined.

End ValidatorEdgeCases.

(** ** The quality score *)

Section ScoreFacts.
Import Entities.

Variable entities : gmap string (list string).

Lemma count_found_present (required : list string) :
  count_found required entities = present_count required entities.
Proof.
  unfold present_count.
  induction required as [|r required IH]; [reflexivity|].
  cbn [count_found]. rewrite IH, filter_cons.
  case_bool_decide as Hr; destruct (decide _) as [Hd|Hd];
    try contradiction; cbn [List.length]; lia.
Qed.

Lemma present_count_bounds (required : list string) :
  0 <= present_count required entities <= Z.of_nat (List.length required).
Proof.
  unfold present_count.
  pose proof (length_filter (fun r => is_Some (entities !! r)) required).
  lia.
Qed.

(** Counting with a validator that always answers. *)
Lemma count_valid_answers (f : string -> res bool) :
  (forall v, f v = Ret true \/ f v = Ret false) ->
  forall values,
    exists n, count_valid f values = Ret n
              /\ (0 <? n) = existsb (validates f) values /\ 0 <= n.
Proof.
  intros Hf. induction values as [|v values [n [IH [Hn Hpos]]]].
  - exists 0. auto with zarith.
  - cbn [count_valid existsb]. unfold validates at 1. rewrite IH.
    destruct (Hf v) as [-> | ->]; cbn [bind].
    + exists (1 + n). repeat split; [|lia].
      cbn [orb]. apply Z.ltb_lt. lia.
    + exists (0 + n). repeat split; [|lia].
      cbn [orb]. rewrite <- Hn. reflexivity.
Qed.

Lemma bonus_for_answers (f : string -> res bool) (key : string) (b : Z) :
  (forall v, f v = Ret true \/ f v = Ret false) ->
  bonus_for entities key f b
  = Ret (if any_valid f entities key then b + 5 else b).
Proof.
  intros Hf. unfold bonus_for, any_valid.
  destruct (entities !! key) as [values|]; cbn [default]; [|reflexivity].
  destruct (count_valid_answers f Hf values) as [n [-> [Hn _]]].
  cbn [bind]. rewrite Hn. now destruct (existsb _ _).
Qed.

(** The score of a type with requirements is the formula of the design
    document, evaluated in binary64. *)
Lemma score_entities_required (doc_type : string) (required : list string) :
  required_entities !! doc_type = Some required ->
  required <> [] ->
  score_entities entities doc_type
  = Ret (expected_score_binary64 entities required).
Proof.
  intros Hreq Hne. unfold score_entities. rewrite Hreq. cbn [default].
  destruct required as [|r required]; [contradiction|].
  rewrite !(bonus_for_answers _ _ _ validate_pan_returns). cbn [bind].
  rewrite !(bonus_for_answers _ _ _ validate_aadhaar_returns). cbn [bind].
  rewrite count_found_present. unfold expected_score_binary64, expected_bonus.
  destruct (any_valid validate_pan _ _), (any_valid validate_aadhaar _ _);
    reflexivity.
Qed.

Lemma expected_bonus_cases :
  expected_bonus entities = 0 \/ expected_bonus entities = 5
  \/ expected_bonus entities = 10.
Proof.
  unfold expected_bonus.
  destruct (any_valid validate_pan _ _), (any_valid validate_aadhaar _ _);
    auto.
Qed.

End ScoreFacts.

Section ScoreResults.
Import Entities.

Lemma required_entities_known (doc_type : string) (required : list string) :
  required_entities !! doc_type = Some required ->
  doc_type <> "other" ->
  required <> [].
Proof.
  intros Hreq Hother. unfold required_entities in Hreq.
  apply elem_of_list_to_map_2 in Hreq.
  repeat (apply elem_of_cons in Hreq as [[= -> ->]|Hreq];
          [try discriminate; try contradiction|]).
  now apply elem_of_nil in Hreq.
Qed.

(** The table asks for three or four types, or for none. *)
Lemma required_entities_length (doc_type : string) (required : list string) :
  required_entities !! doc_type = Some required ->
  required = [] \/ List.length required = 3%nat
  \/ List.length required = 4%nat.
Proof.
  intros Hreq. unfold required_entities in Hreq.
  apply elem_of_list_to_map_2 in Hreq.
  repeat (apply elem_of_cons in Hreq as [[= _ ->]|Hreq]; [cbn; auto|]).
  now apply elem_of_nil in Hreq.
Qed.

(** The formula in binary64 against the formula over the rational
    numbers, for each number of types found, of types required and each
    bonus there can be. *)
Lemma binary64_score_cases (k n b : Z) :
  n = 3 \/ n = 4 ->
  0 <= k <= n ->
  b = 0 \/ b = 5 \/ b = 10 ->
  let score :=
    Float64.add
      (Float64.mul (Float64.div (Float64.of_int k) (Float64.of_int n))
         (Float64.of_int 100))
      (Float64.of_int b) in
  let q :=
    if Float64.ltb score (Float64.of_int 100) then Float64.value score
    else 100%Q in
  let exact := Qmin 100 (inject_Z k / inject_Z n * 100 + inject_Z b)%Q in
  (0 <= q <= 100)%Q
  /\ (Qabs (q - exact) <= 1 # 100000000000000)%Q
  /\ ((100 * k) mod n = 0 -> (q == exact)%Q)
  /\ (k = n -> q = 100%Q).
Proof.
  intros Hn Hk Hb.
  assert (Hcases : k = 0 \/ k = 1 \/ k = 2 \/ k = 3 \/ k = 4) by lia.
  destruct Hn as [-> | ->];
    destruct Hcases as [-> | [-> | [-> | [-> | ->]]]]; try lia;
    destruct Hb as [-> | [-> | ->]];
    vm_compute;
    repeat split;
    first [ intros H; discriminate H | intros _; reflexivity | reflexivity ].
Qed.

Lemma expected_score_binary64_close (entities : gmap string (list string))
    (doc_type : string) (required : list string) :
  required_entities !! doc_type = Some required ->
  required <> [] ->
  (0 <= expected_score_binary64 entities required <= 100)%Q
  /\ (Qabs (expected_score_binary64 entities required
            - expected_score entities required)
      <= 1 # 100000000000000)%Q
  /\ ((100 * present_count required entities)
        mod Z.of_nat (List.length required) = 0 ->
      (expected_score_binary64 entities required
       == expected_score entities required)%Q)
  /\ (present_count required entities = Z.of_nat (List.length required) ->
      expected_score_binary64 entities required = 100%Q).
Proof.
  intros Hreq Hne.
  apply (binary64_score_cases (present_count required entities)
           (Z.of_nat (List.length required)) (expected_bonus entities)).
  - apply required_entities_length in Hreq as [->|[-> | ->]];
      [contradiction|now left|now right].
  - apply present_count_bounds.
  - apply expected_bonus_cases.
Qed.

(** C5.  For the type ["other"] the score is 75 whatever the text holds.
    For every other type of the table it is the minimum of 100 and the
    share of required entity types present in the extraction result,
    times 100, plus 5 when an extracted [pan_number] validates and 5
    more when an extracted [aadhaar_number] validates: the value of
    this formula with each operation rounded to binary64, as Python
    computes it, which is within 10^-14 of the formula over the rational
    numbers and equal to it when the share times 100 is a whole number.
    The score is always between 0 and 100. *)
Theorem quality_score_formula (text : string) :
  Entities.calculate_quality_score text "other" = Ret 75%Q
  /\ (forall doc_type required,
        doc_type <> "other" ->
        Entities.required_entities !! doc_type = Some required ->
        Entities.calculate_quality_score text doc_type
        = Ret (Entities.expected_score_binary64
                 (Entities.extract_entities text) required)
        /\ (Qabs (Entities.expected_score_binary64
                    (Entities.extract_entities text) required
                  - Entities.expected_score
                      (Entities.extract_entities text) required)
            <= 1 # 100000000000000)%Q
        /\ ((100 * Entities.present_count required
                     (Entities.extract_entities text))
              mod Z.of_nat (List.length required) = 0 ->
            (Entities.expected_score_binary64
               (Entities.extract_entities text) required
             == Entities.expected_score
                  (Entities.extract_entities text) required)%Q))
  /\ (forall doc_type,
        exists q, Entities.calculate_quality_score text doc_type = Ret q
                  /\ (0 <= q <= 100)%Q).
Proof.
  unfold calculate_quality_score. split; [reflexivity|]. split.
  - intros doc_type required Hother Hreq.
    pose proof (required_entities_known _ _ Hreq Hother) as Hne.
    destruct (expected_score_binary64_close (extract_entities text) _ _
                Hreq Hne) as [_ [Hclose [Hexact _]]].
    split; [now apply score_entities_required|]. split; assumption.
  - intros doc_type.
    destruct (required_entities !! doc_type) as [[|r required]|] eqn:Hreq.
    + exists 75%Q. unfold score_entities. rewrite Hreq.
      split; [reflexivity|]. split; discriminate.
    + eexists. split.
      * apply score_entities_required; [exact Hreq|discriminate].
      * apply (expected_score_binary64_close _ _ _ Hreq). discriminate.
    + exists 75%Q. unfold score_entities. rewrite Hreq.
      split; [reflexivity|]. split; discriminate.
Qed.

Lemma quality_score_formula_witness :
  Entities.calculate_quality_score "PAN ABCPE1234F paid Rs. 50,000"
    "salary_slip"
  = Ret (2521546666366293 # 35184372088832)%Q.
Proof.
  etransitivity.
  - apply (proj1 (proj2 (quality_score_formula
                           "PAN ABCPE1234F paid Rs. 50,000"))
             "salary_slip" ["pan_number"; "amount"; "date"]).
    + discriminate.
    + vm_compute. reflexivity.
  - vm_compute. reflexivity.
Defined.

End ScoreResults.

(** ** Values with lower-case letters *)

Section LowercaseFacts.
Import Entities.

Lemma validated_list_answers (f : string -> res bool) :
  (forall v, f v = Ret true \/ f v = Ret false) ->
  forall values,
    validated_list f values
    = Ret (List.map (fun v => (v, validates f v)) values).
Proof.
  intros Hf. induction values as [|v values IH]; [reflexivity|].
  cbn [validated_list List.map]. rewrite IH.
  assert (Hv : f v = Ret (validates f v)).
  { unfold validates. destruct (Hf v) as [-> | ->]; reflexivity. }
  rewrite Hv. reflexivity.
Qed.

Lemma validate_into_answers (entities : gmap string (list string))
    (key out_key : string) (f : string -> res bool)
    (acc : gmap string (list (string * bool))) :
  (forall v, f v = Ret true \/ f v = Ret false) ->
  validate_into entities key out_key f acc
  = Ret match entities !! key with
        | Some values =>
            <[out_key := List.map (fun v => (v, validates f v)) values]> acc
        | None => acc
        end.
Proof.
  intros Hf. unfold validate_into.
  destruct (entities !! key) as [values|]; [|reflexivity].
  now rewrite (validated_list_answers f Hf).
Qed.

Lemma validate_ifsc_answers (v : string) :
  Ret (validate_ifsc v) = Ret true \/ Ret (validate_ifsc v) = Ret false.
Proof. destruct (validate_ifsc v); auto. Qed.

(** A value with a lower-case letter is listed as invalid; [f] is the
    validator the listing was made with. *)
Lemma listed_invalid (f : string -> res bool) (values : list string)
    (v : string) (valid : bool) :
  validates f v = false ->
  (v, valid) ∈ List.map (fun v => (v, validates f v)) values ->
  valid = false.
Proof.
  intros Hv Hin. apply list_elem_of_In, in_map_iff in Hin as [w [Heq _]].
  injection Heq as Hw Hvalid. subst w. congruence.
Qed.

Lemma has_lower_validates_pan (v : string) :
  has_lower v -> validates validate_pan v = false.
Proof.
  intros Hlow. unfold validates. now rewrite has_lower_validate_pan.
Qed.

Lemma has_lower_validates_ifsc (v : string) :
  has_lower v -> validates (fun s => Ret (validate_ifsc s)) v = false.
Proof.
  intros Hlow. unfold validates. now rewrite has_lower_validate_ifsc.
Qed.

Lemma existsb_validates_lower (values : list string) :
  Forall has_lower values -> existsb (validates validate_pan) values = false.
Proof.
  induction 1 as [|v values Hv _ IH]; [reflexivity|].
  cbn [existsb]. now rewrite (has_lower_validates_pan _ Hv), IH.
Qed.

(** C10.  A string that holds a lower-case letter is refused by
    [validate_pan] and by [validate_ifsc].  [extract_entities], which
    ignores case, does return such strings as [pan_number] and
    [ifsc_code] values.  In the summary every such value is listed as
    invalid, and [pan_number] values that all hold a lower-case letter
    leave the validation bonus as it was. *)
Theorem lowercase_values_never_validate :
  (forall s,
      Entities.has_lower s ->
      Entities.validate_pan s = Ret false
      /\ Entities.validate_ifsc s = false)
  /\ (Entities.extract_entities "abcpe1234f" !! "pan_number"
      = Some ["abcpe1234f"]
      /\ Entities.has_lower "abcpe1234f")
  /\ (Entities.extract_entities "sbin0001234" !! "ifsc_code"
      = Some ["sbin0001234"]
      /\ Entities.has_lower "sbin0001234")
  /\ (forall entities,
        exists summ,
          Entities.get_entity_summary entities = Ret summ
          /\ forall key l v valid,
               key = "pan_numbers" \/ key = "ifsc_codes" ->
               Entities.validated summ !! key = Some l ->
               (v, valid) ∈ l ->
               Entities.has_lower v ->
               valid = false)
  /\ (forall entities values validation_bonus,
        entities !! "pan_number" = Some values ->
        Forall Entities.has_lower values ->
        Entities.bonus_for entities "pan_number" Entities.validate_pan
          validation_bonus
        = Ret validation_bonus).
Proof.
  split; [|split; [|split; [|split]]].
  - intros s Hlow. split.
    + now apply has_lower_validate_pan.
    + now apply has_lower_validate_ifsc.
  - split; [vm_compute; reflexivity|].
    exists "a"%char. split; reflexivity.
  - split; [vm_compute; reflexivity|].
    exists "s"%char. split; reflexivity.
  - intros entities. unfold get_entity_summary.
    rewrite (validate_into_answers _ _ _ _ _ validate_pan_returns).
    cbn [bind].
    rewrite (validate_into_answers _ _ _ _ _ validate_aadhaar_returns).
    cbn [bind].
    rewrite (validate_into_answers _ _ _ _ _ validate_ifsc_answers).
    cbn [bind]. eexists. split; [reflexivity|]. cbn [validated].
    intros key l v valid Hkey Hl Hin Hlow.
    destruct (entities !! "pan_number") as [pans|],
             (entities !! "aadhaar_number") as [aadhaars|],
             (entities !! "ifsc_code") as [ifscs|];
      destruct Hkey as [-> | ->]; simplify_map_eq;
      first [ exact (listed_invalid _ _ _ _
                       (has_lower_validates_pan _ Hlow) Hin)
            | exact (listed_invalid _ _ _ _
                       (has_lower_validates_ifsc _ Hlow) Hin) ].
  - intros entities values b Hvalues Hall.
    rewrite (bonus_for_answers _ _ _ _ validate_pan_returns).
    unfold any_valid. rewrite Hvalues.
    change (default [] (Some values)) with values.
    now rewrite (existsb_validates_lower _ Hall).
Qed.

Lemma lowercase_values_never_validate_witness :
  Entities.has_lower "abcpe1234f"
  /\ Entities.validate_pan "abcpe1234f" = Ret false
  /\ Entities.validate_ifsc "abcpe1234f" = false.
Proof.
  assert (H : Entities.has_lower "abcpe1234f")
    by (exists "a"%char; split; reflexivity).
  split; [exact H|].
  exact (proj1 lowercase_values_never_validate "abcpe1234f" H).
Defined.

End LowercaseFacts.

(** ** The answer synthesizer *)

Section FallbackFacts.
Import Rag.

Lemma take_whole (s : string) :
  forall n, (String.length s <= n)%nat -> Py.take n s = s.
Proof.
  induction s as [|c s IH]; intros n Hn; destruct n as [|n];
    cbn [Py.take String.length] in *; try reflexivity; [lia|].
  rewrite IH by lia. reflexivity.
Qed.

Lemma length_take_string (s : string) :
  forall n, (String.length (Py.take n s) <= n)%nat.
Proof.
  induction s as [|c s IH]; intros n; destruct n as [|n];
    cbn [Py.take String.length]; try lia.
  specialize (IH n). lia.
Qed.

(** [s[:n]] is the first [n] characters of [s]. *)
Lemma slice_to_take (s : string) (n : nat) :
  Py.slice_to s (Z.of_nat n) = Py.take n s.
Proof.
  unfold Py.slice_to, Py.slice, Py.clamp.
  pose proof (len_nonneg s) as Hlen.
  destruct (0 <? 0) eqn:H0; [discriminate|].
  destruct (Z.of_nat n <? 0) eqn:Hn; [apply Z.ltb_lt in Hn; lia|].
  rewrite (Z.min_l 0 (Py.len s)) by exact Hlen.
  change (Z.to_nat 0) with 0%nat.
  replace (Py.drop 0 s) with s by (destruct s; reflexivity).
  rewrite Z.sub_0_r. unfold Py.len.
  destruct (Z.min_spec (Z.of_nat n) (Z.of_nat (String.length s)))
    as [[Hlt ->]|[Hge ->]]; rewrite Nat2Z.id; [reflexivity|].
  rewrite !take_whole by lia. reflexivity.
Qed.

Lemma fallback_loop_excerpts (cs : list chunk)
    (sources : list (string * string)) :
  Forall2 source_of cs sources ->
  forall i response,
    fallback_loop i cs response = response +:+ excerpts i sources.
Proof.
  induction 1 as [|c source cs sources [Hname Hbody] _ IH];
    intros i response; cbn [fallback_loop excerpts].
  - now rewrite append_nil_r.
  - rewrite IH. unfold excerpt, filename_of. rewrite Hbody.
    change 500 with (Z.of_nat 500). rewrite slice_to_take.
    destruct Hname as [-> | [-> ->]]; cbn [default];
      now rewrite !append_assoc.
Qed.

Lemma sources_exist (cs : list chunk) :
  exists sources, Forall2 source_of cs sources.
Proof.
  induction cs as [|c cs [sources IH]]; [exists []; constructor|].
  exists ((filename_of c, text c) :: sources).
  constructor; [|exact IH]. split; [|reflexivity].
  unfold filename_of. cbn [fst].
  destruct (metadata c !! "filename"); cbn [default]; auto.
Qed.

Lemma fallback_response_format (query : string) (cs : list chunk)
    (sources : list (string * string)) :
  cs <> [] ->
  Forall2 source_of (firstn 3 cs) sources ->
  _fallback_response query cs
  = fallback_header +:+ excerpts 1 sources +:+ fallback_footer.
Proof.
  intros Hne Hsources. destruct cs as [|c cs]; [contradiction|].
  unfold _fallback_response. rewrite (fallback_loop_excerpts _ _ Hsources).
  now rewrite append_assoc.
Qed.

End FallbackFacts.

Section GenerateFacts.
Import Rag.

Variable backend : ollama.
Variable self : engine.
Variable query : string.
Variable context_chunks : list chunk.
Variable max_tokens : Z.

(** C8.  [generate_response] returns a text whatever the backend does.
    When the backend is not available, because the cached check says so
    or because listing its models fails, and when the chat call fails,
    the text is that of the fallback: the fixed message for no chunks,
    and otherwise the header, one excerpt for each of the first three
    chunks at most, and the closing note.  Each excerpt has the file
    name the metadata of its chunk gives and the first 500 characters of
    the text of the chunk. *)
Theorem generate_response_falls_back :
  let answer :=
    Rag.answer backend self query context_chunks max_tokens in
  (exists text, answer = Ret text)
  /\ (fst (Rag.check_ollama_available backend self) = false ->
      answer = Ret (Rag._fallback_response query context_chunks))
  /\ (forall e,
        Rag._ollama_available self = None ->
        Rag.list_names backend = Raise e ->
        answer = Ret (Rag._fallback_response query context_chunks))
  /\ (forall e,
        Rag.chat_content backend
          (Rag.build_prompt (Rag.build_context context_chunks) query)
          max_tokens = Raise e ->
        answer = Ret (Rag._fallback_response query context_chunks))
  /\ Rag._fallback_response query []
     = "No relevant documents found for your query."
  /\ (context_chunks <> [] ->
      exists sources,
        Forall2
          (fun c source =>
             (Rag.metadata c !! "filename" = Some (fst source)
              \/ (Rag.metadata c !! "filename" = None
                  /\ fst source = "Unknown"))
             /\ Rag.text c = snd source)
          (firstn 3 context_chunks) sources
        /\ (List.length sources <= 3)%nat
        /\ Rag._fallback_response query context_chunks
           = Rag.fallback_header +:+ Rag.excerpts 1 sources
             +:+ Rag.fallback_footer)
  /\ (forall i filename body,
        Rag.excerpt i filename body
        = "**" +:+ Rag.str_of_int i +:+ ". From " +:+ filename +:+ ":**"
          +:+ Rag.nl +:+ Py.take 500 body +:+ "..." +:+ Rag.nl +:+ Rag.nl
        /\ (String.length (Py.take 500 body) <= 500)%nat).
Proof.
  unfold answer. unfold generate_response.
  assert (Hunavailable :
    fst (check_ollama_available backend self) = false ->
    fst (let (available, self0) := check_ollama_available backend self in
         if negb available
         then (Ret (_fallback_response query context_chunks), self0)
         else
           (try_except
              (chat_content backend
                 (build_prompt (build_context context_chunks) query)
                 max_tokens)
              (fun _ => Ret (_fallback_response query context_chunks)),
            self0))
    = Ret (_fallback_response query context_chunks)).
  { destruct (check_ollama_available backend self) as [available self0].
    cbn [fst]. intros ->. reflexivity. }
  split; [|split; [exact Hunavailable|split; [|split; [|split; [|split]]]]].
  - destruct (check_ollama_available backend self) as [available self0].
    destruct available; cbn [negb fst]; [|eauto].
    destruct (chat_content backend _ max_tokens); cbn [try_except]; eauto.
  - intros e Hcache Hlist. apply Hunavailable.
    unfold check_ollama_available. rewrite Hcache, Hlist. reflexivity.
  - intros e Hchat.
    destruct (check_ollama_available backend self) as [available self0].
    destruct available; cbn [negb fst]; [|reflexivity].
    now rewrite Hchat.
  - reflexivity.
  - intros Hne.
    destruct (sources_exist (firstn 3 context_chunks)) as [sources Hsources].
    exists sources. split; [exact Hsources|]. split.
    + rewrite <- (Forall2_length _ _ _ Hsources). apply firstn_le_length.
    + now apply fallback_response_format.
  - intros i filename body. split; [reflexivity|apply length_take_string].
Qed.

End GenerateFacts.

Lemma generate_response_falls_back_witness :
  Rag.answer
    (Rag.Ollama (Raise (BackendError "connection refused"))
       (fun _ _ => Raise (BackendError "connection refused")))
    (Rag.Engine None (Rag.Collection ∅ false))
    "What is the loan amount?"
    [Rag.Chunk "Loan amount: Rs. 50,000" {["filename" := "loan.pdf"]}
       0%Q None;
     Rag.Chunk "Repayment in 24 instalments" ∅ 0%Q None]
    500
  = Ret ("**Ollama LLM not available. Here are the relevant document excerpts:**"
         +:+ Rag.nl +:+ Rag.nl
         +:+ "**1. From loan.pdf:**" +:+ Rag.nl
         +:+ "Loan amount: Rs. 50,000..." +:+ Rag.nl +:+ Rag.nl
         +:+ "**2. From Unknown:**" +:+ Rag.nl
         +:+ "Repayment in 24 instalments..." +:+ Rag.nl +:+ Rag.nl
         +:+ Rag.nl
         +:+ "*Install and run Ollama to get AI-powered answers: https://ollama.ai*").
Proof.
  etransitivity.
  - apply (proj1 (proj2 (proj2 (generate_response_falls_back
             (Rag.Ollama (Raise (BackendError "connection refused"))
                (fun _ _ => Raise (BackendError "connection refused")))
             (Rag.Engine None (Rag.Collection ∅ false))
             "What is the loan amount?"
             [Rag.Chunk "Loan amount: Rs. 50,000"
                {["filename" := "loan.pdf"]} 0%Q None;
              Rag.Chunk "Repayment in 24 instalments" ∅ 0%Q None]
             500)))
           (BackendError "connection refused")); reflexivity.
  - vm_compute. reflexivity.
Defined.

(** ** Deleting the records of a document *)

Section DeleteFacts.
Import Rag.

Lemma collection_get_ids (c : collection) (doc_id rid : string) :
  down c = false ->
  exists ids,
    collection_get c "document_id" doc_id = Ret ids
    /\ (rid ∈ ids
        <-> exists r, records c !! rid = Some r
                      /\ rmeta r !! "document_id" = Some doc_id).
Proof.
  intros Hup. unfold collection_get. rewrite Hup. eexists.
  split; [reflexivity|]. rewrite list_elem_of_fmap. split.
  - intros [[rid' r] [-> Hin]].
    apply elem_of_map_to_list, map_lookup_filter_Some in Hin as [Hr Hdoc].
    exists r. auto.
  - intros [r [Hr Hdoc]]. exists (rid, r). split; [reflexivity|].
    apply elem_of_map_to_list, map_lookup_filter_Some. auto.
Qed.

Variable self : engine.
Variable doc_id : string.
Hypothesis store_up : down (_collection self) = false.

(** What the call leaves in the store: the records of other documents. *)
Lemma delete_document_embeddings_records :
  fst (delete_document_embeddings self doc_id) = true
  /\ down (_collection (snd (delete_document_embeddings self doc_id))) = false
  /\ _ollama_available (snd (delete_document_embeddings self doc_id))
     = _ollama_available self
  /\ forall rid r,
       records (_collection (snd (delete_document_embeddings self doc_id)))
         !! rid = Some r
       <-> records (_collection self) !! rid = Some r
           /\ rmeta r !! "document_id" <> Some doc_id.
Proof.
  unfold delete_document_embeddings, collection_get. rewrite store_up.
  cbn [bind].
  set (ids := (map_to_list _).*1).
  assert (Hids : forall rid,
             rid ∈ ids
             <-> exists r, records (_collection self) !! rid = Some r
                           /\ rmeta r !! "document_id" = Some doc_id).
  { intros rid. destruct (collection_get_ids _ doc_id rid store_up)
      as [ids' [Hget Hin]].
    unfold collection_get in Hget. rewrite store_up in Hget.
    injection Hget as <-. exact Hin. }
  assert (Hkeep : forall rid r,
             foldr delete (records (_collection self)) ids !! rid = Some r
             <-> records (_collection self) !! rid = Some r
                 /\ rmeta r !! "document_id" <> Some doc_id).
  { intros rid r. rewrite lookup_foldr_delete_Some, Hids. split.
    - intros [Hnot Hr]. split; [exact Hr|]. intros Hdoc. apply Hnot. eauto.
    - intros [Hr Hdoc]. split; [|exact Hr].
      intros [r' [Hr' Hdoc']]. congruence. }
  destruct ids as [|id0 ids'] eqn:Hlist.
  - cbn [fst snd _collection _ollama_available].
    split; [reflexivity|]. split; [exact store_up|].
    split; [reflexivity|]. intros rid r. exact (Hkeep rid r).
  - unfold collection_delete. rewrite store_up.
    cbn [fst snd _collection _ollama_available records down].
    split; [reflexivity|]. split; [reflexivity|].
    split; [reflexivity|]. intros rid r. exact (Hkeep rid r).
Qed.

(** When no record belongs to the document, the call succeeds and
    leaves the engine as it was. *)
Lemma delete_document_embeddings_absent :
  (forall rid r,
      records (_collection self) !! rid = Some r ->
      rmeta r !! "document_id" <> Some doc_id) ->
  delete_document_embeddings self doc_id = (true, self).
Proof.
  intros Habsent. unfold delete_document_embeddings, collection_get.
  rewrite store_up. cbn [bind].
  assert (Hnone : filter (fun kv : string * vrecord =>
                            rmeta (snd kv) !! "document_id" = Some doc_id)
                    (records (_collection self)) = ∅).
  { apply map_empty. intros rid. apply map_lookup_filter_None.
    destruct (records (_collection self) !! rid) as [r|] eqn:Hr;
      [right|now left].
    intros r' [= <-]. exact (Habsent rid r Hr). }
  rewrite Hnone, map_to_list_empty. cbn [fmap list_fmap].
  destruct self. reflexivity.
Qed.

End DeleteFacts.

Section DeleteResults.
Import Rag.

(** C9.  On a store that answers, [delete_document_embeddings] succeeds
    and leaves exactly the records whose [document_id] is another one.
    Called on a document without records, it succeeds and changes
    nothing; so does a second call with the same id. *)
Theorem delete_document_embeddings_idempotent (self : Rag.engine)
    (doc_id : string) :
  Rag.down (Rag._collection self) = false ->
  let after := snd (Rag.delete_document_embeddings self doc_id) in
  fst (Rag.delete_document_embeddings self doc_id) = true
  /\ (forall rid r,
        Rag.records (Rag._collection after) !! rid = Some r
        <-> Rag.records (Rag._collection self) !! rid = Some r
            /\ Rag.rmeta r !! "document_id" <> Some doc_id)
  /\ ((forall rid r,
         Rag.records (Rag._collection self) !! rid = Some r ->
         Rag.rmeta r !! "document_id" <> Some doc_id) ->
      Rag.delete_document_embeddings self doc_id = (true, self))
  /\ Rag.delete_document_embeddings after doc_id = (true, after).
Proof.
  intros Hup after.
  destruct (delete_document_embeddings_records self doc_id Hup)
    as [Hok [Hup' [_ Hrecords]]].
  split; [exact Hok|]. split; [exact Hrecords|].
  split; [apply delete_document_embeddings_absent; exact Hup|].
  apply delete_document_embeddings_absent; [exact Hup'|].
  intros rid r Hr. now apply Hrecords in Hr.
Qed.

Lemma delete_document_embeddings_idempotent_witness :
  fst (Rag.delete_document_embeddings
         (Rag.Engine None
            (Rag.Collection
               {[ "d1_chunk_0" :=
                    Rag.VRecord [] "Loan amount" {["document_id" := "d1"]} ]}
               false))
         "d1") = true.
Proof.
  apply (delete_document_embeddings_idempotent
           (Rag.Engine None
              (Rag.Collection
                 {[ "d1_chunk_0" :=
                      Rag.VRecord [] "Loan amount"
                        {["document_id" := "d1"]} ]}
                 false))
           "d1").
  reflexivity.
Defined.

End DeleteResults.

(** * Further properties *)

(** ** Pieces of a text *)

Section PieceFacts.

Lemma take_drop_string (s : string) :
  forall n, s = Py.take n s +:+ Py.drop n s.
Proof.
  induction s as [|c s IH]; intros [|n]; cbn [Py.take Py.drop];
    try reflexivity.
  rewrite append_cons. now rewrite <- IH.
Qed.

Lemma contains_refl (s : string) : Py.contains s s = true.
Proof. apply contains_spec. exists "", "". now rewrite append_nil_r. Qed.

Lemma contains_trans (a b c : string) :
  Py.contains a b = true -> Py.contains b c = true -> Py.contains a c = true.
Proof.
  rewrite !contains_spec. intros [p1 [q1 ->]] [p2 [q2 ->]].
  exists (p2 +:+ p1), (q1 +:+ q2). now rewrite !append_assoc.
Qed.

Lemma contains_take (s : string) (n : nat) : Py.contains (Py.take n s) s = true.
Proof.
  apply contains_spec. exists "", (Py.drop n s). apply take_drop_string.
Qed.

Lemma contains_drop (s : string) (n : nat) : Py.contains (Py.drop n s) s = true.
Proof.
  apply contains_spec. exists (Py.take n s), "".
  rewrite append_nil_r. apply take_drop_string.
Qed.

Lemma contains_slice (s : string) (a b : Z) :
  Py.contains (Py.slice s a b) s = true.
Proof.
  unfold Py.slice. eapply contains_trans; [apply contains_take|].
  apply contains_drop.
Qed.

Lemma contains_lstrip (s : string) : Py.contains (Py.lstrip s) s = true.
Proof.
  induction s as [|c s IH]; cbn [Py.lstrip]; [reflexivity|].
  destruct (Py.isspace c); [|apply contains_refl].
  cbn [Py.contains]. rewrite IH. apply orb_true_r.
Qed.

Lemma rstrip_prefix (s : string) : exists post, s = Py.rstrip s +:+ post.
Proof.
  induction s as [|c s [post IH]]; [exists ""; reflexivity|].
  cbn [Py.rstrip]. destruct (Py.rstrip s) as [|d r] eqn:Hr.
  - destruct (Py.isspace c).
    + exists (String c s). reflexivity.
    + exists post. rewrite append_cons. now rewrite <- IH.
  - exists post. rewrite append_cons. now rewrite <- IH.
Qed.

Lemma contains_strip (s : string) : Py.contains (Py.strip s) s = true.
Proof.
  unfold Py.strip. eapply contains_trans; [|apply contains_lstrip].
  apply contains_spec. destruct (rstrip_prefix (Py.lstrip s)) as [post Hpost].
  exists "", post. exact Hpost.
Qed.

Lemma length_lstrip (s : string) :
  (String.length (Py.lstrip s) <= String.length s)%nat.
Proof.
  induction s as [|c s IH]; cbn [Py.lstrip String.length]; [lia|].
  destruct (Py.isspace c); cbn [String.length]; lia.
Qed.

Lemma length_rstrip (s : string) :
  (String.length (Py.rstrip s) <= String.length s)%nat.
Proof.
  destruct (rstrip_prefix s) as [post Hpost].
  rewrite Hpost at 2. rewrite length_append. lia.
Qed.

Lemma length_strip (s : string) :
  (String.length (Py.strip s) <= String.length s)%nat.
Proof.
  unfold Py.strip. pose proof (length_rstrip (Py.lstrip s)).
  pose proof (length_lstrip s). lia.
Qed.

Lemma len_slice (s : string) (a b : Z) :
  0 <= a -> a <= b -> Py.len (Py.slice s a b) <= b - a.
Proof.
  intros Ha Hab. unfold Py.slice, Py.clamp, Py.len.
  assert (Hna : (a <? 0) = false) by (apply Z.ltb_ge; lia).
  assert (Hnb : (b <? 0) = false) by (apply Z.ltb_ge; lia).
  rewrite Hna, Hnb.
  pose proof (length_take_string
                (Py.drop (Z.to_nat (Z.min a (Py.len s))) s)
                (Z.to_nat (Z.min b (Py.len s) - Z.min a (Py.len s)))) as Hl.
  unfold Py.len in Hl. lia.
Qed.

End PieceFacts.

(** ** What the chunker's loop keeps *)

Section ChunkerInvariants.
Import Chunker.

Variable text : string.
Variables chunk_size overlap : Z.

(** A property of window starts that every pass keeps. *)
Variable kept : Z -> Prop.
Hypothesis kept_step :
  forall st e,
    kept st -> window_end text chunk_size st = Ret e -> kept (e - overlap).

(** What the loop adds to the chunks it starts with: stripped windows
    that are not empty, numbered from [chunk_index] on. *)
Lemma chunk_loop_adds (fuel : nat) :
  forall s out,
    kept (start s) ->
    chunk_loop fuel text chunk_size overlap s = Some (Ret out) ->
    exists added,
      out = chunks s ++ added
      /\ Forall (fun c =>
                  fst c <> ""
                  /\ exists st e,
                       kept st /\ window_end text chunk_size st = Ret e
                       /\ fst c = Py.strip (Py.slice text st e)) added
      /\ forall i c idx,
           added !! i = Some (c, idx) -> idx = chunk_index s + Z.of_nat i.
Proof.
  induction fuel as [|fuel IH]; intros s out Hkept; cbn [chunk_loop];
    destruct (start s <? Py.len text); try discriminate;
    try (intros [= <-]; exists []; rewrite app_nil_r;
         repeat split; [constructor|intros i c idx Hi; discriminate]).
  unfold chunk_step.
  destruct (window_end text chunk_size (start s)) as [e|x] eqn:He;
    cbn [bind]; [|discriminate].
  pose proof (kept_step _ _ Hkept He) as Hnext.
  destruct (Py.strip (Py.slice text (start s) e)) as [|c0 rest] eqn:Hchunk;
    cbn [Py.truthy]; intros Hloop.
  - destruct (IH (LoopState (e - overlap) (chunk_index s) (chunks s)) out
                Hnext Hloop) as [added [Hout [Hall Hidx]]].
    exists added. cbn [chunks chunk_index] in *. auto.
  - destruct (IH (LoopState (e - overlap) (chunk_index s + 1)
                    (chunks s ++ [(String c0 rest, chunk_index s)])) out
                Hnext Hloop) as [added [Hout [Hall Hidx]]].
    cbn [chunks chunk_index start] in *.
    exists ((String c0 rest, chunk_index s) :: added).
    split; [now rewrite Hout, <- app_assoc|]. split.
    + constructor; [|exact Hall]. cbn [fst]. split; [discriminate|].
      exists (start s), e. rewrite Hchunk. auto.
    + intros [|i] c idx Hi.
      * injection Hi as _ <-. cbn. lia.
      * cbn in Hi. apply Hidx in Hi. lia.
Qed.

End ChunkerInvariants.

Section ChunkerExtras.
Import Chunker.

Lemma scan_back_found (text : string) (n : nat) :
  forall i j, scan_back text i n = Ret (Some j) -> i - Z.of_nat n < j <= i.
Proof.
  induction n as [|n IH]; intros i j; cbn [scan_back]; [discriminate|].
  destruct (Py.getitem text i) as [c|x]; [|discriminate].
  destruct (sentence_end c).
  - intros [= <-]. lia.
  - intros Hscan. apply IH in Hscan. lia.
Qed.

(** A window is cut at most one character after its full size. *)
Lemma window_end_upper (text : string) (chunk_size st e : Z) :
  window_end text chunk_size st = Ret e -> e <= st + chunk_size + 1.
Proof.
  unfold window_end. destruct (st + chunk_size <? Py.len text).
  - destruct (scan_back text (st + chunk_size) _) as [[j|]|x] eqn:Hscan;
      intros [= <-]; [|lia].
    apply scan_back_found in Hscan. lia.
  - intros [= <-]. lia.
Qed.

Lemma kept_trivially (text : string) (chunk_size overlap : Z) :
  forall st e : Z,
    True -> window_end text chunk_size st = Ret e -> True.
Proof. trivial. Qed.

Lemma kept_nonnegative (text : string) (chunk_size overlap : Z) :
  overlap < Z.min chunk_size (chunk_size / 2 + 2) ->
  forall st e : Z,
    0 <= st -> window_end text chunk_size st = Ret e -> 0 <= e - overlap.
Proof.
  intros Hov st e Hst He.
  destruct (window_end_bounds text chunk_size st Hst) as [e' [He' Hlo]].
  rewrite He in He'. injection He' as <-. lia.
Qed.

(** X1.  With an overlap below [min chunk_size (chunk_size // 2 + 2)]
    the call returns, given fuel for the length of the cleaned text, and
    its windows start at strictly increasing offsets.  The default size
    500 and overlap 50 are such a pair, so the call with the defaults
    returns for every text. *)
Theorem chunk_text_ends_with_small_overlap :
  (forall text chunk_size overlap fuel,
      overlap < Z.min chunk_size (chunk_size / 2 + 2) ->
      (String.length (Chunker.normalize text) <= fuel)%nat ->
      (exists out,
          Chunker.chunk_text fuel text chunk_size overlap = Some (Ret out))
      /\ StronglySorted Z.lt
           (Chunker.starts fuel (Chunker.normalize text) chunk_size overlap
              (Chunker.LoopState 0 0 [])))
  /\ (forall text,
        exists out,
          Chunker.chunk_text (String.length (Chunker.normalize text)) text
            Chunker.CHUNK_SIZE Chunker.CHUNK_OVERLAP
          = Some (Ret out)).
Proof.
  split.
  - intros text chunk_size overlap fuel Hov Hfuel.
    now apply chunk_text_returns_small_overlap.
  - intros text.
    apply (chunk_text_returns_small_overlap text CHUNK_SIZE CHUNK_OVERLAP);
      [reflexivity|lia].
Qed.

Lemma chunk_text_ends_with_small_overlap_witness :
  exists out,
    Chunker.chunk_text 51
      "One. Two three four. Five six seven eight nine ten." 20 3
    = Some (Ret out).
Proof.
  apply (proj1 chunk_text_ends_with_small_overlap
           "One. Two three four. Five six seven eight nine ten." 20 3 51%nat).
  - vm_compute. reflexivity.
  - vm_compute. lia.
Defined.

(** X2.  Whatever the parameters, when the call returns, the chunk at
    position [i] of the result carries the index [i]. *)
Theorem chunk_text_indexes_count_up (fuel : nat) (text : string)
    (chunk_size overlap : Z) (out : list (string * Z)) :
  Chunker.chunk_text fuel text chunk_size overlap = Some (Ret out) ->
  forall i c idx, out !! i = Some (c, idx) -> idx = Z.of_nat i.
Proof.
  unfold chunk_text.
  destruct (Py.len (normalize text) <=? chunk_size).
  - intros [= <-] [|i] c idx Hi; [now injection Hi as _ <-|discriminate].
  - intros Hloop i c idx Hi.
    destruct (chunk_loop_adds (normalize text) chunk_size overlap
                (fun _ => True) (kept_trivially _ _ overlap) fuel _ _ I Hloop)
      as [added [-> [_ Hidx]]].
    cbn [chunks chunk_index app] in *. now apply Hidx in Hi.
Qed.

Lemma chunk_text_indexes_count_up_witness :
  Chunker.chunk_text 10
    "One. Two three four. Five six seven eight nine ten." 20 3
  = Some (Ret [("One. Two three four.", 0); ("ur. Five six seven e", 1);
               ("n eight nine ten.", 2)])
  /\ 2 = Z.of_nat 2.
Proof.
  split; [vm_compute; reflexivity|].
  refine (chunk_text_indexes_count_up 10%nat
            "One. Two three four. Five six seven eight nine ten." 20 3
            [("One. Two three four.", 0); ("ur. Five six seven e", 1);
             ("n eight nine ten.", 2)] _ 2%nat "n eight nine ten." 2 _).
  - vm_compute. reflexivity.
  - reflexivity.
Defined.

(** X3.  Whatever the parameters, every chunk of the result is a piece
    of the cleaned text, and when the cleaned text is longer than
    [chunk_size] no chunk is empty. *)
Theorem chunk_text_chunks_are_pieces (fuel : nat) (text : string)
    (chunk_size overlap : Z) (out : list (string * Z)) :
  Chunker.chunk_text fuel text chunk_size overlap = Some (Ret out) ->
  Forall (fun c =>
            Py.contains (fst c) (Chunker.normalize text) = true
            /\ (chunk_size < Py.len (Chunker.normalize text) -> fst c <> ""))
    out.
Proof.
  unfold chunk_text.
  destruct (Py.len (normalize text) <=? chunk_size) eqn:Hshort.
  - intros [= <-]. constructor; [|constructor]. cbn [fst].
    split; [apply contains_refl|]. apply Z.leb_le in Hshort. lia.
  - intros Hloop.
    destruct (chunk_loop_adds (normalize text) chunk_size overlap
                (fun _ => True) (kept_trivially _ _ overlap) fuel _ _ I Hloop)
      as [added [-> [Hall _]]].
    cbn [chunks app]. eapply Forall_impl; [exact Hall|]. cbn beta.
    intros c [Hne [st [e [_ [_ Hc]]]]]. split; [|auto].
    rewrite Hc. eapply contains_trans; [apply contains_strip|].
    apply contains_slice.
Qed.

Lemma chunk_text_chunks_are_pieces_witness :
  Forall (fun c =>
            Py.contains (fst c)
              (Chunker.normalize
                 "One. Two three four. Five six seven eight nine ten.")
            = true
            /\ (20 < Py.len
                       (Chunker.normalize
                          "One. Two three four. Five six seven eight nine ten.")
                -> fst c <> ""))
    [("One. Two three four.", 0); ("ur. Five six seven e", 1);
     ("n eight nine ten.", 2)].
Proof.
  apply (chunk_text_chunks_are_pieces 10%nat
           "One. Two three four. Five six seven eight nine ten." 20 3).
  vm_compute. reflexivity.
Defined.

(** X4.  With a size that is not negative and an overlap below
    [min chunk_size (chunk_size // 2 + 2)], no chunk has more than
    [chunk_size + 1] characters.  The extra character is real: a window
    whose first character after the end is a full stop is cut after
    that full stop. *)
Theorem chunk_text_chunk_length (fuel : nat) (text : string)
    (chunk_size overlap : Z) (out : list (string * Z)) :
  0 <= chunk_size ->
  overlap < Z.min chunk_size (chunk_size / 2 + 2) ->
  Chunker.chunk_text fuel text chunk_size overlap = Some (Ret out) ->
  Forall (fun c => Py.len (fst c) <= chunk_size + 1) out
  /\ Chunker.chunk_text 2 "0123456789. abc" 10 1
     = Some (Ret [("0123456789.", 0); (". abc", 1)]).
Proof.
  intros Hsize Hov Hret. split; [|reflexivity]. revert Hret.
  unfold chunk_text.
  destruct (Py.len (normalize text) <=? chunk_size) eqn:Hshort.
  - intros [= <-]. constructor; [|constructor]. cbn [fst].
    apply Z.leb_le in Hshort. lia.
  - intros Hloop.
    destruct (chunk_loop_adds (normalize text) chunk_size overlap
                (fun st => 0 <= st)
                (kept_nonnegative _ _ _ Hov) fuel
                (LoopState 0 0 []) out (Z.le_refl 0) Hloop)
      as [added [-> [Hall _]]].
    cbn [chunks app]. eapply Forall_impl; [exact Hall|]. cbn beta.
    intros c [_ [st [e [Hst [He Hc]]]]]. rewrite Hc.
    pose proof (window_end_upper _ _ _ _ He) as Hup.
    destruct (window_end_bounds (normalize text) chunk_size st Hst)
      as [e' [He' Hlo]].
    rewrite He in He'. injection He' as <-.
    pose proof (length_strip (Py.slice (normalize text) st e)) as Hstrip.
    pose proof (len_slice (normalize text) st e Hst) as Hslice.
    assert (0 <= chunk_size / 2) by (apply Z.div_pos; lia).
    unfold Py.len in *. lia.
Qed.

Lemma chunk_text_chunk_length_witness :
  Forall (fun c => Py.len (fst c) <= 20 + 1)
    [("One. Two three four.", 0); ("ur. Five six seven e", 1);
     ("n eight nine ten.", 2)].
Proof.
  apply (chunk_text_chunk_length 10%nat
           "One. Two three four. Five six seven eight nine ten." 20 3).
  - lia.
  - vm_compute. reflexivity.
  - vm_compute. reflexivity.
Defined.

End ChunkerExtras.

(** ** Cleaning and splitting into words *)

Section WordFacts.
Import Chunker Stats.

Lemma rstrip_append (a b : string) :
  Py.rstrip (a +:+ b)
  = match Py.rstrip b with
    | EmptyString => Py.rstrip a
    | r => a +:+ r
    end.
Proof.
  induction a as [|c a IH].
  - rewrite append_nil_l. now destruct (Py.rstrip b).
  - rewrite append_cons. cbn [Py.rstrip]. rewrite IH.
    destruct (Py.rstrip b) as [|d r]; [reflexivity|].
    rewrite append_cons.
    destruct (a +:+ String d r) eqn:Happ; [|reflexivity].
    destruct a; discriminate.
Qed.

Lemma rstrip_cons (c : ascii) (t : string) :
  Py.rstrip (String c t)
  = match Py.rstrip t with
    | EmptyString => if Py.isspace c then EmptyString else String c EmptyString
    | r => String c r
    end.
Proof. reflexivity. Qed.

Lemma solid_append (a b : string) : solid a -> solid b -> solid (a +:+ b).
Proof. unfold solid. rewrite all_append. now intros -> ->. Qed.

Lemma rstrip_solid (w : string) : solid w -> Py.rstrip w = w.
Proof.
  unfold solid. induction w as [|c w IH]; cbn [Py.all Py.rstrip];
    [reflexivity|].
  rewrite andb_true_iff, negb_true_iff. intros [Hc Hw].
  rewrite (IH Hw), Hc. now destruct w.
Qed.

Lemma lstrip_collapse_true (s : string) :
  Py.lstrip (collapse_ws true s) = collapse_ws true s.
Proof.
  induction s as [|c s IH]; cbn [collapse_ws]; [reflexivity|].
  destruct (Py.isspace c) eqn:Hc; [exact IH|].
  cbn [Py.lstrip]. now rewrite Hc.
Qed.

Lemma lstrip_collapse (s : string) :
  Py.lstrip (collapse_ws false s) = collapse_ws true s.
Proof.
  destruct s as [|c s]; cbn [collapse_ws]; [reflexivity|].
  destruct (Py.isspace c) eqn:Hc.
  - cbn [Py.lstrip]. change (Py.isspace " ") with true. cbn iota.
    apply lstrip_collapse_true.
  - cbn [Py.lstrip]. now rewrite Hc.
Qed.

Lemma split_from_words (s : string) :
  forall cur, solid cur -> Forall word (split_from cur s).
Proof.
  induction s as [|c s IH]; intros cur Hcur; cbn [split_from].
  - destruct cur; cbn [Py.truthy]; repeat constructor;
      [discriminate|exact Hcur].
  - destruct (Py.isspace c) eqn:Hc.
    + destruct cur; cbn [Py.truthy]; [apply IH; reflexivity|].
      constructor; [split; [discriminate|exact Hcur]|].
      apply IH. reflexivity.
    + apply IH. apply solid_append; [exact Hcur|].
      unfold solid. cbn [Py.all]. now rewrite Hc.
Qed.

Lemma join_words_nonempty (w : string) (ws : list string) :
  w <> "" -> Rag.join " " (w :: ws) <> "".
Proof.
  intros Hw. cbn [Rag.join]. destruct ws; [exact Hw|].
  destruct w; [contradiction|]. rewrite append_cons. discriminate.
Qed.

(** The cleaned text, read from inside a word and from outside one. *)
Lemma rstrip_collapse_join (s : string) :
  Py.rstrip (collapse_ws true s) = Rag.join " " (split_from "" s)
  /\ forall cur,
       solid cur -> cur <> "" ->
       Py.rstrip (cur +:+ collapse_ws false s)
       = Rag.join " " (split_from cur s).
Proof.
  induction s as [|c s [IHout IHin]]; cbn [collapse_ws split_from].
  - split; [reflexivity|]. intros cur Hcur Hne.
    rewrite append_nil_r, (rstrip_solid _ Hcur).
    destruct cur; [contradiction|reflexivity].
  - destruct (Py.isspace c) eqn:Hc.
    + split; [exact IHout|]. intros cur Hcur Hne.
      destruct cur as [|x cur]; [contradiction|]. cbn [Py.truthy].
      rewrite rstrip_append, (rstrip_cons " " (collapse_ws true s)), IHout.
      change (Py.isspace " ") with true. cbn iota.
      pose proof (split_from_words s "" eq_refl) as Hwords.
      destruct (split_from "" s) as [|w ws] eqn:Hsplit.
      * cbn [Rag.join]. apply rstrip_solid. exact Hcur.
      * apply Forall_cons in Hwords as [[Hw _] _].
        pose proof (join_words_nonempty w ws Hw) as Hjoin.
        destruct (Rag.join " " (w :: ws)) as [|y r] eqn:Hj;
          [contradiction|].
        change (Rag.join " " (String x cur :: w :: ws))
          with (String x cur +:+ " " +:+ Rag.join " " (w :: ws)).
        now rewrite Hj.
    + assert (Hsolid : solid (String c "")).
      { unfold solid. cbn [Py.all]. now rewrite Hc. }
      split.
      * rewrite append_nil_l.
        specialize (IHin (String c "") Hsolid).
        rewrite append_cons, append_nil_l in IHin. apply IHin. discriminate.
      * intros cur Hcur Hne.
        specialize (IHin (cur +:+ String c "")
                      (solid_append _ _ Hcur Hsolid)).
        rewrite append_assoc, append_cons, append_nil_l in IHin.
        apply IHin. destruct cur; discriminate.
Qed.

(** Splitting reads a word in one go. *)
Lemma split_from_solid (w : string) :
  solid w ->
  forall cur s, split_from cur (w +:+ s) = split_from (cur +:+ w) s.
Proof.
  unfold solid. induction w as [|c w IH]; intros Hw cur s.
  - now rewrite append_nil_l, append_nil_r.
  - cbn [Py.all] in Hw. apply andb_true_iff in Hw as [Hc Hw].
    apply negb_true_iff in Hc.
    rewrite append_cons. cbn [split_from]. rewrite Hc, (IH Hw).
    now rewrite append_assoc.
Qed.

Lemma split_join (ws : list string) :
  Forall word ws -> split (Rag.join " " ws) = ws.
Proof.
  unfold split. induction 1 as [|w ws [Hne Hw] Hws IH]; [reflexivity|].
  destruct ws as [|w2 ws].
  - cbn [Rag.join]. rewrite <- (append_nil_r w) at 1.
    rewrite (split_from_solid _ Hw), append_nil_l. cbn [split_from].
    destruct w; [contradiction|reflexivity].
  - change (Rag.join " " (w :: w2 :: ws))
      with (w +:+ " " +:+ Rag.join " " (w2 :: ws)).
    rewrite (split_from_solid _ Hw), append_nil_l, append_cons, append_nil_l.
    cbn [split_from]. change (Py.isspace " ") with true. cbn iota.
    destruct w; [contradiction|]. cbn [Py.truthy]. now rewrite IH.
Qed.

Lemma normalize_join (text : string) :
  normalize text = Rag.join " " (split text).
Proof.
  unfold normalize, Py.strip, split. rewrite lstrip_collapse.
  apply rstrip_collapse_join.
Qed.

End WordFacts.

Section CleaningExtras.
Import Chunker Stats.

Lemma length_collapse (s : string) :
  forall b, (String.length (collapse_ws b s) <= String.length s)%nat.
Proof.
  induction s as [|c s IH]; intros b; cbn [collapse_ws String.length]; [lia|].
  pose proof (IH true). pose proof (IH false).
  destruct (Py.isspace c); [destruct b|]; cbn [String.length]; lia.
Qed.

Lemma len_normalize (text : string) : Py.len (normalize text) <= Py.len text.
Proof.
  unfold normalize, Py.len.
  pose proof (length_strip (collapse_ws false text)).
  pose proof (length_collapse text false). lia.
Qed.

Lemma normalize_idempotent (text : string) :
  normalize (normalize text) = normalize text.
Proof.
  rewrite (normalize_join (normalize text)), (normalize_join text).
  rewrite split_join; [reflexivity|].
  apply split_from_words. reflexivity.
Qed.

(** X5.  The cleaning [chunk_text] starts with gives the words of the
    text, as [text.split()] finds them, joined by single spaces; each
    word is not empty and has no white space. *)
Theorem normalize_is_words_joined (text : string) :
  Chunker.normalize text = Rag.join " " (Stats.split text)
  /\ Forall Stats.word (Stats.split text).
Proof.
  split; [apply normalize_join|]. apply split_from_words. reflexivity.
Qed.

(** X6.  Cleaning a cleaned text changes nothing, so [chunk_text] gives
    the same result on a text and on its cleaned form.  The cleaned form
    has the same words as the text and is not longer. *)
Theorem cleaning_twice_changes_nothing (text : string) :
  Chunker.normalize (Chunker.normalize text) = Chunker.normalize text
  /\ (forall fuel chunk_size overlap,
        Chunker.chunk_text fuel (Chunker.normalize text) chunk_size overlap
        = Chunker.chunk_text fuel text chunk_size overlap)
  /\ Stats.split (Chunker.normalize text) = Stats.split text
  /\ Stats.character_count (Stats.get_document_stats (Chunker.normalize text))
     <= Stats.character_count (Stats.get_document_stats text).
Proof.
  split; [apply normalize_idempotent|]. split; [|split].
  - intros fuel chunk_size overlap. unfold chunk_text.
    now rewrite normalize_idempotent.
  - rewrite normalize_join. apply split_join.
    apply split_from_words. reflexivity.
  - cbn [get_document_stats character_count]. apply len_normalize.
Qed.

Lemma length_join_words (ws : list string) :
  Forall word ws ->
  2 * Z.of_nat (List.length ws)
  <= Z.of_nat (String.length (Rag.join " " ws)) + 1.
Proof.
  induction 1 as [|w ws [Hne _] Hws IH]; [cbn; lia|].
  destruct ws as [|w2 ws].
  - cbn [Rag.join List.length]. destruct w; [contradiction|].
    cbn [String.length]. lia.
  - change (Rag.join " " (w :: w2 :: ws))
      with (w +:+ " " +:+ Rag.join " " (w2 :: ws)).
    rewrite !length_append. destruct w; [contradiction|].
    cbn [String.length List.length] in *. lia.
Qed.

Lemma nonblank_not_empty (s : string) :
  Py.truthy (Py.strip s) = true -> (1 <= String.length s)%nat.
Proof. destruct s; [discriminate|cbn [String.length]; lia]. Qed.

Lemma re_split_count (s : string) :
  forall cur in_run,
    2 * Z.of_nat
          (List.length
             (List.filter (fun p => Py.truthy (Py.strip p))
                (re_split_from cur in_run s)))
    <= Z.of_nat (String.length cur) + Z.of_nat (String.length s) + 1.
Proof.
  induction s as [|c s IH]; intros cur in_run;
    cbn [re_split_from String.length].
  - cbn [List.filter]. destruct (Py.truthy (Py.strip cur)) eqn:Hcur.
    + apply nonblank_not_empty in Hcur. cbn [List.length]. lia.
    + cbn [List.length]. lia.
  - destruct (terminator c).
    + destruct in_run.
      * specialize (IH "" true). cbn [String.length] in IH. lia.
      * cbn [List.filter]. specialize (IH "" true).
        cbn [String.length] in IH.
        destruct (Py.truthy (Py.strip cur)) eqn:Hcur.
        -- apply nonblank_not_empty in Hcur. cbn [List.length]. lia.
        -- lia.
    + specialize (IH (cur +:+ String c "") false).
      rewrite length_append in IH. cbn [String.length] in IH. lia.
Qed.

Lemma startswith_length (p s : string) :
  Py.startswith p s = true -> (String.length p <= String.length s)%nat.
Proof.
  intros H. apply startswith_spec in H as [post ->].
  rewrite length_append. lia.
Qed.

Lemma count_from_bound (p : string) :
  (1 <= String.length p)%nat ->
  forall s skip,
    0 <= count_from p s skip
    /\ Z.of_nat (String.length p) * count_from p s skip
       <= Z.of_nat (String.length s - skip).
Proof.
  intros Hp. induction s as [|c s IH]; intros skip; cbn [count_from].
  - lia.
  - destruct skip as [|skip].
    + destruct (Py.startswith p (String c s)) eqn:Hstart.
      * apply startswith_length in Hstart. cbn [String.length] in *.
        specialize (IH (String.length p - 1)%nat). lia.
      * specialize (IH 0%nat). cbn [String.length]. lia.
    + specialize (IH skip). cbn [String.length]. lia.
Qed.

(** X7.  The counts of [get_document_stats] fit the number of
    characters: a text of [n] characters has at most [(n + 1) / 2] words,
    at most [(n + 1) / 2] sentences and at most [n / 8] page markers,
    and none of the counts is negative. *)
Theorem document_stats_bounds (text : string) :
  let stats := Stats.get_document_stats text in
  0 <= Stats.word_count stats
  /\ 2 * Stats.word_count stats <= Stats.character_count stats + 1
  /\ 0 <= Stats.sentence_count stats
  /\ 2 * Stats.sentence_count stats <= Stats.character_count stats + 1
  /\ 0 <= Stats.page_markers stats
  /\ 8 * Stats.page_markers stats <= Stats.character_count stats.
Proof.
  cbn [get_document_stats word_count character_count sentence_count
       page_markers].
  split; [lia|]. split; [|split; [lia|split; [|split]]].
  - pose proof (length_join_words (split text)
                  (split_from_words text "" eq_refl)) as Hwords.
    rewrite <- normalize_join in Hwords.
    pose proof (len_normalize text). unfold Py.len in *. lia.
  - pose proof (re_split_count text "" false) as Hcount.
    cbn [String.length] in Hcount. unfold re_split, Py.len. lia.
  - apply (count_from_bound "--- Page"); cbn [String.length]; lia.
  - destruct (count_from_bound "--- Page" ltac:(cbn [String.length]; lia)
                text 0%nat) as [_ Hmarkers].
    change (Z.of_nat (String.length "--- Page")) with 8 in Hmarkers.
    unfold Py.len. lia.
Qed.

End CleaningExtras.

(** ** The matcher finds matches only *)

Section MatcherSoundness.
Import Re Lang.

Lemma last_char_none (s : string) : Py.last_char s = None -> s = "".
Proof.
  induction s as [|c s IH]; [reflexivity|]. cbn [Py.last_char].
  destruct s; [discriminate|]. intros H. apply IH in H. discriminate.
Qed.

Lemma last_char_cons (x : ascii) (s : string) :
  s <> "" -> Py.last_char (String x s) = Py.last_char s.
Proof. destruct s; [contradiction|reflexivity]. Qed.

Lemma last_char_append (a b : string) :
  Py.last_char (a +:+ b)
  = match Py.last_char b with
    | Some c => Some c
    | None => Py.last_char a
    end.
Proof.
  induction a as [|x a IH].
  - rewrite append_nil_l. now destruct (Py.last_char b).
  - rewrite append_cons. destruct (Py.last_char b) as [c|] eqn:Hb.
    + rewrite last_char_cons, IH; [reflexivity|].
      destruct a; [|discriminate]. rewrite append_nil_l.
      intros ->. discriminate.
    + apply last_char_none in Hb. subst b. now rewrite append_nil_r.
Qed.

Lemma after_append (prev : option ascii) (a b : string) :
  after (after prev a) b = after prev (a +:+ b).
Proof.
  unfold after. rewrite last_char_append.
  destruct (Py.last_char b); [reflexivity|]. now destruct (Py.last_char a).
Qed.

Lemma after_nil (prev : option ascii) : after prev "" = prev.
Proof. reflexivity. Qed.

Variable step : option ascii -> string -> cont -> option string.
Variable R : option ascii -> string -> string -> Prop.
Hypothesis step_sound :
  forall prev s k out,
    step prev s k = Some out ->
    exists m rest,
      s = m +:+ rest /\ R prev m rest /\ k (after prev m) rest = Some out.

Lemma rep_optional_sound (k : cont) (n : nat) :
  forall prev s out,
    rep_optional step k n prev s = Some out ->
    exists j m rest,
      (j <= n)%nat /\ s = m +:+ rest /\ iter j R prev m rest
      /\ k (after prev m) rest = Some out.
Proof.
  induction n as [|n IH]; intros prev s out; cbn [rep_optional].
  - intros Hk. exists 0%nat, "", s. cbn [iter]. auto.
  - destruct (step prev s (rep_optional step k n)) as [o|] eqn:Hstep.
    + intros [= ->].
      apply step_sound in Hstep as [m1 [rest1 [-> [HR Hnext]]]].
      apply IH in Hnext as [j [m2 [rest [Hj [-> [Hiter Hk]]]]]].
      exists (S j), (m1 +:+ m2), rest. rewrite append_assoc.
      split; [lia|]. split; [reflexivity|]. split.
      * cbn [iter]. exists m1, m2. auto.
      * now rewrite <- after_append.
    + intros Hk. exists 0%nat, "", s. cbn [iter]. split; [lia|]. auto.
Qed.

Lemma rep_required_sound (k : cont) (more n : nat) :
  forall prev s out,
    rep_required step k more n prev s = Some out ->
    exists j m rest,
      (n <= j <= n + more)%nat /\ s = m +:+ rest /\ iter j R prev m rest
      /\ k (after prev m) rest = Some out.
Proof.
  induction n as [|n IH]; intros prev s out; cbn [rep_required].
  - intros Hopt.
    apply rep_optional_sound in Hopt as [j [m [rest [Hj H]]]].
    exists j, m, rest. split; [lia|exact H].
  - intros Hstep.
    apply step_sound in Hstep as [m1 [rest1 [-> [HR Hnext]]]].
    apply IH in Hnext as [j [m2 [rest [Hj [-> [Hiter Hk]]]]]].
    exists (S j), (m1 +:+ m2), rest. rewrite append_assoc.
    split; [lia|]. split; [reflexivity|]. split.
    + cbn [iter]. exists m1, m2. auto.
    + now rewrite <- after_append.
Qed.

End MatcherSoundness.

Section MatcherSoundnessResults.
Import Re Lang.

(** Whatever [run] accepts starts with a match of the pattern, after
    which the continuation accepted. *)
Lemma run_sound (r : regex) :
  forall prev s k out,
    run r prev s k = Some out ->
    exists m rest,
      s = m +:+ rest /\ lang r prev m rest
      /\ k (after prev m) rest = Some out.
Proof.
  induction r as [p| | | | |r1 IH1 r2 IH2|r1 IH1 r2 IH2|lo hi r1 IH1];
    intros prev s k out; cbn [run lang].
  - destruct s as [|c s]; [discriminate|].
    destruct (p c) eqn:Hc; [|discriminate]. intros Hk.
    exists (String c ""), s. split; [reflexivity|]. split; [eauto|exact Hk].
  - discriminate.
  - destruct prev; [discriminate|]. intros Hk. exists "", s. auto.
  - destruct (at_dollar s) eqn:Hd; [|discriminate]. intros Hk.
    exists "", s. auto.
  - destruct (xorb _ _) eqn:Hx; [|discriminate]. intros Hk.
    exists "", s. auto.
  - intros Hrun.
    apply IH1 in Hrun as [m1 [rest1 [-> [H1 Hrun]]]].
    apply IH2 in Hrun as [m2 [rest [-> [H2 Hk]]]].
    exists (m1 +:+ m2), rest. rewrite append_assoc.
    split; [reflexivity|]. split; [exists m1, m2; auto|].
    now rewrite <- after_append.
  - destruct (run r1 prev s k) as [o|] eqn:Hleft.
    + intros [= ->]. apply IH1 in Hleft as [m [rest [-> [H1 Hk]]]].
      exists m, rest. auto.
    + intros Hright. apply IH2 in Hright as [m [rest [-> [H2 Hk]]]].
      exists m, rest. auto.
  - intros Hrep.
    apply (rep_required_sound (run r1) (lang r1) IH1) in Hrep
      as [j [m [rest [Hj [-> [Hiter Hk]]]]]].
    exists m, rest. split; [reflexivity|]. split; [|exact Hk].
    exists j. split; [lia|]. split; [|exact Hiter].
    intros h ->. lia.
Qed.

Lemma iter_consumes (R : option ascii -> string -> string -> Prop) :
  (forall prev m rest, R prev m rest -> m <> "") ->
  forall n prev m rest, (0 < n)%nat -> iter n R prev m rest -> m <> "".
Proof.
  intros HR [|n] prev m rest Hn; [lia|]. cbn [iter].
  intros [m1 [m2 [-> [H1 _]]]]. apply HR in H1.
  destruct m1; [contradiction|discriminate].
Qed.

(** A match of a pattern that consumes has a character. *)
Lemma lang_consumes (r : regex) :
  consumes r = true -> forall prev m rest, lang r prev m rest -> m <> "".
Proof.
  induction r as [p| | | | |r1 IH1 r2 IH2|r1 IH1 r2 IH2|lo hi r1 IH1];
    cbn [consumes lang]; try discriminate.
  - intros _ prev m rest [c [-> _]]. discriminate.
  - intros _ prev m rest [].
  - rewrite orb_true_iff. intros Hc prev m rest [m1 [m2 [-> [H1 H2]]]].
    destruct Hc as [Hc|Hc].
    + apply (IH1 Hc) in H1. destruct m1; [contradiction|discriminate].
    + apply (IH2 Hc) in H2. destruct m1; [|discriminate].
      now rewrite append_nil_l.
  - rewrite andb_true_iff. intros [Hc1 Hc2] prev m rest [H|H]; eauto.
  - rewrite andb_true_iff, Nat.ltb_lt.
    intros [Hlo Hc] prev m rest [n [Hn [_ Hiter]]].
    apply (iter_consumes _ (IH1 Hc) n prev m rest); [lia|exact Hiter].
Qed.

Lemma take_length_append (m rest : string) :
  Py.take (String.length (m +:+ rest) - String.length rest) (m +:+ rest) = m.
Proof.
  rewrite length_append.
  replace (String.length m + String.length rest - String.length rest)%nat
    with (String.length m) by lia.
  induction m as [|c m IH]; [reflexivity|].
  rewrite append_cons. cbn [String.length Py.take]. now rewrite IH.
Qed.

(** Every element of [findall] is a match of the pattern at some place
    of the text: [pre] is the text already gone through. *)
Lemma findall_from_sound (r : regex) (s : string) :
  forall pre skip v,
    v ∈ findall_from r (after None pre) s skip ->
    exists p q, pre +:+ s = p +:+ v +:+ q /\ lang r (after None p) v q.
Proof.
  induction s as [|c s IH]; intros pre skip v; cbn [findall_from].
  - intros Hin. now apply elem_of_nil in Hin.
  - assert (Hnext : Some c = after None (pre +:+ String c "")).
    { unfold after. now rewrite last_char_append. }
    assert (Hshift : forall k,
               v ∈ findall_from r (Some c) s k ->
               exists p q, pre +:+ String c s = p +:+ v +:+ q
                           /\ lang r (after None p) v q).
    { intros k Hin. rewrite Hnext in Hin.
      apply IH in Hin as [p [q [Heq Hlang]]].
      exists p, q. split; [|exact Hlang].
      rewrite <- Heq, append_assoc. reflexivity. }
    destruct skip as [|skip]; [|apply Hshift].
    destruct (run r (after None pre) (String c s) stop) as [rest|] eqn:Hrun;
      [|apply Hshift].
    intros Hin. apply elem_of_cons in Hin as [->|Hin]; [|eapply Hshift; eauto].
    apply run_sound in Hrun as [m [rest' [Hs [Hlang Hstop]]]].
    injection Hstop as <-. rewrite Hs, take_length_append.
    exists pre, rest'. auto.
Qed.

Lemma findall_sound (r : regex) (text v : string) :
  v ∈ findall r text ->
  exists p q, text = p +:+ v +:+ q /\ lang r (after None p) v q.
Proof.
  unfold findall. intros Hin.
  apply (findall_from_sound r text "" 0 v) in Hin. exact Hin.
Qed.

End MatcherSoundnessResults.

(** ** What [extract_entities] returns *)

Section ExtractionFacts.
Import Re Lang Entities.

Lemma unique_from_spec (l : list string) :
  forall seen,
    NoDup (unique_from seen l)
    /\ forall x, x ∈ unique_from seen l <-> x ∈ l /\ x ∉ seen.
Proof.
  induction l as [|y l IH]; intros seen; cbn [unique_from].
  - split; [constructor|]. intros x. rewrite elem_of_nil. tauto.
  - case_bool_decide as Hy.
    + destruct (IH seen) as [Hnd Hin]. split; [exact Hnd|].
      intros x. rewrite Hin, elem_of_cons. split; [tauto|].
      intros [[->|Hx] Hns]; [contradiction|auto].
    + destruct (IH (y :: seen)) as [Hnd Hin]. split.
      * constructor; [|exact Hnd]. rewrite Hin, elem_of_cons. tauto.
      * intros x. rewrite elem_of_cons, Hin, !elem_of_cons. split.
        -- intros [->|[Hx Hns]]; [auto|]. split; [auto|]. tauto.
        -- intros [[->|Hx] Hns]; [auto|].
           destruct (decide (x = y)) as [->|Hne]; [auto|]. right. tauto.
Qed.

Lemma unique_from_snoc (l : list string) (x : string) :
  forall seen,
    unique_from seen (l ++ [x])
    = if bool_decide (x ∈ l \/ x ∈ seen) then unique_from seen l
      else unique_from seen l ++ [x].
Proof.
  induction l as [|y l IH]; intros seen; cbn [unique_from app].
  - repeat case_bool_decide; try reflexivity.
    + exfalso. auto.
    + exfalso. destruct H0 as [H0|H0]; [now apply elem_of_nil in H0|auto].
  - case_bool_decide as Hy; rewrite IH.
    + repeat case_bool_decide; try reflexivity; exfalso.
      * destruct H as [H|H]; [|auto].
        apply H0. left. apply elem_of_cons. now right.
      * destruct H0 as [H0|H0]; [|auto].
        apply elem_of_cons in H0 as [->|H0]; auto.
    + repeat case_bool_decide; try reflexivity; exfalso.
      * destruct H as [H|H].
        -- apply H0. left. apply elem_of_cons. now right.
        -- apply elem_of_cons in H as [->|H]; [|auto].
           apply H0. left. apply elem_of_cons. now left.
      * destruct H0 as [H0|H0].
        -- apply elem_of_cons in H0 as [->|H0].
           ++ apply H. right. apply elem_of_cons. now left.
           ++ auto.
        -- apply H. right. apply elem_of_cons. now right.
Qed.

(** What a lookup in the result of the loop can give: what was there
    before, or the matches of a pattern of the list. *)
Lemma fold_extract_sound (text : string) (l : list (string * regex)) :
  forall m0 ty values,
    fold_left (extract_one text) l m0 !! ty = Some values ->
    m0 !! ty = Some values
    \/ exists pat,
         (ty, pat) ∈ l /\ values = unique (findall pat text) /\ values <> [].
Proof.
  induction l as [|[k pat] l IH]; intros m0 ty values; cbn [fold_left];
    [auto|].
  intros Hlook. apply IH in Hlook as [Hlook|[pat' [Hin H]]].
  - unfold extract_one in Hlook. cbn [fst snd] in Hlook.
    destruct (unique (findall pat text)) as [|u us] eqn:Hu; [auto|].
    destruct (decide (k = ty)) as [->|Hne].
    + rewrite lookup_insert_eq in Hlook. injection Hlook as <-.
      right. exists pat. rewrite Hu. split; [apply elem_of_cons; auto|].
      split; [reflexivity|discriminate].
    + rewrite lookup_insert_ne in Hlook by exact Hne. auto.
  - right. exists pat'. split; [apply elem_of_cons; auto|exact H].
Qed.

Lemma fold_extract_other (text : string) (l : list (string * regex)) :
  forall m0 ty,
    ty ∉ l.*1 -> fold_left (extract_one text) l m0 !! ty = m0 !! ty.
Proof.
  induction l as [|[k pat] l IH]; intros m0 ty Hty; cbn [fold_left];
    [reflexivity|].
  cbn [fmap list_fmap fst] in Hty. apply not_elem_of_cons in Hty as [Hne Hty].
  rewrite (IH _ _ Hty). unfold extract_one. cbn [fst snd].
  destruct (unique (findall pat text)); [reflexivity|].
  now rewrite lookup_insert_ne.
Qed.

Lemma fold_extract_complete (text : string) (l : list (string * regex)) :
  NoDup l.*1 ->
  forall m0 ty pat,
    (ty, pat) ∈ l ->
    fold_left (extract_one text) l m0 !! ty
    = match unique (findall pat text) with
      | [] => m0 !! ty
      | values => Some values
      end.
Proof.
  induction l as [|[k p] l IH]; intros Hnd m0 ty pat Hin;
    [now apply elem_of_nil in Hin|].
  cbn [fmap list_fmap fst] in Hnd. apply NoDup_cons in Hnd as [Hk Hnd].
  cbn [fold_left]. apply elem_of_cons in Hin as [[= -> ->]|Hin].
  - rewrite (fold_extract_other _ _ _ _ Hk). unfold extract_one.
    cbn [fst snd]. destruct (unique (findall p text)); [reflexivity|].
    apply lookup_insert_eq.
  - rewrite (IH Hnd _ _ _ Hin).
    destruct (unique (findall pat text)); [|reflexivity].
    unfold extract_one. cbn [fst snd].
    destruct (unique (findall p text)); [reflexivity|].
    apply lookup_insert_ne. intros ->. apply Hk.
    apply list_elem_of_fmap. exists (ty, pat). auto.
Qed.

Lemma patterns_distinct : NoDup PATTERNS.*1.
Proof. apply (bool_decide_unpack _). vm_compute. reflexivity. Qed.

Lemma patterns_consume :
  Forall (fun entry => consumes (snd entry) = true) PATTERNS.
Proof. repeat (constructor; [reflexivity|]). constructor. Qed.

Lemma unique_nil (l : list string) : unique l = [] -> l = [].
Proof.
  intros Hu. destruct l as [|x l]; [reflexivity|].
  assert (Hx : x ∈ unique (x :: l)).
  { apply (unique_from_spec (x :: l) []). split; [left|apply not_elem_of_nil]. }
  rewrite Hu in Hx. now apply elem_of_nil in Hx.
Qed.

End ExtractionFacts.

Section ExtractionExtras.
Import Re Lang Entities.

(** X8.  Every list [extract_entities] returns is not empty and has no
    value twice; every value in it is not empty and occurs in the text;
    and the list holds exactly the matches of the pattern of its type. *)
Theorem extract_entities_values (text ty : string) (values : list string) :
  Entities.extract_entities text !! ty = Some values ->
  values <> []
  /\ NoDup values
  /\ Forall (fun v => v <> "" /\ Py.contains v text = true) values
  /\ exists pat,
       (ty, pat) ∈ Entities.PATTERNS
       /\ forall v, v ∈ values <-> v ∈ Re.findall pat text.
Proof.
  unfold extract_entities. intros Hlook.
  apply fold_extract_sound in Hlook as [Hempty|[pat [Hin [-> Hne]]]];
    [rewrite lookup_empty in Hempty; discriminate|].
  destruct (unique_from_spec (findall pat text) []) as [Hnd Helem].
  assert (Hsame : forall v, v ∈ unique (findall pat text)
                            <-> v ∈ findall pat text).
  { intros v. unfold unique. rewrite Helem. split; [tauto|].
    intros Hv. split; [exact Hv|apply not_elem_of_nil]. }
  split; [exact Hne|]. split; [exact Hnd|]. split; [|eauto].
  apply Forall_forall. intros v Hv. apply Hsame in Hv.
  apply findall_sound in Hv as [p [q [-> Hlang]]].
  pose proof patterns_consume as Hcons.
  rewrite Forall_forall in Hcons. specialize (Hcons _ Hin). cbn [snd] in Hcons.
  split; [exact (lang_consumes _ Hcons _ _ _ Hlang)|].
  apply contains_spec. eauto.
Qed.

Lemma extract_entities_values_witness :
  ["abcpe1234f"] <> []
  /\ NoDup ["abcpe1234f"]
  /\ Forall (fun v => v <> "" /\ Py.contains v "pan abcpe1234f" = true)
       ["abcpe1234f"]
  /\ exists pat,
       ("pan_number", pat) ∈ Entities.PATTERNS
       /\ forall v, v ∈ ["abcpe1234f"] <-> v ∈ Re.findall pat "pan abcpe1234f".
Proof.
  apply (extract_entities_values "pan abcpe1234f" "pan_number").
  vm_compute. reflexivity.
Defined.

(** X9.  The result has a type exactly when the pattern of that type
    matches somewhere in the text, and then it holds the matches without
    repetition; a name that is no type of the table is never a key. *)
Theorem extract_entities_keys (text ty : string) :
  (ty ∉ Entities.PATTERNS.*1 -> Entities.extract_entities text !! ty = None)
  /\ (forall pat,
        (ty, pat) ∈ Entities.PATTERNS ->
        (Re.findall pat text = [] ->
         Entities.extract_entities text !! ty = None)
        /\ (Re.findall pat text <> [] ->
            Entities.extract_entities text !! ty
            = Some (Entities.unique (Re.findall pat text)))).
Proof.
  unfold extract_entities. split.
  - intros Hty. rewrite (fold_extract_other _ _ _ _ Hty). apply lookup_empty.
  - intros pat Hin.
    rewrite (fold_extract_complete text _ patterns_distinct ∅ ty pat Hin).
    rewrite lookup_empty. split.
    + intros ->. reflexivity.
    + intros Hne. destruct (unique (findall pat text)) eqn:Hu; [|reflexivity].
      apply unique_nil in Hu. contradiction.
Qed.

Lemma extract_entities_keys_witness :
  Entities.extract_entities "pan abcpe1234f" !! "address" = None.
Proof.
  apply (proj1 (extract_entities_keys "pan abcpe1234f" "address")).
  apply (bool_decide_unpack _). vm_compute. reflexivity.
Defined.

(** X10.  Removing repeated matches keeps the first occurrence of each
    value, in order: the result has no value twice, has the values of
    the list, and a value added at the end of the list is added at the
    end of the result when it is new and dropped when it is not. *)
Theorem unique_keeps_first_occurrences (l : list string) :
  NoDup (Entities.unique l)
  /\ (forall x, x ∈ Entities.unique l <-> x ∈ l)
  /\ (forall x,
        Entities.unique (l ++ [x])
        = if bool_decide (x ∈ l) then Entities.unique l
          else Entities.unique l ++ [x]).
Proof.
  unfold unique. destruct (unique_from_spec l []) as [Hnd Hin].
  split; [exact Hnd|]. split.
  - intros x. rewrite Hin. split; [tauto|].
    intros Hx. split; [exact Hx|apply not_elem_of_nil].
  - intros x. rewrite unique_from_snoc.
    repeat case_bool_decide; try reflexivity; exfalso.
    + destruct H as [H|H]; [auto|now apply elem_of_nil in H].
    + auto.
Qed.

End ExtractionExtras.

(** ** Extracted PAN and Aadhaar numbers *)

Section ExtractedNumbers.
Import Re Lang Entities.

Lemma iter_class (p : ascii -> bool) (n : nat) :
  forall prev m rest,
    iter n (lang (Class p)) prev m rest ->
    String.length m = n /\ Py.all p m = true.
Proof.
  induction n as [|n IH]; intros prev m rest; cbn [iter].
  - intros ->. auto.
  - intros [m1 [m2 [-> [[c [-> Hc]] Hiter]]]].
    apply IH in Hiter as [Hlen Hall]. rewrite append_cons, append_nil_l.
    cbn [String.length Py.all]. rewrite Hc, Hall, Hlen. auto.
Qed.

Lemma lang_exactly_class (p : ascii -> bool) (n : nat)
    (prev : option ascii) (m rest : string) :
  lang (exactly n (Class p)) prev m rest ->
  String.length m = n /\ Py.all p m = true.
Proof.
  unfold exactly. cbn [lang]. intros [j [Hlo [Hhi Hiter]]].
  specialize (Hhi n eq_refl). assert (j = n) as -> by lia.
  eapply iter_class. exact Hiter.
Qed.

Lemma pan_pattern_of (pat : regex) :
  ("pan_number", pat) ∈ PATTERNS ->
  pat = seq [WordB; exactly 5 letter_i; exactly 4 digit; letter_i] WordB.
Proof.
  unfold PATTERNS. intros H.
  repeat (apply elem_of_cons in H as [H|H];
          [try discriminate; injection H as ->; reflexivity|]).
  now apply elem_of_nil in H.
Qed.

(** A text of letters has a lower-case letter or is all capitals. *)
Lemma letters_upper_or_lower (s : string) :
  Py.all (fun c => Py.isupper_az c || Py.islower_az c) s = true ->
  Py.all Py.isupper_az s = true
  \/ exists c, Py.char_in c s = true /\ Py.islower_az c = true.
Proof.
  induction s as [|c s IH]; cbn [Py.all Py.char_in]; [auto|].
  rewrite andb_true_iff. intros [Hc Hs].
  destruct (Py.isupper_az c) eqn:Hup.
  - destruct (IH Hs) as [Hall|[d [Hin Hd]]]; [left; now rewrite Hall|].
    right. exists d. rewrite Hin, orb_true_r. auto.
  - right. exists c. cbn [orb] in Hc.
    now rewrite (proj2 (Ascii.eqb_eq c c) eq_refl).
Qed.

Lemma islower_az_islower (c : ascii) :
  Py.islower_az c = true -> Py.islower c = true.
Proof. unfold Py.islower. now intros ->. Qed.

(** The shape of a match of the PAN pattern. *)
Lemma pan_match_shape (prev : option ascii) (v rest : string) :
  lang (seq [WordB; exactly 5 letter_i; exactly 4 digit; letter_i] WordB)
    prev v rest ->
  String.length v = 10%nat /\ (pan_format v \/ has_lower v).
Proof.
  unfold letter_i, digit. cbn [seq lang].
  intros [b1 [m1 [-> [[-> _] [letters [m2 [-> [Hletters H]]]]]]]].
  destruct H as [digits [m3 [-> [Hdigits [one [b2 [-> [Hone [-> _]]]]]]]]].
  destruct Hone as [c [-> Hc]].
  apply lang_exactly_class in Hletters as [Hl5 Ha5].
  apply lang_exactly_class in Hdigits as [Hl4 Ha4].
  rewrite append_nil_l. split.
  - rewrite !length_append, Hl5, Hl4. reflexivity.
  - destruct (letters_upper_or_lower _ Ha5) as [Hup|[d [Hin Hd]]].
    + destruct (Py.isupper_az c) eqn:Hcup.
      * left. exists letters, digits, c. rewrite append_nil_r. auto 10.
      * right. exists c. cbn [orb] in Hc.
        rewrite !char_in_append. cbn [Py.char_in].
        rewrite (proj2 (Ascii.eqb_eq c c) eq_refl), !orb_true_r.
        split; [reflexivity|]. apply islower_az_islower. exact Hc.
    + right. exists d. rewrite char_in_append, Hin.
      split; [reflexivity|]. apply islower_az_islower. exact Hd.
Qed.

Lemma aadhaar_pattern_of (pat : regex) :
  ("aadhaar_number", pat) ∈ PATTERNS ->
  pat = seq [WordB; exactly 4 digit; opt space; exactly 4 digit; opt space;
             exactly 4 digit] WordB.
Proof.
  unfold PATTERNS. intros H.
  repeat (apply elem_of_cons in H as [H|H];
          [try discriminate; injection H as ->; reflexivity|]).
  now apply elem_of_nil in H.
Qed.

(** A match of an optional white-space character. *)
Lemma lang_opt_space (prev : option ascii) (m rest : string) :
  lang (opt space) prev m rest ->
  m = "" \/ exists w, m = String w "" /\ Py.isspace w = true.
Proof.
  unfold opt, space. cbn [lang]. intros [j [_ [Hhi Hiter]]].
  specialize (Hhi 1%nat eq_refl).
  destruct j as [|[|j]]; [| |lia]; cbn [iter] in Hiter.
  - now left.
  - destruct Hiter as [m1 [m2 [-> [[w [-> Hw]] ->]]]]. right. eauto.
Qed.

Lemma remove_char_append (c : ascii) (a b : string) :
  Py.remove_char c (a +:+ b) = Py.remove_char c a +:+ Py.remove_char c b.
Proof.
  induction a as [|x a IH]; [reflexivity|].
  rewrite append_cons. cbn [Py.remove_char]. rewrite IH.
  now destruct (Ascii.eqb c x).
Qed.

Lemma isdecimal_not_space (c : ascii) :
  Py.isdecimal c = true -> Ascii.eqb " " c = false /\ Py.isspace c = false.
Proof. destruct c as [[] [] [] [] [] [] [] []]; vm_compute; auto. Qed.

Lemma remove_char_digits (s : string) :
  Py.all Py.isdecimal s = true -> Py.remove_char " " s = s.
Proof.
  induction s as [|c s IH]; cbn [Py.all Py.remove_char]; [reflexivity|].
  rewrite andb_true_iff. intros [Hc Hs].
  destruct (isdecimal_not_space _ Hc) as [-> _]. now rewrite IH.
Qed.

Lemma digits_and_spaces_clean (s : string) :
  digits_and_spaces s <-> Py.all Py.isdecimal (Py.remove_char " " s) = true.
Proof.
  unfold digits_and_spaces.
  induction s as [|c s IH]; cbn [Py.all Py.remove_char]; [tauto|].
  destruct (Ascii.eqb " " c) eqn:Hsp.
  - apply Ascii.eqb_eq in Hsp. subst c.
    change (Py.isdecimal " " || Ascii.eqb " " " ") with true.
    cbn [andb]. exact IH.
  - assert (Hsp' : Ascii.eqb c " " = false).
    { rewrite Ascii.eqb_sym. exact Hsp. }
    rewrite Hsp', orb_false_r. cbn [Py.all].
    rewrite !andb_true_iff, IH. tauto.
Qed.

(** The shape of a match of the Aadhaar pattern: three groups of four
    digits, with at most one white-space character between groups. *)
Lemma aadhaar_match_shape (prev : option ascii) (v rest : string) :
  lang (seq [WordB; exactly 4 digit; opt space; exactly 4 digit; opt space;
             exactly 4 digit] WordB) prev v rest ->
  exists a s1 b s2 c,
    v = a +:+ s1 +:+ b +:+ s2 +:+ c
    /\ (String.length a = 4 /\ String.length b = 4
        /\ String.length c = 4)%nat
    /\ Py.all Py.isdecimal a = true /\ Py.all Py.isdecimal b = true
    /\ Py.all Py.isdecimal c = true
    /\ (s1 = "" \/ exists w, s1 = String w "" /\ Py.isspace w = true)
    /\ (s2 = "" \/ exists w, s2 = String w "" /\ Py.isspace w = true).
Proof.
  unfold digit. cbn [seq lang].
  intros [b1 [m1 [-> [[-> _] [a [m2 [-> [Ha H]]]]]]]].
  destruct H as [s1 [m3 [-> [Hs1 [b [m4 [-> [Hb H]]]]]]]].
  destruct H as [s2 [m5 [-> [Hs2 [c [b2 [-> [Hc [-> _]]]]]]]]].
  apply lang_exactly_class in Ha as [Hla Ha].
  apply lang_exactly_class in Hb as [Hlb Hb].
  apply lang_exactly_class in Hc as [Hlc Hc].
  apply lang_opt_space in Hs1. apply lang_opt_space in Hs2.
  exists a, s1, b, s2, c. rewrite append_nil_l, append_nil_r. auto 10.
Qed.

(** X11.  Every extracted [pan_number] has ten characters, and
    [validate_pan] answers on it: [True] exactly when the value has the
    PAN format, all its letters being capitals, and its fourth character
    is a holder type; so a value with a lower-case letter, which the
    extraction lets through, is refused. *)
Theorem extracted_pan_numbers (text : string) (values : list string)
    (v : string) :
  Entities.extract_entities text !! "pan_number" = Some values ->
  v ∈ values ->
  String.length v = 10%nat
  /\ (Entities.validate_pan v = Ret true
      \/ Entities.validate_pan v = Ret false)
  /\ (Entities.validate_pan v = Ret true
      <-> Entities.pan_format v /\ Entities.holder_type_ok v)
  /\ (Entities.has_lower v -> Entities.validate_pan v = Ret false).
Proof.
  unfold extract_entities. intros Hlook Hv.
  apply fold_extract_sound in Hlook as [Hempty|[pat [Hin [-> _]]]];
    [rewrite lookup_empty in Hempty; discriminate|].
  apply pan_pattern_of in Hin. subst pat.
  apply (unique_from_spec _ []) in Hv as [Hv _].
  apply findall_sound in Hv as [p [q [_ Hlang]]].
  apply pan_match_shape in Hlang as [Hlen _].
  split; [exact Hlen|]. split; [apply validate_pan_returns|].
  split; [|apply has_lower_validate_pan].
  rewrite validate_pan_true. split.
  - intros [body [tail [Heq [Hbody [Hholder _]]]]].
    pose proof (pan_format_length _ Hbody) as Hb.
    assert (tail = "") as ->.
    { apply (f_equal String.length) in Heq.
      rewrite length_append in Heq. destruct tail; [reflexivity|].
      cbn [String.length] in Heq. lia. }
    rewrite append_nil_r in Heq. now subst body.
  - intros [Hfmt Hholder]. exists v, "". rewrite append_nil_r. auto.
Qed.

Lemma extracted_pan_numbers_witness :
  String.length "abcpe1234f" = 10%nat
  /\ (Entities.validate_pan "abcpe1234f" = Ret true
      \/ Entities.validate_pan "abcpe1234f" = Ret false)
  /\ (Entities.validate_pan "abcpe1234f" = Ret true
      <-> Entities.pan_format "abcpe1234f"
          /\ Entities.holder_type_ok "abcpe1234f")
  /\ (Entities.has_lower "abcpe1234f"
      -> Entities.validate_pan "abcpe1234f" = Ret false).
Proof.
  apply (extracted_pan_numbers "pan: abcpe1234f, PAN: ABCPE1234F"
           ["abcpe1234f"; "ABCPE1234F"]).
  - vm_compute. reflexivity.
  - apply elem_of_cons. now left.
Defined.

Lemma separator_removed (s : string) :
  (s = "" \/ exists w, s = String w "" /\ Py.isspace w = true) ->
  (Py.remove_char " " s = "" /\ digits_and_spaces s)
  \/ (Py.remove_char " " s = s /\ ~ digits_and_spaces s
      /\ Py.all Py.isdecimal s = false).
Proof.
  unfold digits_and_spaces. intros [->|[w [-> Hw]]]; [left; auto|].
  cbn [Py.remove_char Py.all]. destruct (Ascii.eqb " " w) eqn:Hsp.
  - apply Ascii.eqb_eq in Hsp. subst w. left. auto.
  - right. assert (Hdec : Py.isdecimal w = false).
    { destruct (Py.isdecimal w) eqn:Hd; [|reflexivity].
      apply isdecimal_not_space in Hd as [_ Hd]. congruence. }
    rewrite Hdec, (Ascii.eqb_sym w " "), Hsp. cbn. auto.
Qed.

Lemma last_char_digits (a : string) :
  (0 < String.length a)%nat -> Py.all Py.isdecimal a = true ->
  Py.last_char a <> Some "010"%char.
Proof.
  induction a as [|c a IH]; cbn [String.length Py.all]; [lia|].
  rewrite andb_true_iff. intros _ [Hc Ha].
  destruct a as [|d a].
  - cbn [Py.last_char]. intros [= ->]. discriminate.
  - rewrite last_char_cons by discriminate.
    apply IH; [cbn [String.length]; lia|exact Ha].
Qed.

(** X12.  An extracted [aadhaar_number] is three groups of four decimal
    digits with at most one white-space character between groups, so it
    has 12 to 14 characters.  [validate_aadhaar] accepts it exactly when
    it holds decimal digits and spaces only and its first character is
    neither the character 0 nor the character 1: a number whose groups
    are separated by a tab or a line feed is extracted and always
    refused.  The decimal digits are those of the class [\d], which on
    the texts covered, over U+0000..U+00FF, are 0-9. *)
Theorem extracted_aadhaar_numbers (text : string) (values : list string)
    (v : string) :
  Entities.extract_entities text !! "aadhaar_number" = Some values ->
  v ∈ values ->
  (12 <= String.length v <= 14)%nat
  /\ (Entities.validate_aadhaar v = Ret true
      <-> Entities.digits_and_spaces v /\ Entities.starts_above_one v).
Proof.
  unfold extract_entities. intros Hlook Hv.
  apply fold_extract_sound in Hlook as [Hempty|[pat [Hin [-> _]]]];
    [rewrite lookup_empty in Hempty; discriminate|].
  apply aadhaar_pattern_of in Hin. subst pat.
  apply (unique_from_spec _ []) in Hv as [Hv _].
  apply findall_sound in Hv as [p [q [_ Hlang]]].
  apply aadhaar_match_shape in Hlang
    as [a [s1 [b [s2 [c [-> [[Hla [Hlb Hlc]] [Ha [Hb [Hc [Hs1 Hs2]]]]]]]]]]].
  split.
  { rewrite !length_append, Hla, Hlb, Hlc.
    destruct Hs1 as [->|[w1 [-> _]]], Hs2 as [->|[w2 [-> _]]];
      cbn [String.length]; lia. }
  assert (Hlast : Py.last_char
                    (Py.remove_char " " (a +:+ s1 +:+ b +:+ s2 +:+ c))
                  <> Some "010"%char).
  { rewrite !remove_char_append, (remove_char_digits c Hc).
    rewrite <- !append_assoc, last_char_append.
    pose proof (last_char_digits c ltac:(lia) Hc) as Hlc'.
    destruct (Py.last_char c) as [x|] eqn:Hx; [exact Hlc'|].
    apply last_char_none in Hx. subst c. discriminate. }
  rewrite (validate_aadhaar_true _ Hlast).
  unfold aadhaar_format, starts_above_one.
  rewrite digits_and_spaces_clean.
  assert (Hfirst : forall t,
             (exists x r, Py.remove_char " " a +:+ t = String x r
                          /\ x <> "0"%char /\ x <> "1"%char)
             <-> exists x r, a +:+ s1 +:+ b +:+ s2 +:+ c = String x r
                             /\ x <> "0"%char /\ x <> "1"%char).
  { intros t. rewrite (remove_char_digits a Ha).
    destruct a as [|x a]; [discriminate|]. rewrite !append_cons.
    split; intros [y [r [[= <- <-] H]]]; eauto. }
  rewrite !remove_char_append. rewrite Hfirst. split.
  - intros [_ [Hall Hstart]]. auto.
  - intros [Hall Hstart]. split; [|auto].
    rewrite !all_append in Hall.
    apply andb_true_iff in Hall as [_ Hall].
    apply andb_true_iff in Hall as [H1 Hall].
    apply andb_true_iff in Hall as [_ Hall].
    apply andb_true_iff in Hall as [H2 _].
    destruct (separator_removed s1 Hs1) as [[Hr1 _]|[Hr1 [_ Hn1]]];
      [|rewrite Hr1 in H1; congruence].
    destruct (separator_removed s2 Hs2) as [[Hr2 _]|[Hr2 [_ Hn2]]];
      [|rewrite Hr2 in H2; congruence].
    rewrite Hr1, Hr2, !append_nil_l, (remove_char_digits a Ha),
      (remove_char_digits b Hb), (remove_char_digits c Hc).
    rewrite !length_append. lia.
Qed.

Lemma extracted_aadhaar_numbers_witness :
  (12 <= String.length "2345 6789 0121" <= 14)%nat
  /\ (Entities.validate_aadhaar "2345 6789 0121" = Ret true
      <-> Entities.digits_and_spaces "2345 6789 0121"
          /\ Entities.starts_above_one "2345 6789 0121").
Proof.
  apply (extracted_aadhaar_numbers "Aadhaar 2345 6789 0121."
           ["2345 6789 0121"]).
  - vm_compute. reflexivity.
  - apply elem_of_cons. now left.
Defined.

End ExtractedNumbers.

(** ** What the validators accept *)

Section ValidatorExtras.
Import Re Entities.

(** X13.  [validate_pan] never raises, and it answers [True] exactly on
    five capitals, four digits and a capital, with a holder type as
    fourth character, possibly followed by one line feed. *)
Theorem validate_pan_accepts_exactly (s : string) :
  (Entities.validate_pan s = Ret true \/ Entities.validate_pan s = Ret false)
  /\ (Entities.validate_pan s = Ret true
      <-> exists body tail,
            s = body +:+ tail /\ Entities.pan_format body
            /\ Entities.holder_type_ok body
            /\ (tail = "" \/ tail = Rag.nl)).
Proof. split; [apply validate_pan_returns|apply validate_pan_true]. Qed.

(** X14.  [validate_ifsc] answers [True] exactly on four capitals, a
    zero and six capitals or digits, possibly followed by one line feed;
    so on 11 or 12 characters only. *)
Theorem validate_ifsc_accepts_exactly (s : string) :
  (Entities.validate_ifsc s = true
   <-> exists body tail,
         s = body +:+ tail /\ Entities.ifsc_format body
         /\ (tail = "" \/ tail = Rag.nl))
  /\ (Entities.validate_ifsc s = true ->
      String.length s = 11%nat \/ String.length s = 12%nat).
Proof.
  unfold validate_ifsc. split; [apply matches_ifsc_re|].
  intros Hm. apply matches_ifsc_re in Hm
    as [body [tail [-> [[bank [branch [-> [Hl4 [_ [Hl6 _]]]]]] Htail]]]].
  rewrite !length_append. cbn [String.length]. rewrite Hl4, Hl6.
  destruct Htail as [-> | ->]; cbn [String.length Rag.nl]; auto.
Qed.

Lemma validate_ifsc_accepts_exactly_witness :
  String.length "SBIN0001234" = 11%nat \/ String.length "SBIN0001234" = 12%nat.
Proof.
  apply (proj2 (validate_ifsc_accepts_exactly "SBIN0001234")).
  vm_compute. reflexivity.
Defined.

(** X15.  [validate_aadhaar] never raises and looks at its argument
    without the spaces only: it answers [True] exactly when what is left
    is twelve decimal digits of which the first is neither the character
    0 nor the character 1, possibly followed by one line feed.  So a
    space anywhere in the argument, also in front, at the end or inside
    a group, makes no difference.  The decimal digits are those of the
    class [\d], which on the strings covered, over U+0000..U+00FF, are
    0-9. *)
Theorem validate_aadhaar_accepts_exactly (s : string) :
  (Entities.validate_aadhaar s = Ret true
   \/ Entities.validate_aadhaar s = Ret false)
  /\ (Entities.validate_aadhaar s = Ret true
      <-> exists body tail,
            Py.remove_char " " s = body +:+ tail
            /\ Entities.aadhaar_format body
            /\ (tail = "" \/ tail = Rag.nl))
  /\ (forall a b,
        s = a +:+ " " +:+ b ->
        Entities.validate_aadhaar s = Entities.validate_aadhaar (a +:+ b)).
Proof.
  split; [apply validate_aadhaar_returns|]. split.
  - unfold validate_aadhaar, aadhaar_format.
    set (clean := Py.remove_char " " s).
    destruct (matches aadhaar_re clean) eqn:Hm; cbn [negb].
    + apply matches_aadhaar_re in Hm
        as [body [tail [Heq [Hlen [Hall Htail]]]]].
      rewrite Heq. destruct body as [|c rest]; [discriminate|].
      destruct (getitem_get (String c rest +:+ tail) 0) as [c' [Hget ->]].
      { unfold Py.len. rewrite length_append. cbn [String.length]. lia. }
      rewrite append_cons in Hget. injection Hget as <-. cbn [bind].
      case_bool_decide as Hin; split.
      * discriminate.
      * intros [body' [tail' [Heq' [[Hlen' [_ [x [r [-> [H0 H1]]]]]] _]]]].
        rewrite !append_cons in Heq'. injection Heq' as <- _.
        apply elem_of_cons in Hin as [->|Hin]; [congruence|].
        apply elem_of_cons in Hin as [->|Hin]; [congruence|].
        now apply elem_of_nil in Hin.
      * intros _. exists (String c rest), tail.
        split; [reflexivity|]. split; [|exact Htail].
        split; [exact Hlen|]. split; [exact Hall|].
        exists c, rest. repeat split; intros ->; apply Hin.
        -- apply elem_of_cons. now left.
        -- apply elem_of_cons. right. apply elem_of_cons. now left.
      * reflexivity.
    + split; [discriminate|].
      intros [body [tail [Heq [[Hlen [Hall _]] Htail]]]].
      assert (matches aadhaar_re clean = true) as Hyes; [|congruence].
      apply matches_aadhaar_re. exists body, tail. auto.
  - intros a b ->. unfold validate_aadhaar.
    rewrite !remove_char_append. reflexivity.
Qed.

Lemma validate_aadhaar_accepts_exactly_witness :
  Entities.validate_aadhaar " 23 45 678901 21 "
  = Entities.validate_aadhaar (" 23 45" +:+ "678901 21 ").
Proof.
  apply (proj2 (proj2 (validate_aadhaar_accepts_exactly
                         " 23 45 678901 21 "))
           " 23 45" "678901 21 ").
  reflexivity.
Defined.

End ValidatorExtras.

(** ** Types and scores *)

Section TypeExtras.
Import Classifier Entities.

Lemma present_count_all (entities : gmap string (list string))
    (required : list string) :
  (forall r, r ∈ required -> is_Some (entities !! r)) ->
  present_count required entities = Z.of_nat (List.length required).
Proof.
  intros Hall. unfold present_count. f_equal. f_equal.
  induction required as [|r required IH]; [reflexivity|].
  rewrite filter_cons. destruct (decide _) as [_|Hno].
  - f_equal. apply IH. intros r' Hr'. apply Hall. now right.
  - exfalso. apply Hno. apply Hall. now left.
Qed.

Lemma score_no_hit (kws : list string) (t : string) :
  (forall kw, In kw kws -> Py.contains kw t = false) -> score kws t = 0.
Proof.
  induction kws as [|k kws IH]; intros Hnone; cbn [score]; [reflexivity|].
  rewrite (Hnone k (or_introl eq_refl)), IH; [reflexivity|].
  intros kw Hkw. apply Hnone. now right.
Qed.

(** X16.  [classify_document] always returns one of the document types
    of the configuration, and each of them has an entry in the table of
    required entities.  A text in which no keyword occurs is classified
    ["other"] and so gets the quality score 75 whatever it holds. *)
Theorem classified_type_is_known (text : string) :
  exists doc_type,
    Classifier.classify_document text = Ret doc_type
    /\ doc_type ∈ Config.DOCUMENT_TYPES
    /\ is_Some (Entities.required_entities !! doc_type)
    /\ (Classifier.no_hits text ->
        doc_type = "other"
        /\ Entities.calculate_quality_score text doc_type = Ret 75%Q).
Proof.
  unfold classify_document.
  destruct (max_key_scores (Py.lower text))
    as [before [ty [kws [after [Htbl [-> [_ _]]]]]]].
  cbn [bind fst snd].
  assert (Hty : ty ∈ ["loan_application"; "kyc_document"; "bank_statement";
                      "salary_slip"]).
  { assert (Hin : (ty, kws) ∈ classifications).
    { rewrite Htbl. apply elem_of_app. right. now left. }
    unfold classifications in Hin.
    repeat (apply elem_of_cons in Hin as [[= -> _]|Hin];
            [apply (bool_decide_unpack _); vm_compute; reflexivity|]).
    now apply elem_of_nil in Hin. }
  assert (Hlow : Forall lowercase kws).
  { pose proof keywords_lowercase as Hall. rewrite Htbl in Hall.
    apply Forall_app in Hall as [_ Hall].
    now apply Forall_cons in Hall as [Hk _]. }
  destruct (score kws (Py.lower text) =? 0) eqn:Hz.
  - exists "other". split; [reflexivity|].
    split; [apply (bool_decide_unpack _); vm_compute; reflexivity|].
    split; [apply (bool_decide_unpack _); vm_compute; reflexivity|].
    intros _. auto.
  - exists ty. split; [reflexivity|]. split.
    { unfold Config.DOCUMENT_TYPES.
      repeat (apply elem_of_cons in Hty as [->|Hty];
              [apply (bool_decide_unpack _); vm_compute; reflexivity|]).
      now apply elem_of_nil in Hty. }
    split.
    { repeat (apply elem_of_cons in Hty as [->|Hty];
              [apply (bool_decide_unpack _); vm_compute; reflexivity|]).
      now apply elem_of_nil in Hty. }
    intros Hnone. exfalso. apply Z.eqb_neq in Hz. apply Hz.
    apply score_no_hit. intros kw Hkw.
    destruct (Py.contains kw (Py.lower text)) eqn:Hc; [|reflexivity].
    exfalso. rewrite List.Forall_forall in Hlow.
    apply (contains_lower_ci_hit text kw (Hlow kw Hkw)) in Hc.
    apply (Hnone ty kws kw); [|exact Hkw|exact Hc].
    apply list_elem_of_In. rewrite Htbl. apply elem_of_app. right. now left.
Qed.

Lemma classified_type_is_known_witness :
  Classifier.no_hits "nothing here"
  /\ Entities.calculate_quality_score "nothing here" "other" = Ret 75%Q.
Proof.
  assert (Hnone : Classifier.no_hits "nothing here").
  { intros ty kws kw Hin Hkw Hhit. unfold classifications in Hin.
    cbn [In] in Hin.
    repeat (destruct Hin as [Hin|Hin];
            [injection Hin as <- <-; cbn [In] in Hkw;
             repeat (destruct Hkw as [<-|Hkw];
                     [apply contains_lower_ci_hit in Hhit;
                      [discriminate Hhit|reflexivity]|]);
             destruct Hkw|]).
    destruct Hin. }
  split; [exact Hnone|].
  destruct (classified_type_is_known "nothing here")
    as [doc_type [_ [_ [_ Hscore]]]].
  destruct (Hscore Hnone) as [-> H75]. exact H75.
Defined.

(** X17.  A type name that is no key of the table of required entities
    gets the flat score 75, like ["other"].  For a type with
    requirements, a text in which every required entity type is found
    scores exactly 100, whether or not anything validates. *)
Theorem quality_score_edges (text doc_type : string) :
  (doc_type ∉ Config.DOCUMENT_TYPES ->
   Entities.calculate_quality_score text doc_type = Ret 75%Q)
  /\ (forall required,
        doc_type <> "other" ->
        Entities.required_entities !! doc_type = Some required ->
        (forall r, r ∈ required ->
                   is_Some (Entities.extract_entities text !! r)) ->
        Entities.calculate_quality_score text doc_type = Ret 100%Q).
Proof.
  split.
  - intros Hunknown. unfold calculate_quality_score, score_entities.
    assert (Hnone : required_entities !! doc_type = None).
    { unfold required_entities. apply not_elem_of_list_to_map_1.
      exact Hunknown. }
    now rewrite Hnone.
  - intros required Hother Hreq Hall.
    unfold calculate_quality_score.
    pose proof (required_entities_known _ _ Hreq Hother) as Hne.
    rewrite (score_entities_required _ _ _ Hreq Hne). f_equal.
    destruct (expected_score_binary64_close (extract_entities text) _ _
                Hreq Hne) as [_ [_ [_ Hfull]]].
    apply Hfull. now apply present_count_all.
Qed.

Lemma quality_score_edges_witness :
  Entities.calculate_quality_score "PAN ABCPE1234F" "invoice" = Ret 75%Q.
Proof.
  apply (proj1 (quality_score_edges "PAN ABCPE1234F" "invoice")).
  apply (bool_decide_unpack _). vm_compute. reflexivity.
Defined.

End TypeExtras.

(** ** The engine *)

Section EngineExtras.
Import Rag.

(** X18.  The availability of the backend is probed once: a fresh engine
    finds it available exactly when listing the models succeeds with at
    least one name, whatever the names are, and every later check
    returns that answer without looking at the backend again.  An engine
    that cached "not available" keeps answering with the fallback even
    when the backend has come up. *)
Theorem availability_is_probed_once (backend later : Rag.ollama)
    (self : Rag.engine) :
  let first := Rag.check_ollama_available backend self in
  Rag.check_ollama_available later (snd first) = first
  /\ (Rag._ollama_available self = None ->
      (fst first = true
       <-> exists names, Rag.list_names backend = Ret names /\ names <> []))
  /\ (fst first = false ->
      forall query context_chunks max_tokens,
        Rag.answer later (snd first) query context_chunks max_tokens
        = Ret (Rag._fallback_response query context_chunks)).
Proof.
  cbv zeta. split; [|split].
  - unfold check_ollama_available.
    destruct (_ollama_available self) as [b|] eqn:Hcache.
    + cbn [snd]. now rewrite Hcache.
    + destruct (list_names backend) as [names|e];
        cbn [bind try_except snd _ollama_available]; reflexivity.
  - intros Hcache. unfold check_ollama_available. rewrite Hcache.
    destruct (list_names backend) as [names|e]; cbn [bind try_except fst].
    + destruct names as [|name names].
      * cbn. split; [discriminate|]. intros [names [[= <-] Hne]].
        contradiction.
      * cbn [List.length]. rewrite orb_true_iff. split; [|intros _; right].
        -- intros _. exists (name :: names). split; [reflexivity|discriminate].
        -- apply Z.ltb_lt. lia.
    + split; [discriminate|]. intros [names [Hl _]]. discriminate.
  - intros Hfirst query context_chunks max_tokens.
    unfold answer, generate_response.
    assert (Hcached : _ollama_available
                        (snd (check_ollama_available backend self))
                      = Some false).
    { revert Hfirst. unfold check_ollama_available.
      destruct (_ollama_available self) as [b|] eqn:Hcache.
      - cbn [fst snd]. intros ->. exact Hcache.
      - destruct (list_names backend) as [names|e];
          cbn [bind try_except fst snd _ollama_available];
          [intros ->|]; reflexivity. }
    unfold check_ollama_available at 1. rewrite Hcached. reflexivity.
Qed.

Lemma availability_is_probed_once_witness :
  Rag.answer (Rag.Ollama (Ret ["llama3:8b"]) (fun _ _ => Ret "Rs. 50,000"))
    (snd (Rag.check_ollama_available
            (Rag.Ollama (Raise (BackendError "refused"))
               (fun _ _ => Raise (BackendError "refused")))
            (Rag.Engine None (Rag.Collection ∅ false))))
    "What is the loan amount?" [] 500
  = Ret (Rag._fallback_response "What is the loan amount?" []).
Proof.
  apply (proj2 (proj2 (availability_is_probed_once
           (Rag.Ollama (Raise (BackendError "refused"))
              (fun _ _ => Raise (BackendError "refused")))
           (Rag.Ollama (Ret ["llama3:8b"]) (fun _ _ => Ret "Rs. 50,000"))
           (Rag.Engine None (Rag.Collection ∅ false))))).
  reflexivity.
Defined.

(** X19.  When the backend is available and the chat call succeeds,
    [generate_response] returns the backend's text unchanged.  In every
    case the call leaves the vector collection as it was and changes the
    engine only by caching the availability. *)
Theorem generate_response_uses_backend_text (backend : Rag.ollama)
    (self : Rag.engine) (query : string) (context_chunks : list Rag.chunk)
    (max_tokens : Z) :
  (forall text,
      fst (Rag.check_ollama_available backend self) = true ->
      Rag.chat_content backend
        (Rag.build_prompt (Rag.build_context context_chunks) query)
        max_tokens = Ret text ->
      Rag.answer backend self query context_chunks max_tokens = Ret text)
  /\ snd (Rag.generate_response backend self query context_chunks max_tokens)
     = snd (Rag.check_ollama_available backend self)
  /\ Rag._collection
       (snd (Rag.generate_response backend self query context_chunks
               max_tokens))
     = Rag._collection self.
Proof.
  unfold answer, generate_response.
  assert (Hcoll : _collection (snd (check_ollama_available backend self))
                  = _collection self).
  { unfold check_ollama_available.
    destruct (_ollama_available self); [reflexivity|].
    destruct (try_except _ _); reflexivity. }
  destruct (check_ollama_available backend self) as [available self1].
  cbn [fst snd] in *. split; [|split].
  - intros text -> Hchat. cbn [negb fst]. now rewrite Hchat.
  - destruct available; reflexivity.
  - destruct available; exact Hcoll.
Qed.

Lemma generate_response_uses_backend_text_witness :
  Rag.answer (Rag.Ollama (Ret ["llama3:8b"]) (fun _ _ => Ret "Rs. 50,000"))
    (Rag.Engine None (Rag.Collection ∅ false))
    "What is the loan amount?" [] 500
  = Ret "Rs. 50,000".
Proof.
  apply (proj1 (generate_response_uses_backend_text
           (Rag.Ollama (Ret ["llama3:8b"]) (fun _ _ => Ret "Rs. 50,000"))
           (Rag.Engine None (Rag.Collection ∅ false))
           "What is the loan amount?" [] 500)); reflexivity.
Defined.

Lemma contains_append_l (p a b : string) :
  Py.contains p a = true -> Py.contains p (a +:+ b) = true.
Proof.
  rewrite !contains_spec. intros [pre [post ->]].
  exists pre, (post +:+ b). now rewrite !append_assoc.
Qed.

Lemma contains_append_r (p a b : string) :
  Py.contains p b = true -> Py.contains p (a +:+ b) = true.
Proof.
  rewrite !contains_spec. intros [pre [post ->]].
  exists (a +:+ pre), post. now rewrite !append_assoc.
Qed.

Lemma join_contains (sep : string) (l : list string) (x : string) :
  x ∈ l -> Py.contains x (join sep l) = true.
Proof.
  induction l as [|y l IH]; intros Hin; [now apply elem_of_nil in Hin|].
  cbn [join]. destruct l as [|z l].
  - apply elem_of_cons in Hin as [->|Hin]; [apply contains_refl|].
    now apply elem_of_nil in Hin.
  - apply elem_of_cons in Hin as [->|Hin].
    + apply contains_append_l, contains_refl.
    + apply contains_append_r, contains_append_r, IH. exact Hin.
Qed.

Lemma fallback_loop_same (cs cs' : list chunk) :
  Forall2 (fun c c' =>
             metadata c !! "filename" = metadata c' !! "filename"
             /\ Py.take 500 (text c) = Py.take 500 (text c')) cs cs' ->
  forall i response,
    fallback_loop i cs response = fallback_loop i cs' response.
Proof.
  induction 1 as [|c c' cs cs' [Hname Hbody] _ IH]; intros i response;
    cbn [fallback_loop]; [reflexivity|].
  unfold filename_of. change 500 with (Z.of_nat 500).
  rewrite !slice_to_take, Hname, Hbody. apply IH.
Qed.

(** X20.  The fallback does not depend on the question, on the chunks
    after the third, or on what a chunk holds besides the file name of
    its metadata and the first 500 characters of its text: two calls
    whose first three chunks agree on these return the same text.  The
    prompt of the main path, in contrast, holds the question and every
    chunk in full, each under the file name of its metadata, or under
    ["Unknown"] when the metadata has none. *)
Theorem fallback_and_prompt_contents (query : string)
    (context_chunks : list Rag.chunk) :
  (forall other_query other_chunks,
      Forall2
        (fun c c' =>
           Rag.metadata c !! "filename" = Rag.metadata c' !! "filename"
           /\ Py.take 500 (Rag.text c) = Py.take 500 (Rag.text c'))
        (firstn 3 context_chunks) (firstn 3 other_chunks) ->
      Rag._fallback_response query context_chunks
      = Rag._fallback_response other_query other_chunks)
  /\ Py.contains query
       (Rag.build_prompt (Rag.build_context context_chunks) query) = true
  /\ (forall c,
        c ∈ context_chunks ->
        (forall filename,
            Rag.metadata c !! "filename" = Some filename ->
            Py.contains
              ("[Source: " +:+ filename +:+ "]" +:+ Rag.nl +:+ Rag.text c)
              (Rag.build_prompt (Rag.build_context context_chunks) query)
            = true)
        /\ (Rag.metadata c !! "filename" = None ->
            Py.contains
              ("[Source: Unknown]" +:+ Rag.nl +:+ Rag.text c)
              (Rag.build_prompt (Rag.build_context context_chunks) query)
            = true)).
Proof.
  split; [|split].
  - intros other_query other_chunks Hsame.
    destruct context_chunks as [|c cs], other_chunks as [|c' cs'];
      [reflexivity|inversion Hsame|inversion Hsame|].
    unfold _fallback_response.
    now rewrite (fallback_loop_same _ _ Hsame).
  - unfold build_prompt.
    repeat (first [apply contains_append_l, contains_refl
                  |apply contains_append_r]).
  - intros c Hc.
    assert (Hin : Py.contains
                    ("[Source: " +:+ filename_of c +:+ "]" +:+ nl +:+ text c)
                    (build_prompt (build_context context_chunks) query)
                  = true).
    { unfold build_prompt.
      do 8 apply contains_append_r. apply contains_append_l.
      unfold build_context. apply join_contains.
      apply list_elem_of_fmap. exists c. auto. }
    unfold filename_of in Hin. split.
    + intros filename Hname. rewrite Hname in Hin. exact Hin.
    + intros Hnone. rewrite Hnone in Hin. exact Hin.
Qed.

Lemma fallback_and_prompt_contents_witness :
  Rag._fallback_response "What is the loan amount?"
    [Rag.Chunk "Loan amount: Rs. 50,000" {["filename" := "loan.pdf"]}
       0%Q None;
     Rag.Chunk "Repayment in 24 instalments" ∅ 0%Q None;
     Rag.Chunk "Interest 9.5%" {["filename" := "terms.txt"]} 0%Q None;
     Rag.Chunk "Signed by the branch manager" ∅ 0%Q None]
  = Rag._fallback_response "Who signed?"
      [Rag.Chunk "Loan amount: Rs. 50,000"
         {["filename" := "loan.pdf"; "doc_type" := "loan_application"]}
         (1 # 2)%Q (Some "d1_chunk_0");
       Rag.Chunk "Repayment in 24 instalments" ∅ 0%Q None;
       Rag.Chunk "Interest 9.5%" {["filename" := "terms.txt"]} 0%Q None].
Proof.
  apply (proj1 (fallback_and_prompt_contents "What is the loan amount?"
                  [Rag.Chunk "Loan amount: Rs. 50,000"
                     {["filename" := "loan.pdf"]} 0%Q None;
                   Rag.Chunk "Repayment in 24 instalments" ∅ 0%Q None;
                   Rag.Chunk "Interest 9.5%" {["filename" := "terms.txt"]}
                     0%Q None;
                   Rag.Chunk "Signed by the branch manager" ∅ 0%Q None])).
  cbn [firstn].
  repeat (constructor; [split; vm_compute; reflexivity|]). constructor.
Defined.

End EngineExtras.

(** ** Adding and deleting the records of a document *)

Section IndexFacts.
Import Rag Index.

Lemma str_of_int_inj (i j : Z) : str_of_int i = str_of_int j -> i = j.
Proof.
  unfold str_of_int. intros Heq.
  apply (f_equal NilEmpty.int_of_string) in Heq.
  rewrite !NilEmpty.isi in Heq. injection Heq as Heq.
  apply (f_equal Z.of_int) in Heq. now rewrite !DecimalZ.of_to in Heq.
Qed.

Lemma append_inj_l (a b c : string) : a +:+ b = a +:+ c -> b = c.
Proof.
  induction a as [|x a IH]; [now rewrite !append_nil_l|].
  rewrite !append_cons. intros [= H]. auto.
Qed.

Lemma embedding_id_inj (doc_id : string) (i j : Z) :
  embedding_id doc_id i = embedding_id doc_id j -> i = j.
Proof.
  unfold embedding_id. intros Heq.
  apply append_inj_l, append_inj_l in Heq. now apply str_of_int_inj.
Qed.

Lemma chunk_metadata_document (metadata : gmap string string)
    (doc_id : string) (chunk_index : Z) :
  chunk_metadata metadata doc_id chunk_index !! "document_id" = Some doc_id.
Proof.
  unfold chunk_metadata. rewrite lookup_insert_ne by discriminate.
  apply lookup_insert_eq.
Qed.

(** On a store that answers, the loop does not raise; it returns one id
    for each pair, keeps the records that were there and adds only
    records of the document. *)
Lemma add_loop_up (doc_id : string) (metadata : gmap string string)
    (pairs : list ((string * Z) * list Q)) :
  forall c embedding_ids,
    down c = false ->
    exists c',
      add_loop doc_id metadata pairs c embedding_ids
      = (Ret (embedding_ids
              ++ List.map (fun p => embedding_id doc_id (snd (fst p))) pairs),
         c')
      /\ down c' = false
      /\ (forall rid r,
            records c !! rid = Some r -> records c' !! rid = Some r)
      /\ (forall rid r,
            records c' !! rid = Some r ->
            records c !! rid = Some r
            \/ rmeta r !! "document_id" = Some doc_id).
Proof.
  induction pairs as [|[[chunk_text chunk_index] embedding] pairs IH];
    intros c embedding_ids Hup; cbn [add_loop List.map].
  - exists c. rewrite app_nil_r. auto.
  - cbn [fst snd]. unfold collection_add. rewrite Hup.
    destruct (records c !! embedding_id doc_id chunk_index) as [old|] eqn:Hold.
    + destruct (IH c (embedding_ids ++ [embedding_id doc_id chunk_index]) Hup)
        as [c' [-> H]].
      exists c'. rewrite <- app_assoc. auto.
    + set (c1 := Collection _ _).
      destruct (IH c1 (embedding_ids ++ [embedding_id doc_id chunk_index])
                  eq_refl) as [c' [-> [Hdown [Hkeep Hnew]]]].
      exists c'. rewrite <- app_assoc.
      split; [reflexivity|]. split; [exact Hdown|]. split.
      * intros rid r Hr. apply Hkeep. subst c1. cbn [records].
        rewrite lookup_insert_ne; [exact Hr|]. intros <-. congruence.
      * intros rid r Hr. apply Hnew in Hr as [Hr|Hr]; [|auto].
        subst c1. cbn [records] in Hr.
        destruct (decide (embedding_id doc_id chunk_index = rid)) as [<-|Hne].
        -- rewrite lookup_insert_eq in Hr. injection Hr as <-.
           right. cbn [rmeta]. apply chunk_metadata_document.
        -- rewrite lookup_insert_ne in Hr by exact Hne. auto.
Qed.

End IndexFacts.

Section IndexExtras.
Import Rag Index.



(** X22.  On a store that answers, and with an embedder that answers,
    [add_document] returns one id per chunk that got an embedding, in
    the order of the chunks, each made of the document id and the chunk
    index; chunks beyond the number of embeddings are left out without
    an error.  Ids of different chunk indexes differ. *)
Theorem add_document_returns_chunk_ids
    (encode : list string -> res (list (list Q))) (self : Rag.engine)
    (doc_id : string) (chunks : list (string * Z))
    (metadata : gmap string string) (embeddings : list (list Q)) :
  Rag.down (Rag._collection self) = false ->
  encode (List.map fst chunks) = Ret embeddings ->
  fst (Index.add_document encode self doc_id chunks metadata)
  = Ret (List.map (fun chunk => Index.embedding_id doc_id (snd chunk))
           (firstn (List.length embeddings) chunks))
  /\ (forall i j,
        Index.embedding_id doc_id i = Index.embedding_id doc_id j -> i = j).
Proof.
  intros Hup Hencode. split; [|apply embedding_id_inj].
  unfold add_document. destruct chunks as [|chunk chunks].
  - now destruct embeddings.
  - rewrite Hencode.
    destruct (add_loop_up doc_id metadata
                (List.combine (chunk :: chunks) embeddings)
                (_collection self) [] Hup) as [c' [-> _]].
    cbn [fst app]. f_equal.
    rewrite <- (List.map_map fst
                  (fun chunk : string * Z => embedding_id doc_id (snd chunk))).
    f_equal. generalize (chunk :: chunks). clear.
    intros l. revert embeddings.
    induction l as [|x l IH]; intros [|e es]; cbn; try reflexivity.
    now rewrite IH.
Qed.

Lemma add_document_returns_chunk_ids_witness :
  fst (Index.add_document (fun _ => Ret [[1%Q]])
         (Rag.Engine None (Rag.Collection ∅ false)) "d1"
         [("Loan amount", 0); ("Rs. 50,000", 1)] ∅)
  = Ret ["d1_chunk_0"].
Proof.
  apply (add_document_returns_chunk_ids (fun _ => Ret [[1%Q]])
           (Rag.Engine None (Rag.Collection ∅ false)) "d1"
           [("Loan amount", 0); ("Rs. 50,000", 1)] ∅ [[1%Q]]);
    reflexivity.
Defined.

(** X23.  Adding a document and then deleting it gives back the engine
    one started with: on a store that answers and holds no record of the
    document, [delete_document_embeddings] after [add_document] returns
    [True] and leaves the engine equal to the first one.  Every record
    [add_document] stores carries the document id in its metadata, even
    when the given metadata had another [document_id]. *)
Theorem add_then_delete_restores (encode : list string -> res (list (list Q)))
    (self : Rag.engine) (doc_id : string) (chunks : list (string * Z))
    (metadata : gmap string string) :
  Rag.down (Rag._collection self) = false ->
  (forall rid r,
      Rag.records (Rag._collection self) !! rid = Some r ->
      Rag.rmeta r !! "document_id" <> Some doc_id) ->
  let added := snd (Index.add_document encode self doc_id chunks metadata) in
  (forall rid r,
      Rag.records (Rag._collection added) !! rid = Some r ->
      Rag.records (Rag._collection self) !! rid = Some r
      \/ Rag.rmeta r !! "document_id" = Some doc_id)
  /\ Rag.delete_document_embeddings added doc_id = (true, self).
Proof.
  intros Hup Hfresh added.
  assert (Hadded :
    down (_collection added) = false
    /\ _ollama_available added = _ollama_available self
    /\ (forall rid r,
          records (_collection self) !! rid = Some r ->
          records (_collection added) !! rid = Some r)
    /\ (forall rid r,
          records (_collection added) !! rid = Some r ->
          records (_collection self) !! rid = Some r
          \/ rmeta r !! "document_id" = Some doc_id)).
  { subst added. unfold add_document.
    destruct chunks as [|chunk chunks]; [cbn [snd]; auto|].
    destruct (encode _) as [embeddings|e]; [|cbn [snd]; auto].
    destruct (add_loop_up doc_id metadata
                (List.combine (chunk :: chunks) embeddings)
                (_collection self) [] Hup) as [c' [-> H]].
    cbn [snd _collection _ollama_available]. split; [apply H|].
    split; [reflexivity|]. apply H. }
  destruct Hadded as [Hup' [Hcache [Hkeep Hnew]]].
  split; [exact Hnew|].
  destruct (delete_document_embeddings_records added doc_id Hup')
    as [Hok [Hdown [Hcache' Hrecords]]].
  destruct (delete_document_embeddings added doc_id) as [ok after] eqn:Hdel.
  cbn [fst snd] in *. subst ok. f_equal.
  destruct after as [cache [recs d]], self as [cache0 [recs0 d0]].
  cbn [_collection _ollama_available records down] in *.
  f_equal; [congruence|]. f_equal; [|congruence].
  apply map_eq. intros rid.
  destruct (recs !! rid) as [r|] eqn:Hr.
  - apply Hrecords in Hr as [Hr Hdoc].
    apply Hnew in Hr as [Hr|Hr]; [now rewrite Hr|contradiction].
  - destruct (recs0 !! rid) as [r0|] eqn:Hr0; [|reflexivity].
    assert (recs !! rid = Some r0) as Hyes; [|congruence].
    apply Hrecords. split; [apply Hkeep; exact Hr0|].
    exact (Hfresh rid r0 Hr0).
Qed.

Lemma add_then_delete_restores_witness :
  Rag.delete_document_embeddings
    (snd (Index.add_document (fun _ => Ret [[1%Q]; [2%Q]])
            (Rag.Engine None (Rag.Collection ∅ false)) "d1"
            [("Loan amount", 0); ("Rs. 50,000", 1)] ∅))
    "d1"
  = (true, Rag.Engine None (Rag.Collection ∅ false)).
Proof.
  apply (add_then_delete_restores (fun _ => Ret [[1%Q]; [2%Q]])
           (Rag.Engine None (Rag.Collection ∅ false)) "d1"
           [("Loan amount", 0); ("Rs. 50,000", 1)] ∅).
  - reflexivity.
  - intros rid r Hr. cbn [records _collection] in Hr.
    rewrite lookup_empty in Hr. discriminate.
Defined.

End IndexExtras.


(** ** Matches with their positions *)

Section PositionFacts.
Import Re Lang Entities Positions.

Lemma drop_length_append (p s : string) :
  Py.drop (String.length p) (p +:+ s) = s.
Proof.
  induction p as [|c p IH]; [rewrite append_nil_l; now destruct s|].
  rewrite append_cons. exact IH.
Qed.

Lemma take_append_exact (v q : string) :
  Py.take (String.length v) (v +:+ q) = v.
Proof.
  induction v as [|c v IH]; [rewrite append_nil_l; now destruct q|].
  rewrite append_cons. cbn [String.length Py.take]. now rewrite IH.
Qed.

(** The slice between the ends of a middle part is that part. *)
Lemma slice_middle (p v q : string) :
  Py.slice (p +:+ v +:+ q) (Py.len p) (Py.len p + Py.len v) = v.
Proof.
  unfold Py.slice, Py.clamp, Py.len. rewrite !length_append, !Nat2Z.inj_add.
  destruct (Z.ltb_spec (Z.of_nat (String.length p)) 0) as [Hneg|_]; [lia|].
  destruct (Z.ltb_spec (Z.of_nat (String.length p)
                        + Z.of_nat (String.length v)) 0) as [Hneg|_]; [lia|].
  rewrite !Z.min_l by lia.
  replace (Z.to_nat (Z.of_nat (String.length p) + Z.of_nat (String.length v)
                     - Z.of_nat (String.length p)))
    with (String.length v) by lia.
  rewrite Nat2Z.id, drop_length_append. apply take_append_exact.
Qed.

Lemma length_take_min (s : string) :
  forall n, String.length (Py.take n s) = Nat.min n (String.length s).
Proof.
  induction s as [|c s IH]; intros [|n]; cbn [Py.take String.length];
    try reflexivity.
  now rewrite IH.
Qed.

Lemma length_drop_minus (s : string) :
  forall n, String.length (Py.drop n s) = (String.length s - n)%nat.
Proof.
  induction s as [|c s IH]; intros [|n]; cbn [Py.drop String.length];
    try reflexivity.
  now rewrite IH.
Qed.

Lemma len_append (a b : string) : Py.len (a +:+ b) = Py.len a + Py.len b.
Proof. unfold Py.len. rewrite length_append. lia. Qed.

(** Every match [finditer] reports is a match of the pattern at the
    offsets it reports: [pre] is the text already gone through. *)
Lemma finditer_from_sound (r : regex) (s : string) :
  forall pre skip v a b,
    (v, a, b) ∈ finditer_from r (after None pre) s (Py.len pre) skip ->
    exists p q,
      pre +:+ s = p +:+ v +:+ q /\ lang r (after None p) v q
      /\ a = Py.len p /\ b = Py.len p + Py.len v.
Proof.
  induction s as [|c s IH]; intros pre skip v a b; cbn [finditer_from].
  - intros Hin. now apply elem_of_nil in Hin.
  - assert (Hnext : Some c = after None (pre +:+ String c "")).
    { unfold after. now rewrite last_char_append. }
    assert (Hpos : Py.len pre + 1 = Py.len (pre +:+ String c "")).
    { rewrite len_append. reflexivity. }
    assert (Hshift : forall k,
               (v, a, b) ∈ finditer_from r (Some c) s (Py.len pre + 1) k ->
               exists p q, pre +:+ String c s = p +:+ v +:+ q
                           /\ lang r (after None p) v q
                           /\ a = Py.len p /\ b = Py.len p + Py.len v).
    { intros k Hin. rewrite Hnext, Hpos in Hin.
      apply IH in Hin as [p [q [Heq Hlang]]].
      exists p, q. split; [|exact Hlang].
      rewrite <- Heq, append_assoc. reflexivity. }
    destruct skip as [|skip]; [|apply Hshift].
    destruct (run r (after None pre) (String c s) stop) as [rest|] eqn:Hrun;
      [|apply Hshift].
    intros Hin. apply elem_of_cons in Hin as [Hhead|Hin];
      [|eapply Hshift; eauto].
    apply run_sound in Hrun as [m [rest' [Hs [Hlang Hstop]]]].
    injection Hstop as <-. rewrite Hs, take_length_append in Hhead.
    rewrite length_append in Hhead.
    injection Hhead as -> -> ->.
    exists pre, rest'. split; [now rewrite Hs|]. split; [exact Hlang|].
    split; [reflexivity|]. unfold Py.len. lia.
Qed.

(** [finditer] and [findall] find the same matches, in the same order. *)
Lemma finditer_from_findall (r : regex) (s : string) :
  forall prev pos skip,
    List.map (fun m : string * Z * Z => fst (fst m))
      (finditer_from r prev s pos skip)
    = findall_from r prev s skip.
Proof.
  induction s as [|c s IH]; intros prev pos skip;
    cbn [finditer_from findall_from]; [reflexivity|].
  destruct skip as [|skip]; [|apply IH].
  destruct (run r prev (String c s) stop) as [rest|]; [|apply IH].
  cbn [List.map fst]. now rewrite IH.
Qed.

(** The matches come with increasing start offsets. *)
Lemma finditer_from_increasing (r : regex) (s : string) :
  forall prev pos skip,
    Forall (fun m : string * Z * Z => pos <= snd (fst m))
      (finditer_from r prev s pos skip)
    /\ StronglySorted
         (fun m1 m2 : string * Z * Z => snd (fst m1) <= snd (fst m2))
         (finditer_from r prev s pos skip).
Proof.
  induction s as [|c s IH]; intros prev pos skip; cbn [finditer_from].
  - split; constructor.
  - assert (Hshift : forall k,
      Forall (fun m : string * Z * Z => pos <= snd (fst m))
        (finditer_from r (Some c) s (pos + 1) k)
      /\ StronglySorted
           (fun m1 m2 : string * Z * Z => snd (fst m1) <= snd (fst m2))
           (finditer_from r (Some c) s (pos + 1) k)).
    { intros k. destruct (IH (Some c) (pos + 1) k) as [Hlow Hsorted].
      split; [|exact Hsorted].
      eapply Forall_impl; [exact Hlow|]. cbn beta. intros m Hm. lia. }
    destruct skip as [|skip]; [|apply Hshift].
    destruct (run r prev (String c s) stop) as [rest|]; [|apply Hshift].
    destruct (Hshift (String.length (String c s) - String.length rest - 1)%nat)
      as [Hlow Hsorted].
    split.
    + constructor; [cbn [fst snd]; lia|exact Hlow].
    + constructor; [exact Hsorted|exact Hlow].
Qed.

Lemma fold_left_app_concat {A B : Type} (f : B -> list A) (l : list B) :
  forall acc,
    fold_left (fun results entry => results ++ f entry) l acc
    = acc ++ concat (List.map f l).
Proof.
  induction l as [|x l IH]; intros acc; cbn [fold_left List.map concat].
  - now rewrite app_nil_r.
  - rewrite IH. now rewrite app_assoc.
Qed.

(** *** The sort *)

Lemma insert_by_start_perm (x : entity_match) (l : list entity_match) :
  insert_by_start x l ≡ₚ x :: l.
Proof.
  induction l as [|y l IH]; cbn [insert_by_start]; [reflexivity|].
  destruct (start x <? start y); [reflexivity|].
  rewrite IH. apply Permutation_swap.
Qed.

Lemma insert_by_start_sorted (x : entity_match) (l : list entity_match) :
  StronglySorted (fun a b => start a <= start b) l ->
  StronglySorted (fun a b => start a <= start b) (insert_by_start x l).
Proof.
  induction 1 as [|y l Hsorted IH Hy]; cbn [insert_by_start].
  - repeat constructor.
  - destruct (Z.ltb_spec (start x) (start y)) as [Hlt|Hge].
    + constructor; [now constructor|].
      constructor; [lia|].
      eapply Forall_impl; [exact Hy|]. cbn beta. intros z Hz. lia.
    + constructor; [exact IH|].
      rewrite insert_by_start_perm. constructor; [lia|exact Hy].
Qed.

Lemma fold_insert_perm (l : list entity_match) :
  forall acc,
    fold_left (fun acc x => insert_by_start x acc) l acc ≡ₚ acc ++ l.
Proof.
  induction l as [|x l IH]; intros acc; cbn [fold_left].
  - now rewrite app_nil_r.
  - rewrite IH, insert_by_start_perm.
    change (x :: acc) with ([x] ++ acc).
    rewrite (Permutation_app_comm [x] acc), <- app_assoc. reflexivity.
Qed.

Lemma fold_insert_sorted (l : list entity_match) :
  forall acc,
    StronglySorted (fun a b => start a <= start b) acc ->
    StronglySorted (fun a b => start a <= start b)
      (fold_left (fun acc x => insert_by_start x acc) l acc).
Proof.
  induction l as [|x l IH]; intros acc Hacc; cbn [fold_left]; [exact Hacc|].
  apply IH, insert_by_start_sorted, Hacc.
Qed.

(** An element that comes at or after all the others goes to the end. *)
Lemma insert_by_start_last (x : entity_match) (l : list entity_match) :
  Forall (fun y => start y <= start x) l -> insert_by_start x l = l ++ [x].
Proof.
  induction 1 as [|y l Hy _ IH]; cbn [insert_by_start]; [reflexivity|].
  destruct (Z.ltb_spec (start x) (start y)) as [Hlt|_]; [lia|].
  now rewrite IH.
Qed.

(** Sorting a sorted list changes nothing. *)
Lemma fold_insert_of_sorted (l : list entity_match) :
  forall acc,
    StronglySorted (fun a b => start a <= start b) (acc ++ l) ->
    fold_left (fun acc x => insert_by_start x acc) l acc = acc ++ l.
Proof.
  induction l as [|x l IH]; intros acc Hsorted; cbn [fold_left].
  - now rewrite app_nil_r.
  - rewrite insert_by_start_last.
    + rewrite IH; rewrite <- app_assoc; [reflexivity|exact Hsorted].
    + apply Forall_forall. intros y Hy.
      clear IH. induction acc as [|z acc IHacc];
        [now apply elem_of_nil in Hy|].
      cbn [app] in Hsorted. apply StronglySorted_inv in Hsorted
        as [Hrest Hz].
      apply elem_of_cons in Hy as [->|Hy]; [|now apply IHacc].
      rewrite Forall_forall in Hz. apply Hz.
      apply elem_of_app. right. apply elem_of_cons. now left.
Qed.

(** The sort is stable: picking the elements of one kind after the sort
    is sorting the elements of that kind. *)
Lemma filter_insert_by_start (P : entity_match -> Prop)
    `{!forall m, Decision (P m)} (x : entity_match)
    (l : list entity_match) :
  StronglySorted (fun a b => start a <= start b) l ->
  filter P (insert_by_start x l)
  = if decide (P x) then insert_by_start x (filter P l) else filter P l.
Proof.
  induction 1 as [|y l Hsorted IH Hy]; cbn [insert_by_start].
  - rewrite filter_cons, filter_nil. now destruct (decide (P x)).
  - destruct (Z.ltb_spec (start x) (start y)) as [Hlt|Hge].
    + rewrite (filter_cons P x). destruct (decide (P x)) as [Hx|Hx];
        [|reflexivity].
      assert (Hall : Forall (fun z => start x < start z) (filter P (y :: l))).
      { apply Forall_forall. intros z Hz.
        apply list_elem_of_filter in Hz as [_ Hz].
        apply elem_of_cons in Hz as [->|Hz]; [exact Hlt|].
        rewrite Forall_forall in Hy. specialize (Hy z Hz). lia. }
      destruct (filter P (y :: l)) as [|z zs]; [reflexivity|].
      cbn [insert_by_start]. apply Forall_inv in Hall.
      destruct (Z.ltb_spec (start x) (start z)); [reflexivity|lia].
    + rewrite (filter_cons P y), IH, (filter_cons P y).
      destruct (decide (P y)) as [Hpy|Hpy], (decide (P x)) as [Hx|Hx];
        try reflexivity.
      cbn [insert_by_start].
      destruct (Z.ltb_spec (start x) (start y)); [lia|reflexivity].
Qed.

Lemma filter_fold_insert (P : entity_match -> Prop)
    `{!forall m, Decision (P m)} (l : list entity_match) :
  forall acc,
    StronglySorted (fun a b => start a <= start b) acc ->
    filter P (fold_left (fun acc x => insert_by_start x acc) l acc)
    = fold_left (fun acc x => insert_by_start x acc) (filter P l)
        (filter P acc).
Proof.
  induction l as [|x l IH]; intros acc Hacc; cbn [fold_left];
    [reflexivity|].
  rewrite IH by now apply insert_by_start_sorted.
  rewrite filter_insert_by_start by exact Hacc.
  rewrite (filter_cons P x). now destruct (decide (P x)).
Qed.

(** *** The results before the sort *)

Lemma matches_of_type (text : string) (entry : string * regex) :
  Forall (fun m => type m = fst entry) (matches_of text entry).
Proof.
  unfold matches_of. apply Forall_forall. intros m Hm.
  apply list_elem_of_fmap in Hm as [[[v a] b] [-> _]]. reflexivity.
Qed.

Lemma matches_of_values (text : string) (entry : string * regex) :
  List.map value (matches_of text entry) = findall (snd entry) text.
Proof.
  unfold matches_of, findall, finditer.
  rewrite <- (finditer_from_findall (snd entry) text None 0 0).
  rewrite List.map_map. apply List.map_ext. now intros [[v a] b].
Qed.

Lemma matches_of_sorted (text : string) (entry : string * regex) :
  StronglySorted (fun a b => start a <= start b) (matches_of text entry).
Proof.
  unfold matches_of, finditer.
  destruct (finditer_from_increasing (snd entry) text None 0 0) as [_ H].
  induction H as [|m l Hsorted IH Hm]; cbn [List.map]; [constructor|].
  constructor; [exact IH|].
  apply Forall_forall. intros x Hx.
  apply list_elem_of_fmap in Hx as [[[v a] b] [-> Hin]].
  rewrite Forall_forall in Hm. specialize (Hm _ Hin).
  destruct m as [[v0 a0] b0]. exact Hm.
Qed.

Lemma filter_all {A : Type} (P : A -> Prop) `{!forall x, Decision (P x)}
    (l : list A) :
  Forall P l -> filter P l = l.
Proof.
  induction 1 as [|x l Hx _ IH]; [reflexivity|].
  now rewrite filter_cons_True, IH.
Qed.

Lemma filter_none {A : Type} (P : A -> Prop) `{!forall x, Decision (P x)}
    (l : list A) :
  Forall (fun x => ~ P x) l -> filter P l = [].
Proof.
  induction 1 as [|x l Hx _ IH]; [reflexivity|].
  now rewrite filter_cons_False, IH.
Qed.

(** Among the results of a table with distinct names, those of one name
    are the matches of its pattern. *)
Lemma filter_results (text ty : string) (pat : regex)
    (l : list (string * regex)) :
  NoDup l.*1 ->
  (ty, pat) ∈ l ->
  filter (fun m => type m = ty) (concat (List.map (matches_of text) l))
  = matches_of text (ty, pat).
Proof.
  induction l as [|[k p] l IH]; intros Hnd Hin;
    [now apply elem_of_nil in Hin|].
  cbn [fmap list_fmap fst] in Hnd. apply NoDup_cons in Hnd as [Hk Hnd].
  cbn [List.map concat]. rewrite filter_app.
  apply elem_of_cons in Hin as [[= -> ->]|Hin].
  - rewrite filter_all by apply (matches_of_type text (k, p)).
    rewrite filter_none; [apply app_nil_r|].
    apply Forall_forall. intros m Hm Hty.
    apply list_elem_of_In, in_concat in Hm as [ms [Hms Hm]].
    apply in_map_iff in Hms as [[k' p'] [<- Hentry]].
    pose proof (matches_of_type text (k', p')) as Hall.
    rewrite Forall_forall in Hall.
    apply list_elem_of_In in Hm. apply Hall in Hm. cbn [fst] in Hm.
    apply Hk. apply list_elem_of_fmap. exists (k', p').
    split; [cbn [fst]; congruence|now apply list_elem_of_In].
  - rewrite filter_none; [now rewrite IH|].
    apply Forall_forall. intros m Hm Hty.
    pose proof (matches_of_type text (k, p)) as Hall.
    rewrite Forall_forall in Hall. apply Hall in Hm. cbn [fst] in Hm.
    apply Hk. apply list_elem_of_fmap. exists (ty, pat).
    split; [cbn [fst]; congruence|exact Hin].
Qed.

End PositionFacts.

Section PositionContext.
Import Re Lang Entities Positions.

Lemma slice_of_middle (s pre mid post : string) (a b : Z) :
  s = pre +:+ mid +:+ post ->
  a = Py.len pre ->
  b = Py.len pre + Py.len mid ->
  Py.slice s a b = mid.
Proof. intros -> -> ->. apply slice_middle. Qed.

(** The slice that starts 30 characters before a part of the text, or
    at the start of the text, and ends 30 characters after it, or at
    the end of the text: the part with what is around it. *)
Lemma context_around (p v q : string) :
  exists pre before behind post,
    p = pre +:+ before /\ q = behind +:+ post
    /\ Py.len before = Z.min 30 (Py.len p)
    /\ Py.len behind = Z.min 30 (Py.len q)
    /\ Py.slice (p +:+ v +:+ q) (Z.max 0 (Py.len p - 30))
         (Z.min (Py.len (p +:+ v +:+ q)) (Py.len p + Py.len v + 30))
       = before +:+ v +:+ behind.
Proof.
  exists (Py.take (String.length p - 30) p),
         (Py.drop (String.length p - 30) p),
         (Py.take 30 q), (Py.drop 30 q).
  split; [apply take_drop_string|]. split; [apply take_drop_string|].
  assert (Hbefore : Py.len (Py.drop (String.length p - 30) p)
                    = Z.min 30 (Py.len p)).
  { unfold Py.len. rewrite length_drop_minus. lia. }
  assert (Hbehind : Py.len (Py.take 30 q) = Z.min 30 (Py.len q)).
  { unfold Py.len. rewrite length_take_min. lia. }
  split; [exact Hbefore|]. split; [exact Hbehind|].
  apply (slice_of_middle _ (Py.take (String.length p - 30) p) _
           (Py.drop 30 q)).
  - rewrite !append_assoc, <- (take_drop_string q 30).
    rewrite <- !append_assoc, <- (take_drop_string p). reflexivity.
  - unfold Py.len. rewrite length_take_min. lia.
  - rewrite !len_append, Hbefore, Hbehind.
    unfold Py.len. rewrite length_take_min. lia.
Qed.

(** What the results are before the sort. *)
Lemma results_elem (text : string) (m : entity_match) :
  m ∈ extract_entities_with_positions text ->
  exists ty pat v a b,
    (ty, pat) ∈ PATTERNS /\ (v, a, b) ∈ finditer pat text
    /\ m = EntityMatch ty v a b
             (Py.slice text (Z.max 0 (a - 30))
                (Z.min (Py.len text) (b + 30))).
Proof.
  unfold extract_entities_with_positions, sorted_by_start. intros Hm.
  rewrite fold_insert_perm, fold_left_app_concat in Hm. cbn [app] in Hm.
  apply list_elem_of_In, in_concat in Hm as [ms [Hms Hm]].
  apply in_map_iff in Hms as [[ty pat] [<- Hentry]].
  unfold matches_of in Hm. apply in_map_iff in Hm as [[[v a] b] [<- Hin]].
  exists ty, pat, v, a, b. cbn [fst snd] in *.
  split; [now apply list_elem_of_In|]. split; [now apply list_elem_of_In|].
  reflexivity.
Qed.

End PositionContext.

Section PositionExtras.
Import Re Lang Entities Positions.

(** X24.  [extract_entities_with_positions] returns its results in the
    order of their start offsets.  Each result has a type of the table
    and a value that is not empty and is the text between its two
    offsets; its context is the value with the 30 characters before it
    and the 30 characters after it, or as many as the text has. *)
Theorem positions_sorted_and_located (text : string) :
  StronglySorted
    (fun a b => Positions.start a <= Positions.start b)
    (Positions.extract_entities_with_positions text)
  /\ forall m,
       m ∈ Positions.extract_entities_with_positions text ->
       Positions.type m ∈ Entities.PATTERNS.*1
       /\ Positions.value m <> ""
       /\ 0 <= Positions.start m
       /\ Positions.end_ m
          = Positions.start m + Py.len (Positions.value m)
       /\ Positions.end_ m <= Py.len text
       /\ Positions.value m
          = Py.slice text (Positions.start m) (Positions.end_ m)
       /\ exists pre before behind post,
            text = pre +:+ before +:+ Positions.value m +:+ behind +:+ post
            /\ Positions.start m = Py.len pre + Py.len before
            /\ Py.len before = Z.min 30 (Positions.start m)
            /\ Py.len behind = Z.min 30 (Py.len text - Positions.end_ m)
            /\ Positions.context m
               = before +:+ Positions.value m +:+ behind.
Proof.
  split.
  - unfold extract_entities_with_positions, sorted_by_start.
    apply fold_insert_sorted. constructor.
  - intros m Hm.
    apply results_elem in Hm as [ty [pat [v [a [b [Hentry [Hin ->]]]]]]].
    cbn [type value start end_ context].
    unfold finditer in Hin.
    apply (finditer_from_sound pat text "" 0 v a b) in Hin
      as [p [q [Htext [Hlang [-> ->]]]]].
    rewrite append_nil_l in Htext. subst text.
    pose proof patterns_consume as Hcons.
    rewrite Forall_forall in Hcons. specialize (Hcons _ Hentry).
    cbn [snd] in Hcons.
    split; [apply list_elem_of_fmap; exists (ty, pat); auto|].
    split; [exact (lang_consumes _ Hcons _ _ _ Hlang)|].
    split; [unfold Py.len; lia|]. split; [reflexivity|].
    split; [rewrite !len_append; unfold Py.len; lia|].
    split; [symmetry; apply slice_middle|].
    destruct (context_around p v q)
      as [pre [before [behind [post [Hp [Hq [Hb [Hh Hslice]]]]]]]].
    exists pre, before, behind, post.
    split; [rewrite Hp at 1; rewrite Hq at 1; now rewrite !append_assoc|].
    split; [rewrite Hp at 1; apply len_append|].
    split; [exact Hb|]. split.
    + rewrite Hh, !len_append. f_equal. lia.
    + rewrite <- Hslice. f_equal.
Qed.

Lemma positions_sorted_and_located_witness :
  "ABCPE1234F" = Py.slice "PAN: ABCPE1234F" 5 15.
Proof.
  refine (proj1 (proj2 (proj2 (proj2 (proj2 (proj2
            (proj2 (positions_sorted_and_located "PAN: ABCPE1234F")
               (Positions.EntityMatch "pan_number" "ABCPE1234F" 5 15
                  "PAN: ABCPE1234F") _))))))).
  assert (Hall : Positions.extract_entities_with_positions "PAN: ABCPE1234F"
                 = [Positions.EntityMatch "pan_number" "ABCPE1234F" 5 15
                      "PAN: ABCPE1234F"])
    by (vm_compute; reflexivity).
  rewrite Hall. apply elem_of_cons. now left.
Defined.

(** X25.  The two extractors agree: for every type of the table, the
    values of the results of that type, in the order of the results, are
    the matches [extract_entities] starts from, repetitions included;
    [extract_entities] has the type as a key when there is such a result,
    with these values less the repetitions. *)
Theorem positions_agree_with_extract_entities (text ty : string)
    (pat : Re.regex) :
  (ty, pat) ∈ Entities.PATTERNS ->
  List.map Positions.value
    (filter (fun m => Positions.type m = ty)
       (Positions.extract_entities_with_positions text))
  = Re.findall pat text
  /\ Entities.extract_entities text !! ty
     = match
         List.map Positions.value
           (filter (fun m => Positions.type m = ty)
              (Positions.extract_entities_with_positions text))
       with
       | [] => None
       | values => Some (Entities.unique values)
       end.
Proof.
  intros Hentry.
  assert (Hvalues :
    List.map value
      (filter (fun m => type m = ty) (extract_entities_with_positions text))
    = findall pat text).
  { unfold extract_entities_with_positions, sorted_by_start.
    rewrite filter_fold_insert by constructor.
    rewrite fold_left_app_concat. cbn [app].
    rewrite (filter_results text ty pat PATTERNS patterns_distinct Hentry).
    rewrite filter_nil, fold_insert_of_sorted
      by apply (matches_of_sorted text (ty, pat)).
    cbn [app]. apply (matches_of_values text (ty, pat)). }
  split; [exact Hvalues|]. rewrite Hvalues.
  unfold extract_entities.
  rewrite (fold_extract_complete text _ patterns_distinct ∅ ty pat Hentry).
  rewrite lookup_empty.
  destruct (findall pat text) as [|x l] eqn:Hfound; [reflexivity|].
  destruct (unique (x :: l)) eqn:Hu; [|reflexivity].
  apply unique_nil in Hu. discriminate.
Qed.

Lemma positions_agree_with_extract_entities_witness :
  List.map Positions.value
    (filter (fun m => Positions.type m = "pin_code")
       (Positions.extract_entities_with_positions
          "PIN 560001, PAN ABCPE1234F, 560001 again"))
  = Re.findall
      (Re.seq [Re.WordB; Re.Class (Py.between 49 57); Re.exactly 5 Re.digit]
         Re.WordB)
      "PIN 560001, PAN ABCPE1234F, 560001 again".
Proof.
  apply (positions_agree_with_extract_entities
           "PIN 560001, PAN ABCPE1234F, 560001 again" "pin_code").
  unfold Entities.PATTERNS. repeat constructor.
Defined.

End PositionExtras.

(** ** The summary of the extracted entities *)

Section SummaryFacts.
Import Entities.

Lemma total_nonnegative (entities : gmap string (list string)) :
  0 <= map_fold (fun (_ : string) (v : list string) acc =>
                   acc + Z.of_nat (List.length v)) 0 entities.
Proof.
  apply (map_fold_weak_ind (fun total _ => 0 <= total)); [lia|].
  intros k v m total _ Htotal. lia.
Qed.

Lemma total_at_least (entities : gmap string (list string)) (k : string)
    (values : list string) :
  entities !! k = Some values ->
  Z.of_nat (List.length values)
  <= map_fold (fun (_ : string) (v : list string) acc =>
                 acc + Z.of_nat (List.length v)) 0 entities.
Proof.
  intros Hk. rewrite (map_fold_delete_L _ _ k values entities); [|lia|exact Hk].
  pose proof (total_nonnegative (delete k entities)). lia.
Qed.

End SummaryFacts.

Section SummaryExtras.
Import Entities.

(** X26.  [get_entity_summary] does not raise.  It counts the values of
    every type, and the total is the sum of the counts, so no count is
    above it.  It lists the PAN, Aadhaar and IFSC values, and no others,
    in the order given, each with the answer of its validator. *)
Theorem entity_summary_contents (entities : gmap string (list string)) :
  exists summ,
    Entities.get_entity_summary entities = Ret summ
    /\ (forall k,
          Entities.entity_counts summ !! k
          = (fun v => Z.of_nat (List.length v)) <$> entities !! k)
    /\ Entities.total_entities summ
       = map_fold (fun (_ : string) n acc => acc + n) 0
           (Entities.entity_counts summ)
    /\ (forall k n,
          Entities.entity_counts summ !! k = Some n ->
          0 <= n <= Entities.total_entities summ)
    /\ Entities.validated summ !! "pan_numbers"
       = List.map (fun v => (v, Entities.validates Entities.validate_pan v))
           <$> entities !! "pan_number"
    /\ Entities.validated summ !! "aadhaar_numbers"
       = List.map
           (fun v => (v, Entities.validates Entities.validate_aadhaar v))
           <$> entities !! "aadhaar_number"
    /\ Entities.validated summ !! "ifsc_codes"
       = List.map (fun v => (v, Entities.validate_ifsc v))
           <$> entities !! "ifsc_code"
    /\ (forall k,
          k ∉ ["pan_numbers"; "aadhaar_numbers"; "ifsc_codes"] ->
          Entities.validated summ !! k = None).
Proof.
  unfold get_entity_summary.
  rewrite (validate_into_answers _ _ _ _ _ validate_pan_returns).
  cbn [bind].
  rewrite (validate_into_answers _ _ _ _ _ validate_aadhaar_returns).
  cbn [bind].
  rewrite (validate_into_answers _ _ _ _ _ validate_ifsc_answers).
  cbn [bind]. eexists. split; [reflexivity|].
  cbn [entity_counts total_entities validated].
  split; [intros k; apply lookup_fmap|].
  split; [now rewrite map_fold_fmap|].
  split.
  { intros k n Hn. rewrite lookup_fmap in Hn.
    destruct (entities !! k) as [values|] eqn:Hk; [|discriminate].
    injection Hn as <-. split; [lia|]. now apply (total_at_least _ k). }
  assert (Hifsc : forall values,
            List.map (fun v => (v, validates (fun s => Ret (validate_ifsc s)) v))
              values
            = List.map (fun v => (v, validate_ifsc v)) values).
  { intros values. apply List.map_ext. intros v. unfold validates.
    now destruct (validate_ifsc v). }
  destruct (entities !! "pan_number") as [pans|],
           (entities !! "aadhaar_number") as [aadhaars|],
           (entities !! "ifsc_code") as [ifscs|];
    rewrite ?Hifsc; cbn [fmap option_fmap option_map];
    (split; [now simplify_map_eq|]); (split; [now simplify_map_eq|]);
    (split; [now simplify_map_eq|]);
    intros k Hk; rewrite !not_elem_of_cons in Hk;
    destruct Hk as [H1 [H2 [H3 _]]]; now simplify_map_eq.
Qed.

Lemma entity_summary_contents_witness :
  exists summ,
    Entities.get_entity_summary {["pan_number" := ["ABCPE1234F"]]} = Ret summ
    /\ Entities.validated summ !! "phone_numbers" = None.
Proof.
  destruct (entity_summary_contents {["pan_number" := ["ABCPE1234F"]]})
    as [summ [Hsumm [_ [_ [_ [_ [_ [_ Hother]]]]]]]].
  exists summ. split; [exact Hsumm|]. apply Hother.
  apply (bool_decide_unpack _). vm_compute. reflexivity.
Defined.

End SummaryExtras.

(** ** Indexing the chunks of a text *)

Section PipelineFacts.
Import Rag Index Chunker.

(** The indexes of the chunks [chunk_text] returns are all different. *)
Lemma chunk_text_indexes_distinct (fuel : nat) (text : string)
    (chunk_size overlap : Z) (out : list (string * Z)) :
  chunk_text fuel text chunk_size overlap = Some (Ret out) ->
  NoDup (List.map snd out).
Proof.
  intros Hout.
  assert (Hidx : forall i c idx, out !! i = Some (c, idx) -> idx = Z.of_nat i).
  { revert Hout. unfold chunk_text.
    destruct (Py.len (normalize text) <=? chunk_size).
    - intros [= <-] [|i] c idx Hi; [now injection Hi as _ <-|discriminate].
    - intros Hloop i c idx Hi.
      destruct (chunk_loop_adds (normalize text) chunk_size overlap
                  (fun _ => True) (kept_trivially _ _ overlap) fuel _ _ I
                  Hloop) as [added [-> [_ Hidx]]].
      cbn [chunks chunk_index app] in *. now apply Hidx in Hi. }
  apply NoDup_alt. intros i j idx Hi Hj.
  rewrite list_lookup_fmap in Hi, Hj.
  destruct (out !! i) as [[ci xi]|] eqn:Hi'; [|discriminate].
  destruct (out !! j) as [[cj xj]|] eqn:Hj'; [|discriminate].
  cbn in Hi, Hj. apply Hidx in Hi', Hj'. 
  injection Hi as <-. injection Hj as Heq. lia.
Qed.

Lemma combine_indexes_distinct (chunks : list (string * Z)) :
  NoDup (List.map snd chunks) ->
  forall embeddings : list (list Q),
    NoDup (List.map (fun p : string * Z * list Q => snd (fst p))
             (List.combine chunks embeddings)).
Proof.
  induction chunks as [|[t i] chunks IH]; intros Hnd embeddings;
    [constructor|].
  destruct embeddings as [|e embeddings]; [constructor|].
  cbn [List.map snd] in Hnd. apply NoDup_cons in Hnd as [Hi Hnd].
  cbn [List.combine List.map fst snd]. apply NoDup_cons. split; [|auto].
  intros Hin. apply Hi.
  apply list_elem_of_In, in_map_iff in Hin as [[[t' i'] e'] [Heq Hin]].
  cbn [fst snd] in Heq. subst i'. apply in_combine_l in Hin.
  apply list_elem_of_In, in_map_iff. exists (t', i). auto.
Qed.

Lemma combine_lookup (chunks : list (string * Z))
    (embeddings : list (list Q)) :
  forall i chunk e,
    chunks !! i = Some chunk -> embeddings !! i = Some e ->
    (chunk, e) ∈ List.combine chunks embeddings.
Proof.
  revert embeddings.
  induction chunks as [|c chunks IH]; intros [|e0 embeddings] [|i] chunk e;
    cbn; try discriminate.
  - intros [= <-] [= <-]. apply elem_of_cons. now left.
  - intros Hc He. apply elem_of_cons. right. eapply IH; eauto.
Qed.

Lemma embedding_ids_distinct (doc_id : string) (l : list Z) :
  NoDup l -> NoDup (List.map (embedding_id doc_id) l).
Proof.
  induction 1 as [|i l Hi _ IH]; cbn [List.map]; constructor; [|exact IH].
  intros Hin. apply Hi.
  apply list_elem_of_In, in_map_iff in Hin as [j [Heq Hin]].
  apply embedding_id_inj in Heq. subst j. now apply list_elem_of_In.
Qed.

(** With different indexes and no record under their ids in the store,
    every pair of the loop is stored under its id. *)
Lemma add_loop_stores (doc_id : string) (metadata : gmap string string)
    (pairs : list ((string * Z) * list Q)) :
  forall c embedding_ids,
    down c = false ->
    NoDup (List.map (fun p : string * Z * list Q => snd (fst p)) pairs) ->
    (forall p, p ∈ pairs ->
               records c !! embedding_id doc_id (snd (fst p)) = None) ->
    forall t i e,
      (t, i, e) ∈ pairs ->
      records (snd (add_loop doc_id metadata pairs c embedding_ids))
        !! embedding_id doc_id i
      = Some (VRecord e t (chunk_metadata metadata doc_id i)).
Proof.
  induction pairs as [|[[t0 i0] e0] pairs IH];
    intros c embedding_ids Hup Hnd Hfresh t i e Hin;
    [now apply elem_of_nil in Hin|].
  cbn [List.map fst snd] in Hnd. apply NoDup_cons in Hnd as [Hi0 Hnd].
  cbn [add_loop]. unfold collection_add. rewrite Hup.
  assert (Hhead : records c !! embedding_id doc_id i0 = None)
    by (apply (Hfresh (t0, i0, e0)), elem_of_cons; now left).
  rewrite Hhead.
  set (c1 := Collection _ _).
  apply elem_of_cons in Hin as [[= -> -> ->]|Hin].
  - destruct (add_loop_up doc_id metadata pairs c1
                (embedding_ids ++ [embedding_id doc_id i0]) eq_refl)
      as [c' [-> [_ [Hkeep _]]]].
    cbn [snd]. apply Hkeep. subst c1. cbn [records].
    apply lookup_insert_eq.
  - apply IH; [reflexivity|exact Hnd| |exact Hin].
    intros [[t' i'] e'] Hp. cbn [fst snd]. subst c1. cbn [records].
    rewrite lookup_insert_ne.
    + apply (Hfresh (t', i', e')). apply elem_of_cons. now right.
    + intros Heq. apply embedding_id_inj in Heq. subst i'. apply Hi0.
      apply list_elem_of_In, in_map_iff. exists (t', i0, e').
      split; [reflexivity|now apply list_elem_of_In].
Qed.

End PipelineFacts.

Section PipelineExtras.
Import Rag Index Chunker.

(** X27.  Indexing what [chunk_text] returns loses no chunk: the ids
    [add_document] returns are all different, and on a store that
    answers and has no record under an id of the document, every chunk
    that got an embedding is stored under its id with its text, its
    embedding and the metadata of the document. *)
Theorem chunks_of_a_text_are_all_indexed
    (encode : list string -> res (list (list Q))) (self : Rag.engine)
    (doc_id text : string) (chunk_size overlap : Z) (fuel : nat)
    (metadata : gmap string string) (chunks : list (string * Z))
    (embeddings : list (list Q)) :
  Chunker.chunk_text fuel text chunk_size overlap = Some (Ret chunks) ->
  encode (List.map fst chunks) = Ret embeddings ->
  Rag.down (Rag._collection self) = false ->
  (forall i,
      Rag.records (Rag._collection self) !! Index.embedding_id doc_id i
      = None) ->
  (exists ids,
      fst (Index.add_document encode self doc_id chunks metadata) = Ret ids
      /\ NoDup ids)
  /\ forall i t idx e,
       chunks !! i = Some (t, idx) ->
       embeddings !! i = Some e ->
       Rag.records
         (Rag._collection
            (snd (Index.add_document encode self doc_id chunks metadata)))
         !! Index.embedding_id doc_id idx
       = Some (Rag.VRecord e t (Index.chunk_metadata metadata doc_id idx)).
Proof.
  intros Hchunks Hencode Hup Hfresh.
  apply chunk_text_indexes_distinct in Hchunks.
  pose proof (combine_indexes_distinct chunks Hchunks embeddings) as Hnd.
  split.
  - unfold add_document. destruct chunks as [|chunk chunks].
    + exists []. split; [reflexivity|constructor].
    + rewrite Hencode.
      destruct (add_loop_up doc_id metadata
                  (List.combine (chunk :: chunks) embeddings)
                  (_collection self) [] Hup) as [c' [-> _]].
      cbn [fst app]. eexists. split; [reflexivity|].
      rewrite <- (List.map_map (fun p : string * Z * list Q => snd (fst p))
                    (embedding_id doc_id)).
      now apply embedding_ids_distinct.
  - intros i t idx e Hi He.
    pose proof (combine_lookup chunks embeddings i (t, idx) e Hi He) as Hin.
    unfold add_document. destruct chunks as [|chunk chunks];
      [discriminate|].
    rewrite Hencode.
    pose proof (add_loop_stores doc_id metadata
                  (List.combine (chunk :: chunks) embeddings)
                  (_collection self) [] Hup Hnd
                  (fun p _ => Hfresh (snd (fst p))) t idx e Hin) as Hstored.
    destruct (add_loop doc_id metadata
                (List.combine (chunk :: chunks) embeddings)
                (_collection self) []) as [out c'].
    exact Hstored.
Qed.

Lemma chunks_of_a_text_are_all_indexed_witness :
  Rag.records
    (Rag._collection
       (snd (Index.add_document (fun _ => Ret [[1%Q]; [2%Q]; [3%Q]])
               (Rag.Engine None (Rag.Collection ∅ false)) "d1"
               [("One. Two three four.", 0); ("ur. Five six seven e", 1);
                ("n eight nine ten.", 2)]
               {["filename" := "numbers.txt"]})))
    !! Index.embedding_id "d1" 1
  = Some (Rag.VRecord [2%Q] "ur. Five six seven e"
            (Index.chunk_metadata {["filename" := "numbers.txt"]} "d1" 1)).
Proof.
  apply (proj2 (chunks_of_a_text_are_all_indexed
                  (fun _ => Ret [[1%Q]; [2%Q]; [3%Q]])
                  (Rag.Engine None (Rag.Collection ∅ false)) "d1"
                  "One. Two three four. Five six seven eight nine ten."
                  20 3 10%nat {["filename" := "numbers.txt"]}
                  [("One. Two three four.", 0); ("ur. Five six seven e", 1);
                   ("n eight nine ten.", 2)]
                  [[1%Q]; [2%Q]; [3%Q]]
                  ltac:(vm_compute; reflexivity) eq_refl eq_refl
                  (fun i => lookup_empty _)) 1%nat);
    reflexivity.
Defined.

End PipelineExtras.
